(** * The strong-search session engine of Code-Dock (strong-search.js)

    A shallow embedding of the [StrongSearch] module of
    [src/web/static/js/ui-helpers.js] (lines 118-1078): the module-private
    variables, the part of the page it reads and writes, the WebSocket
    objects it creates, and the functions that drive a search session.

    Conventions of the embedding.
    - JavaScript values that arrive in frames are [jsval]s.  Numbers are
      integers (millisecond clocks, counters); the progress fraction and
      the execution time are exact rationals ([Q]): binary64 rounding,
      NaN and the infinities are outside the model.
    - Objects used as dictionaries ([toolCallMap], [toolCallsByName],
      [fileContents]) are finite maps over their own keys.
    - DOM elements are mutable and shared: the log container, [toolCallMap]
      and [toolCallsByName] hold references (indices into [elements]) to
      the same entry.  Only what the module later reads back, or what a
      user can tell apart, is kept of an element; style attributes, tab
      switching and scrolling are not.
    - An [async] function is a tree ([Step]) that stops at every [await]
      on the network; its continuation receives the answer and the state
      as it is when the callback is resumed, so other callbacks may have
      run in between.
    - A string is the sequence of the bytes of its UTF-8 encoding, as the
      literals of this file are; a string with an unpaired surrogate has
      no such encoding and is outside the model.
    - [JSON.parse] and [Utils.escapeHtml] (utils.js is not part of the
      sources at hand) are parameters of the development.

    The helpers of the [UI] object, which the same file defines before the
    module (lines 1-117), are embedded in the module [UI] below; the
    escaping of search.js stands in for [Utils.escapeHtml] in the
    examples. *)

From Stdlib Require Import ZArith QArith Qround String Ascii List Lia.
From stdpp Require Import gmap strings list pretty.

Open Scope string_scope.
#[local] Set Warnings "-register-all".

(** ** JavaScript values *)

Inductive jsval : Type :=
  | JUndef
  | JNull
  | JBool (b : bool)
  | JNum (n : Z)
  | JStr (s : string)
  | JArr (items : list jsval)
  | JObj (fields : list (string * jsval)).

(** ToBoolean. *)
Definition truthy (v : jsval) : bool :=
  match v with
  | JUndef | JNull => false
  | JBool b => b
  | JNum n => negb (n =? 0)%Z
  | JStr s => negb (String.eqb s "")
  | JArr _ | JObj _ => true
  end.

(** [a || b]. *)
Definition js_or (a b : jsval) : jsval := if truthy a then a else b.

(** [typeof v === 'object'] ([null] included, as in JavaScript). *)
Definition typeof_object (v : jsval) : bool :=
  match v with
  | JNull | JArr _ | JObj _ => true
  | _ => false
  end.

Fixpoint assoc (k : string) (fields : list (string * jsval)) : jsval :=
  match fields with
  | [] => JUndef
  | (k', v) :: rest => if String.eqb k k' then v else assoc k rest
  end.

(** [v.k] for the payload fields the module reads; anything that is not an
    object with that member gives [undefined]. *)
Definition js_get (k : string) (v : jsval) : jsval :=
  match v with
  | JObj fields => assoc k fields
  | _ => JUndef
  end.

Definition join (sep : string) (parts : list string) : string :=
  match parts with
  | [] => ""
  | p :: ps => fold_left (fun acc q => acc ++ sep ++ q) ps p
  end.

(** ToString, as applied by template literals and by property keys. *)
Fixpoint js_toString (v : jsval) : string :=
  match v with
  | JUndef => "undefined"
  | JNull => "null"
  | JBool true => "true"
  | JBool false => "false"
  | JNum n => pretty n
  | JStr s => s
  | JArr items =>
      join "," (map (fun i => match i with
                              | JUndef | JNull => ""
                              | _ => js_toString i
                              end) items)
  | JObj _ => "[object Object]"
  end.

(** ** Strings *)

Definition dquote : string := String "034"%char EmptyString.

(** The white space and the line terminators of ECMAScript that take one
    byte: U+0020 and U+0009 to U+000D. *)
Definition is_space (c : ascii) : bool :=
  let n := nat_of_ascii c in
  (n =? 32)%nat || ((9 <=? n)%nat && (n <=? 13)%nat).

(** Those that take more, in UTF-8: U+00A0, U+1680, U+2000 to U+200A,
    U+2028, U+2029, U+202F, U+205F, U+3000 and U+FEFF. *)
Definition wideSpaces : list (list ascii) :=
  [["194"; "160"]; ["225"; "154"; "128"];
   ["226"; "128"; "128"]; ["226"; "128"; "129"]; ["226"; "128"; "130"];
   ["226"; "128"; "131"]; ["226"; "128"; "132"]; ["226"; "128"; "133"];
   ["226"; "128"; "134"]; ["226"; "128"; "135"]; ["226"; "128"; "136"];
   ["226"; "128"; "137"]; ["226"; "128"; "138"];
   ["226"; "128"; "168"]; ["226"; "128"; "169"]; ["226"; "128"; "175"];
   ["226"; "129"; "159"]; ["227"; "128"; "128"]; ["239"; "187"; "191"]]%char.

(** [s] without the bytes [p] that it starts with. *)
Fixpoint stripPrefix (p : list ascii) (s : string) : option string :=
  match p with
  | [] => Some s
  | b :: p' =>
      match s with
      | String c rest => if Ascii.eqb c b then stripPrefix p' rest else None
      | EmptyString => None
      end
  end.

(** [s] without the white space that it starts with, if it starts with
    one. *)
Definition afterSpace (s : string) : option string :=
  match s with
  | EmptyString => None
  | String c rest =>
      if is_space c then Some rest
      else fold_right (fun p found => match stripPrefix p s with
                                      | Some rest' => Some rest'
                                      | None => found
                                      end) None wideSpaces
  end.

(** [s.trimStart()]; every white space taken away shortens the text, so
    that its length bounds their number. *)
Fixpoint trimStartWithin (fuel : nat) (s : string) : string :=
  match fuel with
  | O => s
  | S fuel' =>
      match afterSpace s with
      | Some rest => trimStartWithin fuel' rest
      | None => s
      end
  end.

Definition trimStart (s : string) : string :=
  trimStartWithin (String.length s) s.

(** [s.trimEnd()]: the text up to its last character that is no white
    space. *)
Fixpoint trimEnd (s : string) : string :=
  match s with
  | EmptyString => EmptyString
  | String c rest =>
      if String.eqb (trimStart s) "" then EmptyString
      else String c (trimEnd rest)
  end.

(** [s.trim()] (line 994). *)
Definition trim (s : string) : string := trimEnd (trimStart s).

Definition startsWith (p s : string) : bool := String.prefix p s.

Definition includes (p s : string) : bool :=
  match String.index 0 p s with
  | Some _ => true
  | None => false
  end.

(** The test of line 631 that guards [JSON.parse]. *)
Definition looksLikeToolCall (message : string) : bool :=
  startsWith "{" (trim message)
  && includes (dquote ++ "tool_name" ++ dquote ++ ":") message.

(** ** The page and the network *)

(** What [formattedMessage] holds: the empty string it starts as, one of
    the three HTML templates, or escaped text.  The templates are never
    empty; escaped text is empty when the text is. *)
Inductive Markup : Type :=
  | NoMarkup
  | ToolCallBanner (toolName params : jsval)
  | ThinkingBox (body : jsval)
  | JsonBlock (body : jsval)
  | EscapedText (html : string).

(** [formattedMessage.length > 0] *)
Definition nonempty (m : Markup) : bool :=
  match m with
  | NoMarkup => false
  | EscapedText html => negb (String.eqb html "")
  | _ => true
  end.

(** The [.tool-output-container] of a banner. *)
Record OutputContainer : Type := {
  displayed : bool;
  outputPreview : option jsval
}.

(** A [div.log-entry]. *)
Record LogEntry : Type := {
  entryLevel : string;
  entryTime : Z;
  iconClass : string;
  entryBody : Markup;
  outputContainer : option OutputContainer
}.

Record ProgressBar : Type := {
  percent : Z;
  title : option string
}.

Inductive ConnStatus : Type :=
  | StatusConnecting
  | StatusConnected
  | StatusDisconnected.

(** What [project_structure] shows. *)
Inductive StructureView : Type :=
  | TextTree (text : string)
  | EmptyStructure
  | NoStructure.

(** The children of the result container, in document order. *)
Inductive ResultBlock : Type :=
  | AnswerBlock (answer : option string)
  | StructureBlock (view : StructureView)
  | FilesBlock (files : list (string * string))
  | TimeBlock (seconds : Q).

Inductive ReadyState : Type := CONNECTING | OPEN | CLOSING | CLOSED.

(** What the module does to its collaborators, in program order;
    [GotClientId] marks the arrival of the client id (line 374). *)
Inductive Action : Type :=
  | GetClientId
  | GotClientId (client_id : string)
  | NewWebSocket (url : string) (sock : nat)
  | SocketSend (sock : nat) (codebase_name : option string) (query : string)
  | SocketClose (sock : nat)
  | PostBatch (codebase : string) (file_paths : list string).

(** The variables of the module's closure (lines 125-130). *)
Record Vars : Type := {
  currentStrongSearchCodebase : option string;
  strongSearchSocket : option nat;
  strongSearchClientId : option string;
  isStrongSearching : bool;
  toolCallMap : gmap string nat;
  toolCallsByName : gmap string nat
}.

(** The elements looked up by [init]; [None] when [getElementById] found
    nothing.  [elements] is the store of the log entries created so far. *)
Record Page : Type := {
  strongSearchModal : bool;
  strongSearchModalQueryInput : option string;
  strongSearchConnectionStatus : option ConnStatus;
  strongSearchModalProgressBar : option ProgressBar;
  strongSearchModalLogContainer : option (list nat);
  strongSearchModalResultContainer : option (list ResultBlock);
  elements : list LogEntry
}.

(** The sockets created so far with their [readyState], the record of the
    actions, the clock, and the configuration given to [init]: the host of
    [API_BASE_URL] ([None] when [new URL] rejects it) and whether the page
    was loaded over https. *)
Record Network : Type := {
  sockets : list ReadyState;
  trace : list Action;
  clock : Z;
  apiHost : option string;
  pageSecure : bool
}.

Record State : Type := {
  vars : Vars;
  page : Page;
  net : Network
}.

Definition with_vars (f : Vars -> Vars) (s : State) : State :=
  {| vars := f (vars s); page := page s; net := net s |}.
Definition with_page (f : Page -> Page) (s : State) : State :=
  {| vars := vars s; page := f (page s); net := net s |}.
Definition with_net (f : Network -> Network) (s : State) : State :=
  {| vars := vars s; page := page s; net := f (net s) |}.

Definition set_currentStrongSearchCodebase (x : option string) : State -> State :=
  with_vars (fun v =>
    {| currentStrongSearchCodebase := x;
       strongSearchSocket := strongSearchSocket v;
       strongSearchClientId := strongSearchClientId v;
       isStrongSearching := isStrongSearching v;
       toolCallMap := toolCallMap v;
       toolCallsByName := toolCallsByName v |}).

Definition set_strongSearchSocket (x : option nat) : State -> State :=
  with_vars (fun v =>
    {| currentStrongSearchCodebase := currentStrongSearchCodebase v;
       strongSearchSocket := x;
       strongSearchClientId := strongSearchClientId v;
       isStrongSearching := isStrongSearching v;
       toolCallMap := toolCallMap v;
       toolCallsByName := toolCallsByName v |}).

Definition set_strongSearchClientId (x : option string) : State -> State :=
  with_vars (fun v =>
    {| currentStrongSearchCodebase := currentStrongSearchCodebase v;
       strongSearchSocket := strongSearchSocket v;
       strongSearchClientId := x;
       isStrongSearching := isStrongSearching v;
       toolCallMap := toolCallMap v;
       toolCallsByName := toolCallsByName v |}).

Definition set_isStrongSearching (x : bool) : State -> State :=
  with_vars (fun v =>
    {| currentStrongSearchCodebase := currentStrongSearchCodebase v;
       strongSearchSocket := strongSearchSocket v;
       strongSearchClientId := strongSearchClientId v;
       isStrongSearching := x;
       toolCallMap := toolCallMap v;
       toolCallsByName := toolCallsByName v |}).

Definition set_toolCalls (byId byName : gmap string nat) : State -> State :=
  with_vars (fun v =>
    {| currentStrongSearchCodebase := currentStrongSearchCodebase v;
       strongSearchSocket := strongSearchSocket v;
       strongSearchClientId := strongSearchClientId v;
       isStrongSearching := isStrongSearching v;
       toolCallMap := byId;
       toolCallsByName := byName |}).

Definition set_queryInput (x : option string) : State -> State :=
  with_page (fun p =>
    {| strongSearchModal := strongSearchModal p;
       strongSearchModalQueryInput := x;
       strongSearchConnectionStatus := strongSearchConnectionStatus p;
       strongSearchModalProgressBar := strongSearchModalProgressBar p;
       strongSearchModalLogContainer := strongSearchModalLogContainer p;
       strongSearchModalResultContainer := strongSearchModalResultContainer p;
       elements := elements p |}).

Definition set_connectionStatus (x : option ConnStatus) : State -> State :=
  with_page (fun p =>
    {| strongSearchModal := strongSearchModal p;
       strongSearchModalQueryInput := strongSearchModalQueryInput p;
       strongSearchConnectionStatus := x;
       strongSearchModalProgressBar := strongSearchModalProgressBar p;
       strongSearchModalLogContainer := strongSearchModalLogContainer p;
       strongSearchModalResultContainer := strongSearchModalResultContainer p;
       elements := elements p |}).

Definition set_progressBar (x : option ProgressBar) : State -> State :=
  with_page (fun p =>
    {| strongSearchModal := strongSearchModal p;
       strongSearchModalQueryInput := strongSearchModalQueryInput p;
       strongSearchConnectionStatus := strongSearchConnectionStatus p;
       strongSearchModalProgressBar := x;
       strongSearchModalLogContainer := strongSearchModalLogContainer p;
       strongSearchModalResultContainer := strongSearchModalResultContainer p;
       elements := elements p |}).

Definition set_logContainer (x : option (list nat)) : State -> State :=
  with_page (fun p =>
    {| strongSearchModal := strongSearchModal p;
       strongSearchModalQueryInput := strongSearchModalQueryInput p;
       strongSearchConnectionStatus := strongSearchConnectionStatus p;
       strongSearchModalProgressBar := strongSearchModalProgressBar p;
       strongSearchModalLogContainer := x;
       strongSearchModalResultContainer := strongSearchModalResultContainer p;
       elements := elements p |}).

Definition set_resultContainer (x : option (list ResultBlock)) : State -> State :=
  with_page (fun p =>
    {| strongSearchModal := strongSearchModal p;
       strongSearchModalQueryInput := strongSearchModalQueryInput p;
       strongSearchConnectionStatus := strongSearchConnectionStatus p;
       strongSearchModalProgressBar := strongSearchModalProgressBar p;
       strongSearchModalLogContainer := strongSearchModalLogContainer p;
       strongSearchModalResultContainer := x;
       elements := elements p |}).

Definition set_elements (x : list LogEntry) : State -> State :=
  with_page (fun p =>
    {| strongSearchModal := strongSearchModal p;
       strongSearchModalQueryInput := strongSearchModalQueryInput p;
       strongSearchConnectionStatus := strongSearchConnectionStatus p;
       strongSearchModalProgressBar := strongSearchModalProgressBar p;
       strongSearchModalLogContainer := strongSearchModalLogContainer p;
       strongSearchModalResultContainer := strongSearchModalResultContainer p;
       elements := x |}).

Definition set_sockets (x : list ReadyState) : State -> State :=
  with_net (fun n =>
    {| sockets := x; trace := trace n; clock := clock n;
       apiHost := apiHost n; pageSecure := pageSecure n |}).

Definition set_clock (x : Z) : State -> State :=
  with_net (fun n =>
    {| sockets := sockets n; trace := trace n; clock := x;
       apiHost := apiHost n; pageSecure := pageSecure n |}).

(** Appends an action to the record. *)
Definition emit (a : Action) : State -> State :=
  with_net (fun n =>
    {| sockets := sockets n; trace := trace n ++ [a]; clock := clock n;
       apiHost := apiHost n; pageSecure := pageSecure n |}).

(** ** The correlation key and the log store *)

(** [generateToolCallId] (line 154). *)
Definition generateToolCallId (toolName timestamp : jsval) : string :=
  "tool-call-" ++ js_toString toolName ++ "-" ++ js_toString timestamp.

Definition maxLogEntries : nat := 200.

(** The loop of lines 713-715: while the container has more than
    [maxLogEntries] children, remove its first child. *)
Fixpoint evict (children : list nat) : list nat :=
  match children with
  | [] => []
  | _ :: rest =>
      if (maxLogEntries <? length children)%nat then evict rest else children
  end.

(** Lines 709-715: [appendChild] and the loop. *)
Definition appendChild (entry : nat) (children : list nat) : list nat :=
  evict (children ++ [entry])%list.

(** Lines 523-552: the output container of the entry is shown and filled;
    an entry that has none gets one. *)
Definition fillOutput (preview : jsval) (entry : LogEntry) : LogEntry :=
  {| entryLevel := entryLevel entry;
     entryTime := entryTime entry;
     iconClass := iconClass entry;
     entryBody := entryBody entry;
     outputContainer :=
       Some {| displayed := true; outputPreview := Some preview |} |}.

(** Lines 512-519: the exact key first, then the latest call of that
    name. *)
Definition findToolCall (message : jsval) (s : State) : option nat :=
  let toolName := js_get "tool_name" message in
  let timestamp := js_or (js_get "timestamp" message) (JNum (clock (net s))) in
  match toolCallMap (vars s) !! generateToolCallId toolName timestamp with
  | Some toolCallEntry => Some toolCallEntry
  | None => toolCallsByName (vars s) !! js_toString toolName
  end.

(** What lines 562-681 compute: the markup, [isToolCall], and the key and
    the name under which the entry is stored (lines 597-601, 662-666). *)
Record Formatted : Type := {
  formattedMessage : Markup;
  isToolCall : bool;
  stored : option (string * string)
}.

Definition unstored (m : Markup) (tool : bool) : Formatted :=
  {| formattedMessage := m; isToolCall := tool; stored := None |}.

(** The banner of a tool call and its registration. *)
Definition toolCallBanner (payload : jsval) (now : Z) : Formatted :=
  let toolName := js_or (js_get "tool_name" payload) (JStr "未知工具") in
  let params := js_or (js_get "parameters" payload) (JObj []) in
  let msgTimestamp := js_or (js_get "timestamp" payload) (JNum now) in
  {| formattedMessage := ToolCallBanner toolName params;
     isToolCall := true;
     stored := Some (generateToolCallId toolName msgTimestamp,
                     js_toString toolName) |}.

(** Lines 683-703. *)
Definition iconFor (tool : bool) (level : string) : string :=
  if tool then
    if String.eqb level "tool_call_decision" then "fa-lightbulb"
    else if String.eqb level "tool_output" then "fa-reply"
    else "fa-wrench"
  else if String.eqb level "agent_thinking" then "fa-brain"
  else if String.eqb level "error" then "fa-exclamation-circle"
  else if String.eqb level "warning" then "fa-exclamation-triangle"
  else if String.eqb level "success" then "fa-check-circle"
  else if String.eqb level "debug" then "fa-bug"
  else if String.eqb level "trace" then "fa-shoe-prints"
  else "fa-info-circle".

(** [Math.round]: the nearest integer, halves upwards. *)
Definition Math_round (x : Q) : Z := Qfloor (x + (1 # 2)).

(** [updateStrongSearchProgressBar] (lines 723-731); without the bar
    nothing is shown. *)
Definition updateStrongSearchProgressBar
    (progress : Q) (status : string) (s : State) : State :=
  let percent := Z.max 0 (Z.min 100 (Math_round (progress * 100))) in
  set_progressBar
    (option_map
       (fun bar => {| percent := percent;
                      title := if String.eqb status "" then title bar
                               else Some status |})
       (strongSearchModalProgressBar (page s))) s.

(** [updateStrongSearchConnectionStatus] (lines 346-366). *)
Definition updateStrongSearchConnectionStatus
    (status : string) (s : State) : State :=
  set_connectionStatus
    (option_map
       (fun _ => if String.eqb status "connecting" then StatusConnecting
                 else if String.eqb status "connected" then StatusConnected
                 else StatusDisconnected)
       (strongSearchConnectionStatus (page s))) s.

(** ** Frames, answers and asynchronous steps *)

(** The [result] member of a result frame. *)
Record SearchResult : Type := {
  answer : option string;
  relevant_files : option (list string);
  project_structure : option (option string);
  execution_time : option Q
}.

(** A parsed inbound frame, by its [type].  A missing [level] or [status]
    is the empty string, a missing [message] or [error] is [JUndef];
    [UnknownFrame] carries [JSON.stringify(data)]. *)
Inductive Frame : Type :=
  | LogFrame (level : string) (message : jsval)
  | ProgressFrame (progress : Q) (status : string)
  | ResultFrame (result : SearchResult)
  | ErrorFrame (error : jsval)
  | UnknownFrame (json : string).

(** The points where an [async] function waits for the network: the
    client-id request with its [response.json()] (lines 371-373), the
    promise settled by [onopen] or [onerror] (line 403), the batch request
    (lines 859-867). *)
Inductive Request : Type :=
  | AwaitClientId
  | AwaitSocket (sock : nat)
  | AwaitBatch (codebase : string) (file_paths : list string).

Inductive ClientIdAnswer : Type :=
  | ClientIdBody (client_id : string)
  | ClientIdStatus (status : nat)
  | ClientIdFailure (message : string).

Inductive SocketAnswer : Type := SocketOpened | SocketFailed.

Inductive BatchAnswer : Type :=
  | BatchBody (contents : option (gmap string string))
  | BatchStatus (status : nat)
  | BatchFailure (message : string).

Definition Answer (r : Request) : Type :=
  match r with
  | AwaitClientId => ClientIdAnswer
  | AwaitSocket _ => SocketAnswer
  | AwaitBatch _ _ => BatchAnswer
  end.

(** An asynchronous computation: finished with a state and a value, or
    waiting; the continuation is given the answer and the state found on
    resumption. *)
Inductive Step (A : Type) : Type :=
  | Done (s : State) (a : A)
  | Await (s : State) (r : Request) (k : Answer r -> State -> Step A).

Arguments Done {A} s a.
Arguments Await {A} s r k.

Fixpoint bind {A B : Type} (m : Step A) (f : A -> State -> Step B) : Step B :=
  match m with
  | Done s a => f a s
  | Await s r k => Await s r (fun answer s' => bind (k answer s') f)
  end.

(** An execution in which nothing else runs while the function waits. *)
Fixpoint run {A : Type} (answers : forall r, Answer r) (m : Step A)
    : State * A :=
  match m with
  | Done s a => (s, a)
  | Await s r k => run answers (k (answers r) s)
  end.

(** The state that a computation left, and its resumption with the answer
    to its request in the state found then. *)
Definition stateOf {A : Type} (m : Step A) : State :=
  match m with
  | Done s _ => s
  | Await s _ _ => s
  end.

Definition resume {A : Type} (answers : forall r, Answer r) (m : Step A)
    (s' : State) : Step A :=
  match m with
  | Done _ _ => m
  | Await _ r k => k (answers r) s'
  end.

(** How the promise of [connectStrongSearchWebSocket] settles. *)
Inductive Settled : Type :=
  | Resolved (connected : bool)
  | Rejected (message : string).

Definition readyState (sock : nat) (s : State) : option ReadyState :=
  sockets (net s) !! sock.

Definition setReadyState (sock : nat) (r : ReadyState) (s : State) : State :=
  set_sockets (<[sock := r]> (sockets (net s))) s.

(** [strongSearchSocket && strongSearchSocket.readyState === WebSocket.OPEN]:
    the socket when the test holds. *)
Definition openSocket (s : State) : option nat :=
  match strongSearchSocket (vars s) with
  | Some sock =>
      match readyState sock s with
      | Some OPEN => Some sock
      | _ => None
      end
  | None => None
  end.

(** [socket.close()]: a socket that is connecting or open starts closing. *)
Definition closing (r : ReadyState) : ReadyState :=
  match r with
  | CONNECTING | OPEN => CLOSING
  | _ => r
  end.

Definition closeSocket (sock : nat) (s : State) : State :=
  emit (SocketClose sock) (set_sockets (alter closing sock (sockets (net s))) s).

Definition webSocketUrl (secure : bool) (host client_id : string) : string :=
  (if secure then "wss:" else "ws:") ++ "//" ++ host
  ++ "/ws/strong_search/" ++ client_id.

(** [!v] for a string variable that may be [null]. *)
Definition present (v : option string) : option string :=
  match v with
  | Some text => if String.eqb text "" then None else Some text
  | None => None
  end.

(** [files.forEach(file => fileContents[file] = text)] *)
Definition markAll (files : list string) (text : string) : gmap string string :=
  fold_left (fun fileContents file => <[file := text]> fileContents) files ∅.

(** [fileContents[file] || ...] (line 925) *)
Definition shownContent (fileContents : gmap string string) (file : string)
    : string :=
  match present (fileContents !! file) with
  | Some content => content
  | None => "无法加载内容。"
  end.

(** [appendChild] on the result container. *)
Definition appendResult (blocks : list ResultBlock) (s : State) : State :=
  set_resultContainer
    (option_map (fun shown => (shown ++ blocks)%list)
                (strongSearchModalResultContainer (page s))) s.

(** ** A concrete platform and page, for examples *)

(** The escaping of search.js (its own [escapeHtml], line 235), which the
    examples use for [Utils.escapeHtml]. *)
Fixpoint escapeHtml5 (text : string) : string :=
  match text with
  | EmptyString => EmptyString
  | String c rest =>
      (if Ascii.eqb c "&" then "&amp;"
       else if Ascii.eqb c "<" then "&lt;"
       else if Ascii.eqb c ">" then "&gt;"
       else if Ascii.eqb c "034" then "&quot;"
       else if Ascii.eqb c "'" then "&#039;"
       else String c EmptyString) ++ escapeHtml5 rest
  end.

(** A [JSON.parse] that rejects every text; the examples pass objects. *)
Definition rejectAll (text : string) : option jsval := None.

(** The page of index.html once [init] has run and the modal was opened for
    [codebase]: nothing logged, nothing connected. *)
Definition opened (codebase query : string) : State :=
  {| vars := {| currentStrongSearchCodebase := Some codebase;
                strongSearchSocket := None;
                strongSearchClientId := None;
                isStrongSearching := false;
                toolCallMap := ∅;
                toolCallsByName := ∅ |};
     page := {| strongSearchModal := true;
                strongSearchModalQueryInput := Some query;
                strongSearchConnectionStatus := Some StatusDisconnected;
                strongSearchModalProgressBar :=
                  Some {| percent := 0; title := None |};
                strongSearchModalLogContainer := Some [];
                strongSearchModalResultContainer := Some [];
                elements := [] |};
     net := {| sockets := []; trace := []; clock := 0;
               apiHost := Some "localhost:30089"; pageSecure := false |} |}.

(** The page of index.html once [init] has run, before the modal is
    opened: the log container holds the placeholder of the template. *)
Definition served : State :=
  {| vars := {| currentStrongSearchCodebase := None;
                strongSearchSocket := None;
                strongSearchClientId := None;
                isStrongSearching := false;
                toolCallMap := ∅;
                toolCallsByName := ∅ |};
     page := {| strongSearchModal := true;
                strongSearchModalQueryInput := Some "";
                strongSearchConnectionStatus := Some StatusDisconnected;
                strongSearchModalProgressBar :=
                  Some {| percent := 0; title := None |};
                strongSearchModalLogContainer := Some [0%nat];
                strongSearchModalResultContainer := Some [];
                elements :=
                  [{| entryLevel := "info";
                      entryTime := 0;
                      iconClass := "fa-info-circle";
                      entryBody := EscapedText "开始新的搜索将在此显示日志";
                      outputContainer := None |}] |};
     net := {| sockets := []; trace := []; clock := 0;
               apiHost := Some "localhost:30089"; pageSecure := false |} |}.

(** The frames of the scenarios of the specification. *)
Definition grepCall : jsval :=
  JObj [("tool_name", JStr "grep"); ("timestamp", JNum 1000)].

Definition grepOutput : jsval :=
  JObj [("tool_name", JStr "grep"); ("timestamp", JNum 1000);
        ("output_preview", JStr "no matches")].


(** The network as it answers in one execution. *)
Definition answering
    (id : ClientIdAnswer) (socket : SocketAnswer) (batch : BatchAnswer)
    : forall r, Answer r :=
  fun r =>
    match r with
    | AwaitClientId => id
    | AwaitSocket _ => socket
    | AwaitBatch _ _ => batch
    end.

(** The network of the scenarios: the client id is abc123, the socket
    opens, the batch request is answered without contents. *)
Definition friendly : forall r, Answer r :=
  answering (ClientIdBody "abc123") SocketOpened (BatchBody None).

(** ** The helpers of ui-helpers.js (lines 1-117) *)

Module UI.

(** [toggleLoading] (lines 36-43).  The element is seen through its class
    list; [None] is the [null] that [getElementById] gives for a missing
    element. *)
Definition toggleLoading (element : option (gset string)) (show : bool)
    : option (gset string) :=
  match element with
  | None => None
  | Some classList =>
      Some (if show then classList ∖ {["hidden"]} else classList ∪ {["hidden"]})
  end.

(** The inline styles that the modal helpers set. *)
Record Style : Type := {
  opacity : string;
  transform : string;
  transition : string
}.

Definition unset : Style :=
  {| opacity := ""; transform := ""; transition := "" |}.

(** A modal: its class list, its inline style, and the inline style of its
    [.modal-content] child when [querySelector] finds one. *)
Record Modal : Type := {
  classList : gset string;
  style : Style;
  modalContent : option Style
}.

(** The document as the modal helpers see it: the modal they are given
    ([None] for [null]), [document.body.style.overflow], and the number of
    callbacks of [closeModal] that still wait for their 300 ms. *)
Record Document : Type := {
  modalElement : option Modal;
  overflow : string;
  timeouts : nat
}.

(** [openModal] (lines 46-51). *)
Definition openModal (d : Document) : Document :=
  match modalElement d with
  | None => d
  | Some modal =>
      {| modalElement :=
           Some {| classList := classList modal ∪ {["open"]};
                   style := style modal;
                   modalContent := modalContent modal |};
         overflow := "hidden";
         timeouts := timeouts d |}
  end.

(** [closeModal] (lines 54-81): the styles of the closing animation are
    set and the callback is scheduled. *)
Definition closeModal (d : Document) : Document :=
  match modalElement d with
  | None => d
  | Some modal =>
      {| modalElement :=
           Some {| classList := classList modal;
                   style := {| opacity := "0";
                               transform := transform (style modal);
                               transition := "opacity 0.3s ease" |};
                   modalContent :=
                     option_map
                       (fun _ => {| opacity := "0";
                                    transform := "scale(0.95)";
                                    transition :=
                                      "transform 0.3s ease, opacity 0.3s ease" |})
                       (modalContent modal) |};
         overflow := overflow d;
         timeouts := S (timeouts d) |}
  end.

(** The callback of lines 68-80. *)
Definition closed (d : Document) : Document :=
  match modalElement d with
  | None => d
  | Some modal =>
      {| modalElement :=
           Some {| classList := classList modal ∖ {["open"]};
                   style := {| opacity := "";
                               transform := transform (style modal);
                               transition := "" |};
                   modalContent := option_map (fun _ => unset) (modalContent modal) |};
         overflow := "";
         timeouts := timeouts d |}
  end.

(** One of the waiting callbacks runs. *)
Definition timeout (d : Document) : Document :=
  match timeouts d with
  | O => d
  | S waiting =>
      closed {| modalElement := modalElement d;
                overflow := overflow d;
                timeouts := waiting |}
  end.

(** The paragraph that [showStatus] creates; [fading] stands for the
    styles of lines 22-24. *)
Record Para : Type := {
  paraId : nat;
  className : string;
  textContent : string;
  fading : bool
}.

(** The callbacks of [showStatus]: the one of line 20, due after 5000 ms,
    and the one of line 26, due 500 ms after the first; each for the
    paragraph of its call. *)
Inductive Timer : Type :=
  | FadeOut (statusPara : nat)
  | Clear (statusPara : nat).

(** A status element: its children ([None] for a [null] element), the
    number of paragraphs created so far, and the callbacks that wait, with
    their delays. *)
Record StatusArea : Type := {
  children : option (list Para);
  created : nat;
  timers : list (nat * Timer)
}.

(** [showStatus] (lines 7-33). *)
Definition showStatus (message type : string) (a : StatusArea) : StatusArea :=
  match children a with
  | None => a
  | Some _ =>
      let statusPara :=
        {| paraId := created a;
           className := if String.eqb type "info" then "" else "status-" ++ type;
           textContent := message;
           fading := false |} in
      {| children := Some [statusPara];
         created := S (created a);
         timers := (timers a ++ [(5000%nat, FadeOut (created a))])%list |}
  end.

(** [statusPara.parentElement]: the paragraph is still in the element. *)
Definition attached (statusPara : nat) (a : StatusArea) : bool :=
  match children a with
  | Some paras => bool_decide (statusPara ∈ paraId <$> paras)
  | None => false
  end.

Definition fade (statusPara : nat) (p : Para) : Para :=
  if Nat.eqb (paraId p) statusPara
  then {| paraId := paraId p; className := className p;
          textContent := textContent p; fading := true |}
  else p.

(** What a callback does when it runs. *)
Definition expire (t : Timer) (a : StatusArea) : StatusArea :=
  match t with
  | FadeOut statusPara =>
      if attached statusPara a then
        {| children := option_map (map (fade statusPara)) (children a);
           created := created a;
           timers := (timers a ++ [(500%nat, Clear statusPara)])%list |}
      else a
  | Clear statusPara =>
      if attached statusPara a then
        {| children := Some []; created := created a; timers := timers a |}
      else a
  end.

(** The waiting callback number [i] runs. *)
Definition fire (i : nat) (a : StatusArea) : StatusArea :=
  match timers a !! i with
  | None => a
  | Some (_, t) =>
      expire t {| children := children a;
                  created := created a;
                  timers := delete i (timers a) |}
  end.

(** The paragraph that a callback is for. *)
Definition paraOf (t : Timer) : nat :=
  match t with
  | FadeOut statusPara | Clear statusPara => statusPara
  end.

(** The callbacks that wait and the children are for paragraphs that were
    created. *)
Definition known (a : StatusArea) : Prop :=
  Forall (fun t => (paraOf t.2 < created a)%nat) (timers a)
  /\ forall paras, children a = Some paras ->
       Forall (fun p => (paraId p < created a)%nat) paras.

End UI.

(** The character occurs in the text. *)
Fixpoint occurs (c : ascii) (text : string) : Prop :=
  match text with
  | EmptyString => False
  | String c' rest => c' = c \/ occurs c rest
  end.

(** The [grep] call of the scenarios as a text, and a [JSON.parse] that
    knows this one text. *)
Definition grepCallText : string :=
  "{" ++ dquote ++ "tool_name" ++ dquote ++ ":" ++ dquote ++ "grep" ++ dquote
  ++ "," ++ dquote ++ "timestamp" ++ dquote ++ ":1000}".

Definition parseGrep (text : string) : option jsval :=
  if String.eqb text grepCallText then Some grepCall else None.

(** The query of the scenarios as it may be pasted: after an ideographic
    space (U+3000) and before a no-break space (U+00A0). *)
Definition paddedQuery : string :=
  String "227" (String "128" (String "128" "auth flow"))
  ++ String "194" (String "160" "").



(** A second output of the [grep] call. *)
Definition grepOutputAgain : jsval :=
  JObj [("tool_name", JStr "grep"); ("timestamp", JNum 1000);
        ("output_preview", JStr "3 matches")].


(** A closed modal of index.html, and a status element that shows
    nothing. *)
Definition closedModal : UI.Document :=
  {| UI.modalElement :=
       Some {| UI.classList := {["modal"]};
               UI.style := UI.unset;
               UI.modalContent := Some UI.unset |};
     UI.overflow := "";
     UI.timeouts := 0 |}.

Definition emptyStatus : UI.StatusArea :=
  {| UI.children := Some []; UI.created := 0; UI.timers := [] |}.

(** ** The module *)

Section StrongSearch.

(** [JSON.parse]: [None] when it throws.  [Utils.escapeHtml] of utils.js. *)
Variable JSON_parse : string -> option jsval.
Variable escapeHtml : string -> string.

(** What the proofs need of [Utils.escapeHtml]: it erases no text. *)
Hypothesis escapeHtml_nonempty :
  forall text : string, text <> "" -> escapeHtml text <> "".

(** Lines 562-681 of [addStrongSearchLog]. *)
Definition formatMessage (message : jsval) (level : string) (now : Z)
    : Formatted :=
  match message with
  | JArr _ | JObj _ =>
      if truthy (js_get "tool_name" message) then
        if String.eqb level "tool_call_decision" then unstored NoMarkup true
        else if String.eqb level "tool_call" then toolCallBanner message now
        else unstored NoMarkup true
      else if String.eqb level "agent_thinking" then
        unstored (ThinkingBox message) false
      else unstored (JsonBlock message) false
  | JStr text =>
      if String.eqb level "agent_thinking" then
        unstored (ThinkingBox message) false
      else
        let parsedCall :=
          if looksLikeToolCall text then
            match JSON_parse text with
            | Some parsed =>
                if truthy (js_get "tool_name" parsed)
                then Some (toolCallBanner parsed now) else None
            | None => None
            end
          else None in
        match parsedCall with
        | Some banner => banner
        | None => unstored (EscapedText (escapeHtml text)) false
        end
  | _ => unstored (EscapedText (escapeHtml (js_toString message))) false
  end.

(** The entry as lines 500-501 and 706 leave it. *)
Definition renderEntry (f : Formatted) (level : string) (now : Z) : LogEntry :=
  {| entryLevel := level;
     entryTime := now;
     iconClass := iconFor (isToolCall f) level;
     entryBody := formattedMessage f;
     outputContainer :=
       match formattedMessage f with
       | ToolCallBanner _ _ =>
           Some {| displayed := false; outputPreview := None |}
       | _ => None
       end |}.

(** Lines 562-719: format, store the tool call, append when there is
    markup.  The new element is [elements.length]; it enters [elements]
    when something refers to it. *)
Definition renderAndAppend
    (message : jsval) (level : string) (children : list nat) (s : State)
    : State :=
  let now := clock (net s) in
  let f := formatMessage message level now in
  let entry := length (elements (page s)) in
  let s1 :=
    match stored f with
    | Some (toolCallId, toolName) =>
        set_toolCalls (<[toolCallId := entry]> (toolCallMap (vars s)))
                      (<[toolName := entry]> (toolCallsByName (vars s))) s
    | None => s
    end in
  if nonempty (formattedMessage f) then
    set_logContainer (Some (appendChild entry children))
      (set_elements (elements (page s) ++ [renderEntry f level now])%list s1)
  else s1.

(** [addStrongSearchLog] (lines 496-720). *)
Definition addStrongSearchLog
    (message : jsval) (level : string) (s : State) : State :=
  match strongSearchModalLogContainer (page s) with
  | None => s
  | Some children =>
      if String.eqb level "tool_output" && typeof_object message
         && truthy (js_get "tool_name" message)
      then
        let outputPreview :=
          js_or (js_get "output_preview" message) (JStr "[无输出]") in
        match findToolCall message s with
        | Some toolCallEntry =>
            set_elements
              (alter (fillOutput outputPreview) toolCallEntry
                     (elements (page s))) s
        | None => renderAndAppend message level children s
        end
      else renderAndAppend message level children s
  end.

Definition log (text level : string) : State -> State :=
  addStrongSearchLog (JStr text) level.

(** [getStrongSearchClientId] (lines 369-380), from the answer on; [None]
    when it throws. *)
Definition returnClientId (answer : ClientIdAnswer) (s : State)
    : Step (option string) :=
  match answer with
  | ClientIdBody client_id =>
      Done (emit (GotClientId client_id) s) (Some client_id)
  | ClientIdStatus status =>
      Done (log ("无法获取客户端ID: " ++ "API请求失败: " ++ pretty status)
                "error" s) None
  | ClientIdFailure message =>
      Done (log ("无法获取客户端ID: " ++ message) "error" s) None
  end.

Definition getStrongSearchClientId (s : State) : Step (option string) :=
  Await (emit GetClientId s) AwaitClientId returnClientId.

(** The handlers installed on the socket (lines 404-440).  [onmessage] is
    [handleStrongSearchWebSocketMessage] below. *)
Definition onopen (s : State) : State :=
  log "WebSocket连接成功" "success"
    (updateStrongSearchConnectionStatus "connected" s).

Definition onclose (s : State) : State :=
  let s1 := updateStrongSearchConnectionStatus "disconnected" s in
  let s2 := if isStrongSearching (vars s1)
            then log "WebSocket连接意外断开" "error" s1 else s1 in
  set_strongSearchSocket None (set_isStrongSearching false s2).

Definition onerror (s : State) : State :=
  set_strongSearchSocket None
    (set_isStrongSearching false
       (log "WebSocket连接错误" "error"
          (updateStrongSearchConnectionStatus "disconnected" s))).

(** [connectStrongSearchWebSocket] (lines 383-446): what follows the
    [await] of line 390, the [catch] included. *)
Definition openWebSocket (id : option string) (s1 : State) : Step Settled :=
  match id with
  | None =>
      Done (updateStrongSearchConnectionStatus "disconnected" s1)
           (Resolved false)
  | Some client_id =>
      let s2 := updateStrongSearchConnectionStatus "connecting"
                  (set_strongSearchClientId (Some client_id) s1) in
      match apiHost (net s2) with
      | None =>
          Done (updateStrongSearchConnectionStatus "disconnected" s2)
               (Resolved false)
      | Some host =>
          let wsUrl := webSocketUrl (pageSecure (net s2)) host client_id in
          let sock := length (sockets (net s2)) in
          let s3 :=
            set_strongSearchSocket (Some sock)
              (emit (NewWebSocket wsUrl sock)
                 (set_sockets (sockets (net s2) ++ [CONNECTING])%list s2)) in
          Await s3 (AwaitSocket sock) (fun answer s' =>
            match answer with
            | SocketOpened =>
                Done (onopen (setReadyState sock OPEN s')) (Resolved true)
            | SocketFailed =>
                Done (onerror (setReadyState sock CLOSED s'))
                     (Rejected "WebSocket连接失败")
            end)
      end
  end.

Definition connectStrongSearchWebSocket (s : State) : Step Settled :=
  match openSocket s with
  | Some _ => Done s (Resolved true)
  | None => bind (getStrongSearchClientId s) openWebSocket
  end.

(** [disconnectStrongSearchWebSocket] (lines 449-457). *)
Definition disconnectStrongSearchWebSocket (s : State) : State :=
  match strongSearchSocket (vars s) with
  | Some sock =>
      updateStrongSearchConnectionStatus "disconnected"
        (set_strongSearchClientId None
           (set_strongSearchSocket None (closeSocket sock s)))
  | None => s
  end.

(** Lines 881-983 of [displayStrongSearchResult]: the files with their
    content, the execution time, the closing log entry. *)
Definition showFiles
    (result : SearchResult) (files : list string)
    (fileContents : gmap string string) (s : State) : State :=
  log "搜索完成，结果已显示" "success"
    (appendResult
       [FilesBlock (map (fun file => (file, shownContent fileContents file)) files);
        TimeBlock (default 0%Q (execution_time result))] s).

(** [displayStrongSearchResult] (lines 734-988). *)
Definition displayStrongSearchResult (result : SearchResult) (s : State)
    : Step unit :=
  match strongSearchModalResultContainer (page s) with
  | None => Done s tt
  | Some _ =>
      let s1 :=
        set_resultContainer
          (Some [AnswerBlock (present (answer result));
                 StructureBlock
                   match project_structure result with
                   | Some (Some text_tree) =>
                       if String.eqb text_tree "" then EmptyStructure
                       else TextTree text_tree
                   | Some None => EmptyStructure
                   | None => NoStructure
                   end]) s in
      let files := default [] (relevant_files result) in
      match files with
      | [] => Done (showFiles result files ∅ s1) tt
      | _ :: _ =>
          match present (currentStrongSearchCodebase (vars s1)) with
          | Some codebase =>
              Await (emit (PostBatch codebase files) s1)
                    (AwaitBatch codebase files) (fun answer s' =>
                let fileContents :=
                  match answer with
                  | BatchBody contents => default ∅ contents
                  | BatchStatus _ => markAll files "错误: 无法加载内容"
                  | BatchFailure _ =>
                      markAll files "错误: 加载内容时发生网络错误"
                  end in
                Done (showFiles result files fileContents s') tt)
          | None =>
              Done (showFiles result files
                      (markAll files "无法加载内容 (未提供代码库名称或文件列表)")
                      s1) tt
          end
      end
  end.

(** [handleStrongSearchWebSocketMessage] (lines 460-493). *)
Definition handleStrongSearchWebSocketMessage (data : Frame) (s : State)
    : Step unit :=
  match data with
  | LogFrame level message =>
      Done (addStrongSearchLog (js_or message (JStr "")) level s) tt
  | ProgressFrame progress status =>
      Done (updateStrongSearchProgressBar progress status s) tt
  | ResultFrame result =>
      bind (displayStrongSearchResult result s) (fun _ s' =>
        Done (set_isStrongSearching false s') tt)
  | ErrorFrame error =>
      Done (set_isStrongSearching false (addStrongSearchLog error "error" s)) tt
  | UnknownFrame json =>
      Done (log ("收到未知消息: " ++ json) "warning" s) tt
  end.

(** [onmessage] (lines 411-419); [None] is a text that [JSON.parse]
    rejects. *)
Definition onmessage (data : option Frame) (s : State) : Step unit :=
  match data with
  | Some frame => handleStrongSearchWebSocketMessage frame s
  | None => Done (log "收到无法解析的消息" "error" s) tt
  end.

(** The [catch] of [startStrongSearch] (lines 1035-1040). *)
Definition startFailed (message : string) (s : State) : State :=
  set_isStrongSearching false (log ("启动搜索失败: " ++ message) "error" s).

(** [startStrongSearch] (lines 991-1041): what follows the [await] of
    line 1018. *)
Definition sendSearchRequest (query : string) (connected : Settled) (s : State)
    : Step unit :=
  match connected with
  | Resolved true =>
      match openSocket s with
      | Some sock =>
          Done (updateStrongSearchProgressBar (5 # 100) "请求已发送..."
                  (log "搜索请求已发送" "info"
                     (emit (SocketSend sock
                              (currentStrongSearchCodebase (vars s)) query)
                           s))) tt
      | None => Done (startFailed "WebSocket未连接，无法发送请求" s) tt
      end
  | Resolved false => Done (startFailed "WebSocket连接失败" s) tt
  | Rejected message => Done (startFailed message s) tt
  end.

Definition startStrongSearch (s : State) : Step unit :=
  match present (currentStrongSearchCodebase (vars s)),
        strongSearchModalQueryInput (page s) with
  | Some _, Some value =>
      if isStrongSearching (vars s) then Done s tt
      else
        let query := trim value in
        if String.eqb query "" then Done (log "请输入查询内容" "warning" s) tt
        else
          let s1 := log "--------- 新的搜索开始 ---------" "info" s in
          let s2 := updateStrongSearchProgressBar 0 "准备搜索..." s1 in
          let s3 := log ("准备开始强效搜索: " ++ dquote ++ query ++ dquote)
                        "info" s2 in
          let s4 := set_isStrongSearching true s3 in
          bind (connectStrongSearchWebSocket s4) (sendSearchRequest query)
  | _, _ => Done s tt
  end.

(** [stopStrongSearch] (lines 1044-1051). *)
Definition stopStrongSearch (s : State) : State :=
  if isStrongSearching (vars s) then
    updateStrongSearchProgressBar 0 "搜索已停止"
      (set_isStrongSearching false
         (disconnectStrongSearchWebSocket
            (log "正在尝试停止搜索..." "warning" s)))
  else s.

(** [resetStrongSearchUI] (lines 294-343). *)
Definition resetStrongSearchUI (s : State) : State :=
  if strongSearchModal (page s) then
    let s1 := set_queryInput
                (option_map (fun _ => "") (strongSearchModalQueryInput (page s))) s in
    let s2 := set_logContainer
                (option_map (fun _ => []) (strongSearchModalLogContainer (page s1)))
                s1 in
    let s3 := updateStrongSearchProgressBar 0 "" s2 in
    let s4 := updateStrongSearchConnectionStatus "disconnected" s3 in
    set_toolCalls ∅ ∅ s4
  else s.

(** [openModal] (lines 271-283). *)
Definition openModal (codebaseName : string) (s : State) : Step unit :=
  if strongSearchModal (page s) then
    bind (connectStrongSearchWebSocket
            (resetStrongSearchUI
               (set_currentStrongSearchCodebase (Some codebaseName) s)))
      (fun settled s' =>
         match settled with
         | Rejected _ => Done (log "WebSocket连接失败，请重试" "error" s') tt
         | Resolved _ => Done s' tt
         end)
  else Done s tt.

(** [closeModal] (lines 286-291). *)
Definition closeModal (s : State) : State :=
  set_isStrongSearching false
    (set_currentStrongSearchCodebase None (disconnectStrongSearchWebSocket s)).

(** What happens to a session: the user's actions, the events of a socket
    after it was opened, and the passing of time. *)
Inductive Event : Type :=
  | OpenModal (codebaseName : string)
  | CloseModal
  | TypeQuery (text : string)
  | StartSearch
  | StopSearch
  | SocketMessage (data : option Frame)
  | SocketClosed (sock : nat)
  | SocketError (sock : nat)
  | Tick (now : Z).

Definition react (e : Event) (s : State) : Step unit :=
  match e with
  | OpenModal codebaseName => openModal codebaseName s
  | CloseModal => Done (closeModal s) tt
  | TypeQuery text =>
      Done (set_queryInput
              (option_map (fun _ => text) (strongSearchModalQueryInput (page s)))
              s) tt
  | StartSearch => startStrongSearch s
  | StopSearch => Done (stopStrongSearch s) tt
  | SocketMessage data => onmessage data s
  | SocketClosed sock => Done (onclose (setReadyState sock CLOSED s)) tt
  | SocketError sock => Done (onerror (setReadyState sock CLOSED s)) tt
  | Tick now => Done (set_clock now s) tt
  end.

(** [always I m]: every state that [m] leaves behind, when it finishes or
    when it waits, satisfies [I], whatever ran in between as long as that
    kept [I]. *)
Fixpoint always {A : Type} (I : State -> Prop) (m : Step A) : Prop :=
  match m with
  | Done s _ => I s
  | Await s r k => I s /\ forall answer s', I s' -> always I (k answer s')
  end.

(** The number of entries of the log store. *)
Definition logSize (s : State) : nat :=
  match strongSearchModalLogContainer (page s) with
  | Some children => length children
  | None => 0
  end.

(** A message with a tool name: an object whose [tool_name] is truthy. *)
Definition structured (message : jsval) : Prop :=
  typeof_object message = true /\ truthy (js_get "tool_name" message) = true.

(** The correlation key of a structured message read at time [now]. *)
Definition correlationKey (message : jsval) (now : Z) : string :=
  generateToolCallId (js_get "tool_name" message)
                     (js_or (js_get "timestamp" message) (JNum now)).


(** [display_percent] in the words of the specification:
    round(clamp(fraction, 0, 1) * 100). *)
Definition clamp (lo hi x : Q) : Q :=
  if Qlt_le_dec x lo then lo else if Qlt_le_dec hi x then hi else x.

Definition display_percent (fraction : Q) : Z :=
  Math_round (clamp 0 1 fraction * 100).

(** ** Notions used by the statements *)

(** The four outcomes of a call: nothing, an output merged into an entry,
    an entry appended, an entry appended and stored as a tool call. *)
Inductive Logged (s : State) : State -> Prop :=
  | Logged_nothing : Logged s s
  | Logged_merged (toolCallEntry : nat) (preview : jsval) :
      Logged s
        (set_elements
           (alter (fillOutput preview) toolCallEntry (elements (page s))) s)
  | Logged_appended (children : list nat) (entry : LogEntry) :
      strongSearchModalLogContainer (page s) = Some children ->
      Logged s
        (set_logContainer
           (Some (appendChild (length (elements (page s))) children))
           (set_elements (elements (page s) ++ [entry]) s))
  | Logged_stored (children : list nat) (entry : LogEntry)
                  (toolCallId toolName : string) :
      strongSearchModalLogContainer (page s) = Some children ->
      (exists name params, entryBody entry = ToolCallBanner name params) ->
      Logged s
        (set_logContainer
           (Some (appendChild (length (elements (page s))) children))
           (set_elements (elements (page s) ++ [entry])
              (set_toolCalls
                 (<[toolCallId := length (elements (page s))]>
                    (toolCallMap (vars s)))
                 (<[toolName := length (elements (page s))]>
                    (toolCallsByName (vars s))) s))).

Definition withinCapacity (s : State) : Prop :=
  (logSize s <= maxLogEntries)%nat.

(** An object or an array that names no tool. *)
Definition plainObject (message : jsval) : Prop :=
  match message with
  | JObj _ | JArr _ => truthy (js_get "tool_name" message) = false
  | _ => False
  end.

Definition logAll (messages : list jsval) (level : string) (s : State) : State :=
  fold_left (fun s message => addStrongSearchLog message level s) messages s.

Definition isBanner (entry : LogEntry) : Prop :=
  exists name params, entryBody entry = ToolCallBanner name params.

(** The entries that the two maps refer to are entries of the store, and
    they are banners: a reference to an element cannot dangle. *)
Definition refersToBanners (m : gmap string nat) (s : State) : Prop :=
  forall key record,
    m !! key = Some record ->
    exists entry, elements (page s) !! record = Some entry /\ isBanner entry.

Definition wellStored (s : State) : Prop :=
  refersToBanners (toolCallMap (vars s)) s
  /\ refersToBanners (toolCallsByName (vars s)) s.

(** The log store gained exactly one entry, the newest element. *)
Definition appendedTo (s s' : State) (children : list nat) : Prop :=
  strongSearchModalLogContainer (page s')
  = Some (appendChild (length (elements (page s))) children)
  /\ exists entry,
       elements (page s') = (elements (page s) ++ [entry])%list.

(** The percentage that the bar shows. *)
Definition shownPercent (s : State) : option Z :=
  option_map percent (strongSearchModalProgressBar (page s)).

(** [a] may come right after [previous]: a socket is created only right
    after the arrival of the client id that its address carries. *)
Definition follows (previous : option Action) (a : Action) : Prop :=
  match a with
  | NewWebSocket url _ =>
      match previous with
      | Some (GotClientId client_id) =>
          exists secure host, url = webSocketUrl secure host client_id
      | _ => False
      end
  | _ => True
  end.

Fixpoint handshakenFrom (previous : option Action) (t : list Action) : Prop :=
  match t with
  | [] => True
  | a :: rest => follows previous a /\ handshakenFrom (Some a) rest
  end.

(** Every socket of the record was created right after its client id
    arrived. *)
Definition handshaken (t : list Action) : Prop := handshakenFrom None t.

Fixpoint lastOr (previous : option Action) (t : list Action) : option Action :=
  match t with
  | [] => previous
  | a :: rest => lastOr (Some a) rest
  end.

Definition orderly (s : State) : Prop := handshaken (trace (net s)).

Definition isLive (r : ReadyState) : bool :=
  match r with
  | CONNECTING | OPEN => true
  | _ => false
  end.

(** The connections that are open or being opened. *)
Definition liveConnections (s : State) : nat :=
  length (List.filter isLive (sockets (net s))).


(** The state that a connection attempt leaves when the client id arrives
    and the socket opens. *)
Definition connected (client_id host : string) (s : State) : State :=
  let sock := length (sockets (net s)) in
  onopen
    (setReadyState sock OPEN
       (set_strongSearchSocket (Some sock)
          (emit (NewWebSocket (webSocketUrl (pageSecure (net s)) host client_id)
                              sock)
             (set_sockets (sockets (net s) ++ [CONNECTING])%list
                (updateStrongSearchConnectionStatus "connecting"
                   (set_strongSearchClientId (Some client_id)
                      (emit (GotClientId client_id)
                         (emit GetClientId s)))))))).

(** A text of one-byte white space only (the empty text included). *)
Fixpoint blank (text : string) : bool :=
  match text with
  | EmptyString => true
  | String c rest => is_space c && blank rest
  end.

(** The state in which a connection attempt waits for its socket: the
    client id has arrived and the socket was created with it. *)
Definition dialled (client_id host : string) (s : State) : State :=
  let sock := length (sockets (net s)) in
  set_strongSearchSocket (Some sock)
    (emit (NewWebSocket (webSocketUrl (pageSecure (net s)) host client_id) sock)
       (set_sockets (sockets (net s) ++ [CONNECTING])%list
          (updateStrongSearchConnectionStatus "connecting"
             (set_strongSearchClientId (Some client_id)
                (emit (GotClientId client_id) (emit GetClientId s)))))).

(** The state that the attempt leaves when that socket fails to open. *)
Definition refused (client_id host : string) (s : State) : State :=
  onerror (setReadyState (length (sockets (net s))) CLOSED
             (dialled client_id host s)).

(** The bar shows a percentage. *)
Definition barInRange (s : State) : Prop :=
  match strongSearchModalProgressBar (page s) with
  | Some bar => (0 <= percent bar <= 100)%Z
  | None => True
  end.

(** A text without the separator of the correlation key. *)
Fixpoint dashFree (text : string) : Prop :=
  match text with
  | EmptyString => True
  | String c rest => c <> "-"%char /\ dashFree rest
  end.

(** The socket that an action creates, and the socket that an action is
    addressed to. *)
Definition madeBy (a : Action) : list nat :=
  match a with
  | NewWebSocket _ sock => [sock]
  | _ => []
  end.

Definition target (a : Action) : option nat :=
  match a with
  | SocketSend sock _ _ | SocketClose sock => Some sock
  | _ => None
  end.

(** The sockets created in a record of actions. *)
Definition made (t : list Action) : list nat := flat_map madeBy t.

(** Every send and every close of the record is addressed to a socket
    that was created earlier in the record, or is among [before]. *)
Fixpoint addressed (before : list nat) (t : list Action) : Prop :=
  match t with
  | [] => True
  | a :: rest =>
      match target a with
      | Some sock => sock ∈ before
      | None => True
      end
      /\ addressed (madeBy a ++ before) rest
  end.

(** The module only talks to sockets of its own: those that it addressed
    it had created before, and the one it holds it has created. *)
Definition ownSockets (s : State) : Prop :=
  addressed [] (trace (net s))
  /\ forall sock, strongSearchSocket (vars s) = Some sock ->
       sock ∈ made (trace (net s)).

(** The state in which [connectStrongSearchWebSocket] waits for its
    socket, from the state [s] in which it was resumed with the client
    id. *)
Definition awaitingSocket (client_id host : string) (s : State) : State :=
  let sock := length (sockets (net s)) in
  set_strongSearchSocket (Some sock)
    (emit (NewWebSocket (webSocketUrl (pageSecure (net s)) host client_id) sock)
       (set_sockets (sockets (net s) ++ [CONNECTING])%list
          (updateStrongSearchConnectionStatus "connecting"
             (set_strongSearchClientId (Some client_id)
                (emit (GotClientId client_id) s))))).

(** Progress frames arriving one after the other. *)
Definition progressFrames (frames : list (Q * string)) (s : State) : State :=
  fold_left (fun s '(progress, status) =>
               updateStrongSearchProgressBar progress status s) frames s.










(** ** Properties of the log store *)

Lemma evict_cons (x : nat) (l : list nat) :
  evict (x :: l)
  = if (maxLogEntries <? length (x :: l))%nat then evict l else x :: l.
Proof. reflexivity. Qed.

(** The loop removes a prefix: what survives is the tail of the list. *)
Lemma evict_drop (l : list nat) :
  evict l = drop (length l - maxLogEntries) l.
Proof.
  induction l as [|x l IH]; [reflexivity|].
  rewrite evict_cons.
  destruct (Nat.ltb_spec maxLogEntries (length (x :: l))) as [H|H].
  - rewrite IH. cbn [length] in *.
    replace (S (length l) - maxLogEntries)%nat
      with (S (length l - maxLogEntries)) by lia.
    reflexivity.
  - replace (length (x :: l) - maxLogEntries)%nat with 0%nat by lia.
    reflexivity.
Qed.

Lemma length_evict (l : list nat) :
  length (evict l) = Nat.min (length l) maxLogEntries.
Proof. rewrite evict_drop, length_drop. lia. Qed.

Lemma appendChild_drop (entry : nat) (children : list nat) :
  appendChild entry children
  = drop (S (length children) - maxLogEntries) (children ++ [entry]).
Proof.
  unfold appendChild. rewrite evict_drop, length_app. cbn [length].
  f_equal. lia.
Qed.

Lemma length_appendChild (entry : nat) (children : list nat) :
  length (appendChild entry children)
  = Nat.min (S (length children)) maxLogEntries.
Proof.
  unfold appendChild. rewrite length_evict, length_app. cbn [length]. lia.
Qed.

Lemma maxLogEntries_pos : (0 < maxLogEntries)%nat.
Proof. unfold maxLogEntries. lia. Qed.

Lemma appendChild_last (entry : nat) (children : list nat) :
  last (appendChild entry children) = Some entry.
Proof.
  rewrite appendChild_drop.
  pose proof maxLogEntries_pos.
  rewrite last_lookup, length_drop, lookup_drop, length_app. cbn [length].
  replace (S (length children) - maxLogEntries
           + Nat.pred (length children + 1 - (S (length children) - maxLogEntries)))%nat
    with (length children) by lia.
  rewrite lookup_app_r by lia. by rewrite Nat.sub_diag.
Qed.

(** Appending a run of entries keeps the last [maxLogEntries] of them. *)
Lemma fold_appendChild (entries children : list nat) :
  (length children <= maxLogEntries)%nat ->
  fold_left (fun c e => appendChild e c) entries children
  = drop (length (children ++ entries) - maxLogEntries) (children ++ entries).
Proof.
  revert children. induction entries as [|e entries IH]; intros children Hc.
  - cbn [fold_left]. rewrite app_nil_r.
    replace (length children - maxLogEntries)%nat with 0%nat by lia.
    reflexivity.
  - cbn [fold_left]. rewrite IH, appendChild_drop.
    2:{ rewrite length_appendChild. lia. }
    rewrite (cons_middle e children entries).
    set (k := (S (length children) - maxLogEntries)%nat).
    assert (Hk : (k <= length (children ++ [e]))%nat)
      by (rewrite length_app; cbn [length]; lia).
    rewrite app_assoc.
    rewrite <- (drop_app_le (children ++ [e]) entries k) by exact Hk.
    rewrite drop_drop. f_equal.
    rewrite length_app, length_drop, !length_app. cbn [length]. lia.
Qed.

(** ** What a call of [addStrongSearchLog] can do *)

Lemma toolCallBanner_body (payload : jsval) (now : Z) :
  exists name params,
    formattedMessage (toolCallBanner payload now) = ToolCallBanner name params.
Proof. unfold toolCallBanner. cbn. eauto. Qed.

(** Whatever is stored as a tool call is rendered as a banner. *)
Lemma formatMessage_stored (message : jsval) (level : string) (now : Z) :
  is_Some (stored (formatMessage message level now)) ->
  exists name params,
    formattedMessage (formatMessage message level now)
    = ToolCallBanner name params.
Proof.
  unfold formatMessage. intros [x Hx].
  repeat case_match; simplify_eq; cbn in Hx; try discriminate;
    apply toolCallBanner_body.
Qed.

Lemma renderAndAppend_logged
    (message : jsval) (level : string) (children : list nat) (s : State) :
  strongSearchModalLogContainer (page s) = Some children ->
  Logged s (renderAndAppend message level children s).
Proof.
  intros Hc. unfold renderAndAppend.
  destruct (stored (formatMessage message level (clock (net s))))
    as [[toolCallId toolName]|] eqn:Hs.
  - destruct (formatMessage_stored message level (clock (net s)))
      as (name & params & Hb); [rewrite Hs; eauto|].
    rewrite Hb. cbn [nonempty].
    apply Logged_stored; [exact Hc|].
    exists name, params. unfold renderEntry. cbn. exact Hb.
  - destruct (nonempty _); [by apply Logged_appended | apply Logged_nothing].
Qed.

Lemma addStrongSearchLog_logged (message : jsval) (level : string) (s : State) :
  Logged s (addStrongSearchLog message level s).
Proof.
  unfold addStrongSearchLog.
  destruct (strongSearchModalLogContainer (page s)) as [children|] eqn:Hc;
    [|apply Logged_nothing].
  destruct (_ && _); [destruct (findToolCall message s)|];
    first [apply Logged_merged | by apply renderAndAppend_logged].
Qed.

(** A call leaves everything but the log store and the stored tool calls
    as it was. *)
Lemma Logged_frame (s s' : State) :
  Logged s s' ->
  net s' = net s
  /\ currentStrongSearchCodebase (vars s') = currentStrongSearchCodebase (vars s)
  /\ strongSearchSocket (vars s') = strongSearchSocket (vars s)
  /\ strongSearchClientId (vars s') = strongSearchClientId (vars s)
  /\ isStrongSearching (vars s') = isStrongSearching (vars s)
  /\ strongSearchModal (page s') = strongSearchModal (page s)
  /\ strongSearchModalQueryInput (page s') = strongSearchModalQueryInput (page s)
  /\ strongSearchConnectionStatus (page s') = strongSearchConnectionStatus (page s)
  /\ strongSearchModalProgressBar (page s') = strongSearchModalProgressBar (page s)
  /\ strongSearchModalResultContainer (page s')
     = strongSearchModalResultContainer (page s).
Proof. intros []; cbn; repeat split; reflexivity. Qed.

Lemma Logged_size (s s' : State) :
  Logged s s' ->
  (logSize s <= maxLogEntries)%nat -> (logSize s' <= maxLogEntries)%nat.
Proof.
  unfold logSize. intros [] Hs; cbn; try exact Hs;
    rewrite length_appendChild; lia.
Qed.

(** Whenever the children of the container change, at most
    [maxLogEntries] remain. *)
Lemma Logged_changed (s s' : State) :
  Logged s s' ->
  strongSearchModalLogContainer (page s')
  <> strongSearchModalLogContainer (page s) ->
  (logSize s' <= maxLogEntries)%nat.
Proof.
  unfold logSize. intros [] Hne; cbn in *; try congruence;
    rewrite length_appendChild; lia.
Qed.

(** ** Invariants of asynchronous steps *)

Arguments addStrongSearchLog : simpl never.

Lemma always_bind {A B : Type} (I : State -> Prop)
    (m : Step A) (f : A -> State -> Step B) :
  always I m ->
  (forall a s, I s -> always I (f a s)) ->
  always I (bind m f).
Proof.
  induction m as [s a|s r k IH]; cbn; intros Hm Hf.
  - by apply Hf.
  - destruct Hm as [Hs Hk]. split; [exact Hs|].
    intros answer s' Hs'. apply IH; [by apply Hk | exact Hf].
Qed.

(** *** The capacity of the log store *)

Ltac capacity :=
  unfold withinCapacity in *;
  repeat first
    [ assumption
    | match goal with
      | |- (logSize (?f ?s) <= _)%nat =>
          change (logSize (f s)) with (logSize s)
      end
    | progress unfold log
    | eapply Logged_size; [apply addStrongSearchLog_logged|]
    | case_match ].

Lemma resetStrongSearchUI_capacity (s : State) :
  withinCapacity s -> withinCapacity (resetStrongSearchUI s).
Proof.
  unfold resetStrongSearchUI. intros H. case_match; [|exact H].
  unfold withinCapacity, logSize. cbn.
  destruct (strongSearchModalLogContainer (page s)); cbn; lia.
Qed.

Lemma connect_capacity (s : State) :
  withinCapacity s -> always withinCapacity (connectStrongSearchWebSocket s).
Proof.
  intros H. unfold connectStrongSearchWebSocket.
  destruct (openSocket s); [exact H|].
  apply always_bind.
  - cbn. split; [capacity|]. intros answer s' Hs'. destruct answer; cbn; capacity.
  - intros [client_id|] s' Hs'; unfold openWebSocket; [|cbn; capacity].
    destruct (apiHost _); cbn; [|capacity].
    split; [capacity|].
    intros [] s'' Hs''; cbn; unfold onopen, onerror; capacity.
Qed.

Lemma display_capacity (result : SearchResult) (s : State) :
  withinCapacity s -> always withinCapacity (displayStrongSearchResult result s).
Proof.
  intros H. unfold displayStrongSearchResult, showFiles.
  repeat case_match; cbn; try split; try intros answer s' Hs'; capacity.
Qed.

Lemma react_capacity (e : Event) (s : State) :
  withinCapacity s -> always withinCapacity (react e s).
Proof.
  intros H. destruct e; cbn [react].
  - unfold openModal. case_match; [|exact H].
    apply always_bind.
    + apply connect_capacity, resetStrongSearchUI_capacity. capacity.
    + intros [] s' Hs'; cbn; capacity.
  - cbn. unfold closeModal, disconnectStrongSearchWebSocket. capacity.
  - cbn. capacity.
  - unfold startStrongSearch. repeat case_match; try exact H; cbn; [capacity|].
    apply always_bind.
    + apply connect_capacity. capacity.
    + intros connected s' Hs'. unfold sendSearchRequest.
      repeat case_match; cbn; unfold startFailed; capacity.
  - cbn. unfold stopStrongSearch, disconnectStrongSearchWebSocket. capacity.
  - unfold onmessage, handleStrongSearchWebSocketMessage.
    repeat case_match; cbn; try capacity.
    apply always_bind; [by apply display_capacity|].
    intros [] s' Hs'. cbn. capacity.
  - cbn. unfold onclose. capacity.
  - cbn. unfold onerror. capacity.
  - cbn. capacity.
Qed.

(** *** Appending plain objects *)

Lemma addStrongSearchLog_plain
    (message : jsval) (level : string) (s : State) (children : list nat) :
  strongSearchModalLogContainer (page s) = Some children ->
  plainObject message ->
  exists entry,
    addStrongSearchLog message level s
    = set_logContainer
        (Some (appendChild (length (elements (page s))) children))
        (set_elements (elements (page s) ++ [entry]) s).
Proof.
  intros Hc Hp. unfold addStrongSearchLog, renderAndAppend. rewrite Hc.
  destruct message; try contradiction; cbn in Hp;
    cbn [typeof_object js_get formatMessage]; rewrite ?Hp, ?andb_false_r;
    destruct (String.eqb level "agent_thinking"); cbn; eauto.
Qed.

Lemma logAll_plain (messages : list jsval) (level : string) :
  Forall plainObject messages ->
  forall (s : State) (children : list nat),
    strongSearchModalLogContainer (page s) = Some children ->
    strongSearchModalLogContainer (page (logAll messages level s))
    = Some (fold_left (fun c e => appendChild e c)
              (seq (length (elements (page s))) (length messages)) children).
Proof.
  induction 1 as [|message messages Hm _ IH]; intros s children Hc;
    [exact Hc|].
  destruct (addStrongSearchLog_plain message level s children Hc Hm)
    as [entry Hadd].
  change (logAll (message :: messages) level s)
    with (logAll messages level (addStrongSearchLog message level s)).
  cbn [length seq fold_left].
  rewrite Hadd, (IH _ (appendChild (length (elements (page s))) children));
    [|reflexivity].
  cbn. rewrite length_app. cbn. by rewrite Nat.add_1_r.
Qed.

(** C3.  After any mutation the log store holds at most 200 entries.  An
    append past the capacity removes the oldest entries, from the front,
    until exactly 200 remain, and the survivors keep their order: the
    result is the tail of the list.  This holds for every call of
    [addStrongSearchLog] that changes the children of the container and is
    kept by every event of a session, whatever the interleaving.  Appending
    250 entries to an empty store leaves entries 51 to 250: the first 50
    are evicted and entry 51 is the oldest one left. *)
Theorem C3_log_store_capacity :
  (forall (entry : nat) (children : list nat),
      appendChild entry children
      = drop (S (length children) - 200) (children ++ [entry])
      /\ (length (appendChild entry children) <= 200)%nat
      /\ ((200 <= length children)%nat ->
          length (appendChild entry children) = 200%nat))
  /\ (forall (message : jsval) (level : string) (s : State),
        strongSearchModalLogContainer
          (page (addStrongSearchLog message level s))
        <> strongSearchModalLogContainer (page s) ->
        (logSize (addStrongSearchLog message level s) <= 200)%nat)
  /\ (forall (e : Event) (s : State),
        (logSize s <= 200)%nat ->
        always (fun s' => (logSize s' <= 200)%nat) (react e s))
  /\ (forall entries : list nat,
        length entries = 250%nat ->
        fold_left (fun c e => appendChild e c) entries [] = drop 50 entries
        /\ length (drop 50 entries) = 200%nat
        /\ head (drop 50 entries) = entries !! 50%nat)
  /\ (forall (messages : list jsval) (level : string) (s : State),
        strongSearchModalLogContainer (page s) = Some [] ->
        Forall plainObject messages ->
        length messages = 250%nat ->
        strongSearchModalLogContainer (page (logAll messages level s))
        = Some (seq (length (elements (page s)) + 50) 200)).
Proof.
  split; [|split; [|split; [|split]]].
  - intros entry children.
    pose proof (appendChild_drop entry children) as Hdrop.
    pose proof (length_appendChild entry children) as Hlen.
    unfold maxLogEntries in *. split; [exact Hdrop|]. lia.
  - intros message level s.
    exact (Logged_changed _ _ (addStrongSearchLog_logged message level s)).
  - intros e s. exact (react_capacity e s).
  - intros entries Hlen.
    pose proof (fold_appendChild entries []) as Hfold.
    unfold maxLogEntries in Hfold. cbn [app length] in Hfold.
    rewrite Hlen in Hfold.
    change (250 - 200)%nat with 50%nat in Hfold.
    split; [apply Hfold; lia|]. split.
    + rewrite length_drop, Hlen. reflexivity.
    + rewrite head_lookup, lookup_drop. f_equal.
  - intros messages level s Hc Hp Hlen.
    rewrite (logAll_plain messages level Hp s [] Hc).
    pose proof (fold_appendChild
                  (seq (length (elements (page s))) (length messages)) [])
      as Hfold.
    unfold maxLogEntries in Hfold. cbn [app length] in Hfold.
    rewrite Hfold by lia. rewrite length_seq, Hlen.
    change (250 - 200)%nat with 50%nat.
    change 250%nat with (50 + 200)%nat.
    rewrite seq_app, drop_app_length'; [reflexivity|by rewrite length_seq].
Qed.

(** *** Tool calls and their outputs *)


Lemma lookup_alter_fill
    (els : list LogEntry) (record changed : nat) (preview : jsval)
    (entry : LogEntry) :
  els !! record = Some entry -> isBanner entry ->
  exists entry', alter (fillOutput preview) changed els !! record = Some entry'
                 /\ isBanner entry'.
Proof.
  intros Hr Hb. destruct (decide (changed = record)) as [->|Hne].
  - exists (fillOutput preview entry). split; [|exact Hb].
    rewrite list_lookup_alter_eq, Hr. reflexivity.
  - exists entry. split; [|exact Hb].
    by rewrite list_lookup_alter_ne.
Qed.

Lemma refersToBanners_alter
    (m : gmap string nat) (s : State) (changed : nat) (preview : jsval) :
  refersToBanners m s ->
  refersToBanners m
    (set_elements (alter (fillOutput preview) changed (elements (page s))) s).
Proof.
  intros Hm key record Hk. destruct (Hm key record Hk) as (entry & He & Hb).
  by apply (lookup_alter_fill _ record changed preview entry).
Qed.

Lemma refersToBanners_app
    (m : gmap string nat) (s s' : State) (new : LogEntry) :
  elements (page s') = (elements (page s) ++ [new])%list ->
  refersToBanners m s -> refersToBanners m s'.
Proof.
  intros Hels Hm key record Hk. destruct (Hm key record Hk) as (entry & He & Hb).
  exists entry. split; [|exact Hb]. rewrite Hels. by apply lookup_app_l_Some.
Qed.

Lemma refersToBanners_insert
    (m : gmap string nat) (s s' : State) (new : LogEntry) (key : string) :
  elements (page s') = (elements (page s) ++ [new])%list ->
  isBanner new ->
  refersToBanners m s ->
  refersToBanners (<[key := length (elements (page s))]> m) s'.
Proof.
  intros Hels Hnew Hm key' record Hk.
  destruct (decide (key = key')) as [<-|Hne].
  - rewrite lookup_insert_eq in Hk. injection Hk as <-.
    exists new. split; [|exact Hnew]. rewrite Hels. by apply list_lookup_middle.
  - rewrite lookup_insert_ne in Hk by exact Hne.
    by apply (refersToBanners_app m s s' new Hels Hm key').
Qed.

(** Every call of [addStrongSearchLog] keeps the maps well stored. *)
Lemma Logged_wellStored (s s' : State) :
  Logged s s' -> wellStored s -> wellStored s'.
Proof.
  intros Hl [Hid Hname].
  destruct Hl as [|changed preview|children new Hc
                  |children new toolCallId toolName Hc Hnew];
    split; cbn;
    first [ assumption
          | by apply refersToBanners_alter
          | by eapply refersToBanners_app
          | by eapply refersToBanners_insert ].
Qed.


Lemma structured_object (message : jsval) :
  structured message -> exists fields, message = JObj fields.
Proof. intros [Ht Hn]. destruct message; try discriminate; eauto. Qed.

Lemma js_or_truthy (a b : jsval) : truthy a = true -> js_or a b = a.
Proof. unfold js_or. by intros ->. Qed.

Lemma formatMessage_call (call : jsval) (now : Z) :
  structured call ->
  formatMessage call "tool_call" now = toolCallBanner call now.
Proof.
  intros Hs. destruct (structured_object call Hs) as [fields ->].
  destruct Hs as [_ Hn]. unfold formatMessage. by rewrite Hn.
Qed.

(** A structured frame of level [tool_call] is appended as a banner and
    stored under its key and under its name. *)
Lemma addStrongSearchLog_call
    (call : jsval) (s : State) (children : list nat) :
  strongSearchModalLogContainer (page s) = Some children ->
  structured call ->
  let now := clock (net s) in
  let record := length (elements (page s)) in
  addStrongSearchLog call "tool_call" s
  = set_logContainer (Some (appendChild record children))
      (set_elements
         (elements (page s)
          ++ [renderEntry (toolCallBanner call now) "tool_call" now])
         (set_toolCalls
            (<[correlationKey call now := record]> (toolCallMap (vars s)))
            (<[js_toString (js_get "tool_name" call) := record]>
               (toolCallsByName (vars s))) s)).
Proof.
  intros Hc Hs now record. unfold addStrongSearchLog. rewrite Hc.
  change (String.eqb "tool_call" "tool_output") with false.
  cbn [andb]. unfold renderAndAppend.
  rewrite (formatMessage_call call _ Hs).
  unfold toolCallBanner, correlationKey.
  cbn [stored formattedMessage nonempty].
  rewrite (js_or_truthy (js_get "tool_name" call)) by apply Hs.
  reflexivity.
Qed.

(** A structured frame of level [tool_output] that finds a call fills
    that call's entry and does nothing else. *)
Lemma addStrongSearchLog_output
    (out : jsval) (s : State) (children : list nat) (record : nat) :
  strongSearchModalLogContainer (page s) = Some children ->
  structured out ->
  findToolCall out s = Some record ->
  addStrongSearchLog out "tool_output" s
  = set_elements
      (alter (fillOutput (js_or (js_get "output_preview" out) (JStr "[无输出]")))
             record (elements (page s))) s.
Proof.
  intros Hc [Ht Hn] Hf. unfold addStrongSearchLog. rewrite Hc, Ht, Hn, Hf.
  reflexivity.
Qed.


(** *** Frames that leave no record *)

Lemma formatMessage_other (message : jsval) (level : string) (now : Z) :
  structured message ->
  String.eqb level "tool_call" = false ->
  formatMessage message level now = unstored NoMarkup true.
Proof.
  intros Hs Hl. destruct (structured_object message Hs) as [fields ->].
  destruct Hs as [_ Hn]. unfold formatMessage. rewrite Hn, Hl.
  by destruct (String.eqb level "tool_call_decision").
Qed.

(** A structured output that finds no call is formatted to nothing and is
    not appended: the state is left as it was. *)
Lemma addStrongSearchLog_unmatched (out : jsval) (s : State) :
  structured out ->
  findToolCall out s = None ->
  addStrongSearchLog out "tool_output" s = s.
Proof.
  intros Hs Hf. unfold addStrongSearchLog.
  destruct (strongSearchModalLogContainer (page s)); [|reflexivity].
  destruct Hs as [Ht Hn]. rewrite Ht, Hn, Hf. cbn [String.eqb Ascii.eqb andb].
  unfold renderAndAppend.
  by rewrite (formatMessage_other out "tool_output" _ (conj Ht Hn)).
Qed.


Lemma formatMessage_text (text level : string) (now : Z) :
  text <> "" ->
  nonempty (formattedMessage (formatMessage (JStr text) level now)) = true.
Proof.
  intros Ht. unfold formatMessage.
  destruct (String.eqb level "agent_thinking"); [reflexivity|].
  assert (Hplain : nonempty (EscapedText (escapeHtml text)) = true).
  { cbn. apply negb_true_iff, String.eqb_neq. by apply escapeHtml_nonempty. }
  repeat case_match; simplify_eq; try exact Hplain; reflexivity.
Qed.

Lemma addStrongSearchLog_text
    (text level : string) (s : State) (children : list nat) :
  strongSearchModalLogContainer (page s) = Some children ->
  text <> "" ->
  appendedTo s (addStrongSearchLog (JStr text) level s) children.
Proof.
  intros Hc Ht. unfold addStrongSearchLog. rewrite Hc.
  cbn [typeof_object andb]. rewrite andb_false_r. unfold renderAndAppend.
  rewrite (formatMessage_text text level _ Ht).
  destruct (stored _) as [[toolCallId toolName]|]; split; cbn; eauto.
Qed.


(** *** The progress bar *)

Lemma Math_round_le (x y : Q) : (x <= y)%Q -> (Math_round x <= Math_round y)%Z.
Proof.
  intros H. unfold Math_round. apply Qfloor_resp_le.
  by apply Qplus_le_compat; [|apply Qle_refl].
Qed.

Lemma display_percent_eq (fraction : Q) :
  Z.max 0 (Z.min 100 (Math_round (fraction * 100))) = display_percent fraction.
Proof.
  unfold display_percent, clamp.
  assert (H100 : (0 <= 100)%Q) by discriminate.
  assert (Hround0 : Math_round (0 * 100) = 0%Z) by reflexivity.
  assert (Hround1 : Math_round (1 * 100) = 100%Z) by reflexivity.
  destruct (Qlt_le_dec fraction 0) as [Hneg|Hpos].
  - assert (Hle : (Math_round (fraction * 100) <= Math_round (0 * 100))%Z)
      by (apply Math_round_le, Qmult_le_compat_r;
          [by apply Qlt_le_weak|exact H100]).
    rewrite Hround0 in *. lia.
  - destruct (Qlt_le_dec 1 fraction) as [Hbig|Hsmall].
    + assert (Hle : (Math_round (1 * 100) <= Math_round (fraction * 100))%Z)
        by (apply Math_round_le, Qmult_le_compat_r;
            [by apply Qlt_le_weak|exact H100]).
      rewrite Hround1 in *. lia.
    + assert (Hlo : (Math_round (0 * 100) <= Math_round (fraction * 100))%Z)
        by (apply Math_round_le, Qmult_le_compat_r; [exact Hpos|exact H100]).
      assert (Hhi : (Math_round (fraction * 100) <= Math_round (1 * 100))%Z)
        by (apply Math_round_le, Qmult_le_compat_r; [exact Hsmall|exact H100]).
      rewrite Hround0 in Hlo. rewrite Hround1 in Hhi. lia.
Qed.

Lemma shownPercent_update
    (s : State) (bar : ProgressBar) (fraction : Q) (status : string) :
  strongSearchModalProgressBar (page s) = Some bar ->
  shownPercent (updateStrongSearchProgressBar fraction status s)
  = Some (display_percent fraction).
Proof.
  intros Hbar. unfold shownPercent, updateStrongSearchProgressBar.
  cbn [page set_progressBar with_page strongSearchModalProgressBar].
  rewrite Hbar. cbn [option_map percent]. by rewrite display_percent_eq.
Qed.

Lemma updateStrongSearchProgressBar_keeps_bar
    (s : State) (bar : ProgressBar) (fraction : Q) (status : string) :
  strongSearchModalProgressBar (page s) = Some bar ->
  is_Some (strongSearchModalProgressBar
             (page (updateStrongSearchProgressBar fraction status s))).
Proof.
  intros Hbar. unfold updateStrongSearchProgressBar.
  cbn [page set_progressBar with_page strongSearchModalProgressBar].
  rewrite Hbar. cbn [option_map]. eauto.
Qed.

(** C5.  Whatever the fraction, and whatever the bar showed before, the
    bar shows round(clamp(fraction, 0, 1) * 100) after the update: no
    fraction is rejected and a lower fraction after a higher one rewinds
    the bar.  -0.2 shows 0, 1.5 shows 100 and 0.5 shows 50. *)
Theorem C5_display_percent
    (s : State) (bar : ProgressBar) (fraction later : Q) (status : string) :
  strongSearchModalProgressBar (page s) = Some bar ->
  let update f := updateStrongSearchProgressBar f status in
  shownPercent (update fraction s) = Some (display_percent fraction)
  /\ shownPercent (update later (update fraction s))
     = Some (display_percent later)
  /\ shownPercent (update (- (2 # 10)) s) = Some 0%Z
  /\ shownPercent (update (15 # 10) s) = Some 100%Z
  /\ shownPercent (update (5 # 10) s) = Some 50%Z.
Proof.
  intros Hbar update. unfold update.
  destruct (updateStrongSearchProgressBar_keeps_bar s bar fraction status Hbar)
    as [bar' Hbar'].
  rewrite (shownPercent_update _ bar' later status Hbar').
  rewrite !(shownPercent_update s bar _ status Hbar).
  repeat split.
Qed.

(** *** What logging leaves alone *)

Lemma addStrongSearchLog_net (message : jsval) (level : string) (s : State) :
  net (addStrongSearchLog message level s) = net s.
Proof. apply (Logged_frame _ _ (addStrongSearchLog_logged message level s)). Qed.

Lemma addStrongSearchLog_socket (message : jsval) (level : string) (s : State) :
  strongSearchSocket (vars (addStrongSearchLog message level s))
  = strongSearchSocket (vars s).
Proof. apply (Logged_frame _ _ (addStrongSearchLog_logged message level s)). Qed.

Lemma addStrongSearchLog_codebase (message : jsval) (level : string) (s : State) :
  currentStrongSearchCodebase (vars (addStrongSearchLog message level s))
  = currentStrongSearchCodebase (vars s).
Proof. apply (Logged_frame _ _ (addStrongSearchLog_logged message level s)). Qed.

Lemma addStrongSearchLog_clientId (message : jsval) (level : string) (s : State) :
  strongSearchClientId (vars (addStrongSearchLog message level s))
  = strongSearchClientId (vars s).
Proof. apply (Logged_frame _ _ (addStrongSearchLog_logged message level s)). Qed.

Lemma addStrongSearchLog_searching (message : jsval) (level : string) (s : State) :
  isStrongSearching (vars (addStrongSearchLog message level s))
  = isStrongSearching (vars s).
Proof. apply (Logged_frame _ _ (addStrongSearchLog_logged message level s)). Qed.

Lemma addStrongSearchLog_bar (message : jsval) (level : string) (s : State) :
  strongSearchModalProgressBar (page (addStrongSearchLog message level s))
  = strongSearchModalProgressBar (page s).
Proof. apply (Logged_frame _ _ (addStrongSearchLog_logged message level s)). Qed.

Lemma addStrongSearchLog_result (message : jsval) (level : string) (s : State) :
  strongSearchModalResultContainer (page (addStrongSearchLog message level s))
  = strongSearchModalResultContainer (page s).
Proof. apply (Logged_frame _ _ (addStrongSearchLog_logged message level s)). Qed.

Lemma addStrongSearchLog_openSocket (message : jsval) (level : string) (s : State) :
  openSocket (addStrongSearchLog message level s) = openSocket s.
Proof.
  unfold openSocket, readyState.
  by rewrite addStrongSearchLog_socket, addStrongSearchLog_net.
Qed.

Create Rewrite HintDb logged.
#[local] Hint Rewrite
  addStrongSearchLog_net addStrongSearchLog_socket addStrongSearchLog_codebase
  addStrongSearchLog_clientId addStrongSearchLog_searching
  addStrongSearchLog_bar addStrongSearchLog_result
  addStrongSearchLog_openSocket : logged.

(** Projections through the functions of the module: the setters compute,
    logging is rewritten away. *)
Ltac through :=
  unfold log;
  repeat (cbn [vars page net with_vars with_page with_net
               set_currentStrongSearchCodebase set_strongSearchSocket
               set_strongSearchClientId set_isStrongSearching set_toolCalls
               set_queryInput set_connectionStatus set_progressBar
               set_logContainer set_resultContainer set_elements
               set_sockets set_clock emit setReadyState closeSocket
               updateStrongSearchConnectionStatus
               updateStrongSearchProgressBar appendResult
               currentStrongSearchCodebase strongSearchSocket
               strongSearchClientId isStrongSearching toolCallMap
               toolCallsByName strongSearchModal strongSearchModalQueryInput
               strongSearchConnectionStatus strongSearchModalProgressBar
               strongSearchModalLogContainer strongSearchModalResultContainer
               elements sockets trace clock apiHost pageSecure];
          autorewrite with logged).

(** *** Stopping *)

Lemma closing_not_live (r : option ReadyState) :
  closing <$> r <> Some OPEN /\ closing <$> r <> Some CONNECTING.
Proof. destruct r as [[]|]; cbn; split; discriminate. Qed.

(** C9.  Stopping while a search runs clears the searching flag, closes
    the socket of the session and forgets it, and sets the progress bar
    back to 0: the socket is neither open nor connecting afterwards. *)
Theorem C9_stop_while_searching (s : State) (bar : ProgressBar) :
  isStrongSearching (vars s) = true ->
  strongSearchModalProgressBar (page s) = Some bar ->
  let s' := stopStrongSearch s in
  isStrongSearching (vars s') = false
  /\ strongSearchSocket (vars s') = None
  /\ shownPercent s' = Some 0%Z
  /\ (forall sock,
        strongSearchSocket (vars s) = Some sock ->
        trace (net s') = (trace (net s) ++ [SocketClose sock])%list
        /\ readyState sock s' = closing <$> readyState sock s
        /\ readyState sock s' <> Some OPEN
        /\ readyState sock s' <> Some CONNECTING
        /\ strongSearchClientId (vars s') = None).
Proof.
  intros Hsearching Hbar s'. subst s'. unfold stopStrongSearch.
  rewrite Hsearching.
  unfold disconnectStrongSearchWebSocket, log, shownPercent, readyState.
  autorewrite with logged.
  destruct (strongSearchSocket (vars s)) as [sock|] eqn:Hsock; through;
    rewrite Hbar; cbn [option_map percent]; rewrite display_percent_eq.
  - split; [reflexivity|]. split; [reflexivity|]. split; [reflexivity|].
    intros ? [= <-]. rewrite list_lookup_alter_eq.
    repeat split; try reflexivity; apply closing_not_live.
  - split; [reflexivity|]. split; [exact Hsock|]. split; [reflexivity|].
    intros ? [=].
Qed.

(** *** The handshake *)

Lemma lastOr_snoc (previous : option Action) (t : list Action) (a : Action) :
  lastOr previous (t ++ [a]) = Some a.
Proof. revert previous. induction t as [|b t IH]; intros; cbn; eauto. Qed.

Lemma handshakenFrom_snoc
    (previous : option Action) (t : list Action) (a : Action) :
  handshakenFrom previous t ->
  follows (lastOr previous t) a ->
  handshakenFrom previous (t ++ [a]).
Proof.
  revert previous. induction t as [|b t IH]; intros previous; cbn.
  - intros _ Ha. by split.
  - intros [Hb Ht] Ha. split; [exact Hb|]. by apply IH.
Qed.

Lemma handshaken_emit (t : list Action) (a : Action) :
  handshaken t -> follows (lastOr None t) a -> handshaken (t ++ [a]).
Proof. apply handshakenFrom_snoc. Qed.

Lemma handshaken_open
    (t : list Action) (client_id url : string) (sock : nat) :
  handshaken t ->
  (exists secure host, url = webSocketUrl secure host client_id) ->
  handshaken ((t ++ [GotClientId client_id]) ++ [NewWebSocket url sock]).
Proof.
  intros Ht Hurl. apply handshaken_emit; [by apply handshaken_emit|].
  by rewrite lastOr_snoc.
Qed.

Ltac orderly :=
  unfold orderly in *;
  repeat first
    [ assumption
    | progress through
    | apply handshaken_open; [|by eauto]
    | apply handshaken_emit; [|exact I]
    | case_match ].

Lemma connect_orderly (s : State) :
  orderly s -> always orderly (connectStrongSearchWebSocket s).
Proof.
  intros H. unfold connectStrongSearchWebSocket.
  destruct (openSocket s); [exact H|].
  cbn [bind getStrongSearchClientId always]. split; [orderly|].
  intros answer s' Hs'.
  destruct answer; cbn [returnClientId bind openWebSocket]; [|cbn; orderly..].
  through. destruct (apiHost (net s')); cbn; [|orderly].
  split; [orderly|].
  intros [] s'' Hs''; cbn; unfold onopen, onerror; orderly.
Qed.

Lemma display_orderly (result : SearchResult) (s : State) :
  orderly s -> always orderly (displayStrongSearchResult result s).
Proof.
  intros H. unfold displayStrongSearchResult, showFiles.
  repeat case_match; cbn; try split; try intros answer s' Hs'; orderly.
Qed.

Lemma react_orderly (e : Event) (s : State) :
  orderly s -> always orderly (react e s).
Proof.
  intros H. destruct e; cbn [react].
  - unfold openModal. case_match; [|exact H].
    apply always_bind.
    + apply connect_orderly. unfold resetStrongSearchUI. orderly.
    + intros [] s' Hs'; cbn; orderly.
  - cbn. unfold closeModal, disconnectStrongSearchWebSocket. orderly.
  - cbn. orderly.
  - unfold startStrongSearch. repeat case_match; try exact H; cbn; [orderly|].
    apply always_bind.
    + apply connect_orderly. orderly.
    + intros connected s' Hs'. unfold sendSearchRequest.
      repeat case_match; cbn; unfold startFailed; orderly.
  - cbn. unfold stopStrongSearch, disconnectStrongSearchWebSocket. orderly.
  - unfold onmessage, handleStrongSearchWebSocketMessage.
    repeat case_match; cbn; try orderly.
    apply always_bind; [by apply display_orderly|].
    intros [] s' Hs'. cbn. orderly.
  - cbn. unfold onclose. orderly.
  - cbn. unfold onerror. orderly.
  - cbn. orderly.
Qed.

(** C8.  A connection is opened only on a client id obtained just before.
    While the socket of the session is not open, connecting first asks for
    a client id and creates nothing.  If the request fails the function
    resolves to false: no socket is created and nothing else is asked of
    the network.  If the id arrives, the socket is created at once, with
    that id in its address (or nothing is created, when the configured
    address is unusable).  While the socket is open, connecting creates
    nothing.  In the record of the actions of a whole session, whatever the
    events and their interleaving, every socket creation comes right after
    the arrival of the client id in its address. *)
Theorem C8_client_id_before_socket :
  (forall s : State,
      openSocket s = None ->
      exists k,
        connectStrongSearchWebSocket s
        = Await (emit GetClientId s) AwaitClientId k
        /\ (forall (answer : ClientIdAnswer) (s' : State),
              (forall client_id, answer <> ClientIdBody client_id) ->
              exists s'',
                k answer s' = Done s'' (Resolved false)
                /\ net s'' = net s'
                /\ strongSearchSocket (vars s'') = strongSearchSocket (vars s'))
        /\ (forall (client_id : string) (s' : State),
              match apiHost (net s') with
              | Some host =>
                  exists s'' k',
                    k (ClientIdBody client_id) s'
                    = Await s'' (AwaitSocket (length (sockets (net s')))) k'
                    /\ trace (net s'')
                       = (trace (net s')
                          ++ [GotClientId client_id;
                              NewWebSocket
                                (webSocketUrl (pageSecure (net s')) host client_id)
                                (length (sockets (net s')))])%list
                    /\ sockets (net s'') = (sockets (net s') ++ [CONNECTING])%list
                    /\ strongSearchSocket (vars s'')
                       = Some (length (sockets (net s')))
              | None =>
                  exists s'',
                    k (ClientIdBody client_id) s' = Done s'' (Resolved false)
                    /\ sockets (net s'') = sockets (net s')
                    /\ trace (net s'')
                       = (trace (net s') ++ [GotClientId client_id])%list
              end))
  /\ (forall (s : State) (sock : nat),
        openSocket s = Some sock ->
        connectStrongSearchWebSocket s = Done s (Resolved true))
  /\ (forall (e : Event) (s : State),
        handshaken (trace (net s)) ->
        always (fun s' => handshaken (trace (net s'))) (react e s)).
Proof.
  split; [|split].
  - intros s Hclosed. unfold connectStrongSearchWebSocket. rewrite Hclosed.
    cbn [bind getStrongSearchClientId]. eexists. split; [reflexivity|]. split.
    + intros answer s' Hfail.
      destruct answer as [client_id|status|message];
        [by destruct (Hfail client_id)|..];
        cbn; eexists; (split; [reflexivity|]); through; by split.
    + intros client_id s'. cbn. through.
      destruct (apiHost (net s')) as [host|]; cbn.
      * eexists _, _. split; [reflexivity|]. through.
        rewrite <- app_assoc. by repeat split.
      * eexists. split; [reflexivity|]. through. by split.
  - intros s sock Hopen. unfold connectStrongSearchWebSocket. by rewrite Hopen.
  - intros e s. exact (react_orderly e s).
Qed.

(** *** Connecting while connected *)

Lemma openSocket_same (s0 s : State) :
  strongSearchSocket (vars s0) = strongSearchSocket (vars s) ->
  sockets (net s0) = sockets (net s) ->
  openSocket s0 = openSocket s.
Proof. intros Hs Hn. unfold openSocket, readyState. by rewrite Hs, Hn. Qed.

(** C10, as the code has it.  While the socket of the session is open,
    connecting returns true at once and leaves the state as it is: no
    client id is asked for, no socket is created, the live connections are
    the same as before.  Starting a search in that state sends the request
    on that socket and opens nothing. *)
Theorem C10_connect_when_open (s : State) (sock : nat) :
  openSocket s = Some sock ->
  connectStrongSearchWebSocket s = Done s (Resolved true)
  /\ (forall answers,
        run answers (connectStrongSearchWebSocket s) = (s, Resolved true))
  /\ (forall answers,
        let s' := fst (run answers (connectStrongSearchWebSocket s)) in
        trace (net s') = trace (net s)
        /\ liveConnections s' = liveConnections s)
  /\ (forall codebase value,
        present (currentStrongSearchCodebase (vars s)) = Some codebase ->
        strongSearchModalQueryInput (page s) = Some value ->
        trim value <> "" ->
        isStrongSearching (vars s) = false ->
        exists s',
          startStrongSearch s = Done s' tt
          /\ trace (net s')
             = (trace (net s)
                ++ [SocketSend sock (currentStrongSearchCodebase (vars s))
                      (trim value)])%list
          /\ sockets (net s') = sockets (net s)
          /\ isStrongSearching (vars s') = true).
Proof.
  intros Hopen.
  assert (Hconnect : connectStrongSearchWebSocket s = Done s (Resolved true))
    by (unfold connectStrongSearchWebSocket; by rewrite Hopen).
  split; [exact Hconnect|].
  split; [intros answers; by rewrite Hconnect|].
  split; [intros answers; cbv zeta; by rewrite Hconnect|].
  intros codebase value Hcodebase Hvalue Hquery Hidle.
  unfold startStrongSearch. rewrite Hcodebase, Hvalue, Hidle.
  apply String.eqb_neq in Hquery. rewrite Hquery.
  set (started :=
         set_isStrongSearching true
           (log ("准备开始强效搜索: " ++ dquote ++ trim value ++ dquote) "info"
              (updateStrongSearchProgressBar 0 "准备搜索..."
                 (log "--------- 新的搜索开始 ---------" "info" s)))).
  assert (Hnet : net started = net s) by (unfold started; through; reflexivity).
  assert (Hcb : currentStrongSearchCodebase (vars started)
                = currentStrongSearchCodebase (vars s))
    by (unfold started; through; reflexivity).
  assert (Hflag : isStrongSearching (vars started) = true) by reflexivity.
  assert (Hstarted : openSocket started = Some sock).
  { rewrite <- Hopen. apply openSocket_same; unfold started; through;
      reflexivity. }
  clearbody started.
  unfold connectStrongSearchWebSocket. rewrite Hstarted. cbn [bind].
  unfold sendSearchRequest. rewrite Hstarted.
  eexists. split; [reflexivity|]. through. rewrite Hnet, Hcb. by repeat split.
Qed.

(** *** The result frame *)




(** *** Texts in the log *)

(** A text that is not taken for a tool call is appended as escaped text
    under its level. *)
Lemma addStrongSearchLog_message
    (text level : string) (s : State) (children : list nat) :
  strongSearchModalLogContainer (page s) = Some children ->
  text <> "" ->
  looksLikeToolCall text = false ->
  String.eqb level "agent_thinking" = false ->
  addStrongSearchLog (JStr text) level s
  = set_logContainer
      (Some (appendChild (length (elements (page s))) children))
      (set_elements
         (elements (page s)
          ++ [{| entryLevel := level;
                 entryTime := clock (net s);
                 iconClass := iconFor false level;
                 entryBody := EscapedText (escapeHtml text);
                 outputContainer := None |}]) s).
Proof.
  intros Hc Ht Hlook Hlevel. unfold addStrongSearchLog. rewrite Hc.
  cbn [typeof_object andb]. rewrite andb_false_r.
  unfold renderAndAppend, formatMessage. rewrite Hlevel, Hlook.
  cbn [unstored stored formattedMessage nonempty isToolCall].
  apply (escapeHtml_nonempty text), String.eqb_neq in Ht. rewrite Ht.
  reflexivity.
Qed.

Lemma addStrongSearchLog_status (message : jsval) (level : string) (s : State) :
  strongSearchConnectionStatus (page (addStrongSearchLog message level s))
  = strongSearchConnectionStatus (page s).
Proof. apply (Logged_frame _ _ (addStrongSearchLog_logged message level s)). Qed.

Lemma addStrongSearchLog_query (message : jsval) (level : string) (s : State) :
  strongSearchModalQueryInput (page (addStrongSearchLog message level s))
  = strongSearchModalQueryInput (page s).
Proof. apply (Logged_frame _ _ (addStrongSearchLog_logged message level s)). Qed.

(** *** Starting a search *)





Lemma log_grows (text level : string) (s : State) (children : list nat) :
  strongSearchModalLogContainer (page s) = Some children ->
  text <> "" ->
  is_Some (strongSearchModalLogContainer (page (log text level s)))
  /\ length (elements (page (log text level s)))
     = S (length (elements (page s))).
Proof.
  intros Hc Ht.
  destruct (addStrongSearchLog_text text level s children Hc Ht)
    as [Hc' [entry He]].
  unfold log. rewrite Hc', He, length_app. cbn. split; [eauto|lia].
Qed.

Lemma run_bind {A B : Type} (answers : forall r, Answer r)
    (m : Step A) (f : A -> State -> Step B) :
  run answers (bind m f)
  = run answers (f (snd (run answers m)) (fst (run answers m))).
Proof. induction m as [s a|s r k IH]; cbn; [reflexivity|apply IH]. Qed.

Lemma connect_run_opened
    (s : State) (client_id host : string) (batch : BatchAnswer) :
  openSocket s = None ->
  apiHost (net s) = Some host ->
  run (answering (ClientIdBody client_id) SocketOpened batch)
      (connectStrongSearchWebSocket s)
  = (connected client_id host s, Resolved true).
Proof.
  intros Hclosed Hhost. unfold connectStrongSearchWebSocket.
  rewrite Hclosed.
  cbn [bind getStrongSearchClientId returnClientId run answering openWebSocket].
  through. rewrite Hhost. reflexivity.
Qed.

Lemma connected_facts (client_id host : string) (s : State) :
  let sock := length (sockets (net s)) in
  openSocket (connected client_id host s) = Some sock
  /\ readyState sock (connected client_id host s) = Some OPEN
  /\ trace (net (connected client_id host s))
     = (trace (net s)
        ++ [GetClientId; GotClientId client_id;
            NewWebSocket (webSocketUrl (pageSecure (net s)) host client_id)
                         sock])%list
  /\ isStrongSearching (vars (connected client_id host s))
     = isStrongSearching (vars s)
  /\ currentStrongSearchCodebase (vars (connected client_id host s))
     = currentStrongSearchCodebase (vars s).
Proof.
  intros sock.
  assert (Hlookup : <[sock := OPEN]> (sockets (net s) ++ [CONNECTING])%list
                      !! sock = Some OPEN).
  { apply list_lookup_insert_eq. rewrite length_app. cbn. unfold sock. lia. }
  unfold connected, onopen, openSocket, readyState. through. fold sock.
  rewrite Hlookup, <- !app_assoc. by repeat split.
Qed.


(** ** Further properties of the module *)

(** *** Closing the modal *)

(** X1.  Closing the modal ends the session whatever its state: no
    codebase is selected, nothing is searched and no socket is held; a
    socket that was held has been told to close, once.  The log is kept.
    Closing again changes nothing (a click on the background runs the
    handler of the modal and the one of the window), and neither does
    starting or stopping a search afterwards. *)
Theorem X1_close_modal_settles (s : State) :
  let s' := closeModal s in
  currentStrongSearchCodebase (vars s') = None
  /\ isStrongSearching (vars s') = false
  /\ strongSearchSocket (vars s') = None
  /\ match strongSearchSocket (vars s) with
     | Some sock =>
         trace (net s') = (trace (net s) ++ [SocketClose sock])%list
         /\ readyState sock s' = closing <$> readyState sock s
         /\ strongSearchClientId (vars s') = None
     | None => net s' = net s
     end
  /\ strongSearchModalLogContainer (page s')
     = strongSearchModalLogContainer (page s)
  /\ elements (page s') = elements (page s)
  /\ closeModal s' = s'
  /\ startStrongSearch s' = Done s' tt
  /\ stopStrongSearch s' = s'.
Proof.
  intros s'. subst s'.
  assert (Hnone : strongSearchSocket (vars (closeModal s)) = None).
  { unfold closeModal, disconnectStrongSearchWebSocket.
    by destruct (strongSearchSocket (vars s)) eqn:Hsock. }
  assert (Hagain : closeModal (closeModal s) = closeModal s).
  { unfold closeModal at 1. unfold disconnectStrongSearchWebSocket at 1.
    by rewrite Hnone. }
  split; [reflexivity|]. split; [reflexivity|]. split; [exact Hnone|].
  split; [|split; [|split; [|split; [exact Hagain|by split]]]];
    unfold closeModal, disconnectStrongSearchWebSocket, readyState;
    destruct (strongSearchSocket (vars s)) as [sock|]; through;
    rewrite ?list_lookup_alter_eq; by repeat split.
Qed.

(** X2.  The close handler of a socket clears the variables of the module
    without looking at which socket closed.  When an older socket reports
    its closing while a newer one is open, the newer one is forgotten but
    not closed: it stays open, the module finds no open socket, and
    disconnecting no longer reaches it. *)
Theorem X2_stale_close_forgets_the_open_socket
    (s : State) (current stale : nat) :
  strongSearchSocket (vars s) = Some current ->
  readyState current s = Some OPEN ->
  stale <> current ->
  exists s',
    react (SocketClosed stale) s = Done s' tt
    /\ strongSearchSocket (vars s') = None
    /\ isStrongSearching (vars s') = false
    /\ readyState current s' = Some OPEN
    /\ trace (net s') = trace (net s)
    /\ openSocket s' = None
    /\ disconnectStrongSearchWebSocket s' = s'
    /\ closeModal s'
       = set_isStrongSearching false (set_currentStrongSearchCodebase None s').
Proof.
  intros Hsock Hopen Hne. cbn [react]. eexists. split; [reflexivity|].
  unfold onclose, openSocket, closeModal, disconnectStrongSearchWebSocket,
    readyState in *.
  destruct (isStrongSearching _); through;
    rewrite list_lookup_insert_ne by exact Hne; by repeat split.
Qed.

(** *** The close event of a socket *)

(** X3.  The close handler reports a closing only while a search runs: it
    then appends one entry of level error.  After the search was stopped
    the closing of its socket adds nothing to the log, and neither does a
    closing while nothing is searched. *)
Theorem X3_close_reported_only_mid_search
    (s : State) (sock : nat) (children : list nat) :
  strongSearchModalLogContainer (page s) = Some children ->
  let closed := fun s => onclose (setReadyState sock CLOSED s) in
  (isStrongSearching (vars s) = true ->
   strongSearchModalLogContainer (page (closed s))
   = Some (appendChild (length (elements (page s))) children)
   /\ elements (page (closed s))
      = (elements (page s)
         ++ [{| entryLevel := "error";
                entryTime := clock (net s);
                iconClass := "fa-exclamation-circle";
                entryBody := EscapedText (escapeHtml "WebSocket连接意外断开");
                outputContainer := None |}])%list)
  /\ (isStrongSearching (vars s) = false ->
      strongSearchModalLogContainer (page (closed s)) = Some children
      /\ elements (page (closed s)) = elements (page s))
  /\ strongSearchModalLogContainer (page (closed (stopStrongSearch s)))
     = strongSearchModalLogContainer (page (stopStrongSearch s))
  /\ elements (page (closed (stopStrongSearch s)))
     = elements (page (stopStrongSearch s)).
Proof.
  intros Hc closed. subst closed. cbv beta.
  assert (Hidle : forall s0,
             isStrongSearching (vars s0) = false ->
             strongSearchModalLogContainer
               (page (onclose (setReadyState sock CLOSED s0)))
             = strongSearchModalLogContainer (page s0)
             /\ elements (page (onclose (setReadyState sock CLOSED s0)))
                = elements (page s0)).
  { intros s0 Hflag. unfold onclose. through. rewrite Hflag. through.
    by split. }
  split; [|split].
  - intros Hflag. unfold onclose. through. rewrite Hflag. unfold log.
    rewrite (addStrongSearchLog_message _ _ _ children);
      [through; by split|exact Hc|discriminate|reflexivity|reflexivity].
  - intros Hflag. rewrite <- Hc. by apply Hidle.
  - apply Hidle. unfold stopStrongSearch.
    by destruct (isStrongSearching (vars s)) eqn:Hflag.
Qed.

(** *** Starting a search *)

Lemma trimStartWithin_blank (fuel : nat) (text : string) :
  (String.length text <= fuel)%nat ->
  blank text = true -> trimStartWithin fuel text = "".
Proof.
  revert text. induction fuel as [|fuel IH]; intros [|c rest] Hfuel;
    try reflexivity; cbn [String.length] in Hfuel; [lia|].
  cbn [blank trimStartWithin afterSpace].
  intros [Hc Hrest]%andb_true_iff. rewrite Hc. apply IH; [lia|exact Hrest].
Qed.

Lemma trim_blank (text : string) : blank text = true -> trim text = "".
Proof.
  intros H. unfold trim, trimStart.
  by rewrite (trimStartWithin_blank _ text (le_n _) H).
Qed.

(** X4.  Starting a search does nothing at all while a search runs, while
    no codebase is selected, or when the query field is missing.
    Otherwise a query of white space only is answered with one warning in
    the log and nothing else: the flag stays down, no client id is asked
    for, no socket is created and nothing is sent. *)
Theorem X4_blank_query_is_refused (s : State) :
  (isStrongSearching (vars s) = true
   \/ present (currentStrongSearchCodebase (vars s)) = None
   \/ strongSearchModalQueryInput (page s) = None ->
   startStrongSearch s = Done s tt)
  /\ (forall (codebase value : string) (children : list nat),
        isStrongSearching (vars s) = false ->
        present (currentStrongSearchCodebase (vars s)) = Some codebase ->
        strongSearchModalQueryInput (page s) = Some value ->
        blank value = true ->
        strongSearchModalLogContainer (page s) = Some children ->
        startStrongSearch s
        = Done
            (set_logContainer
               (Some (appendChild (length (elements (page s))) children))
               (set_elements
                  (elements (page s)
                   ++ [{| entryLevel := "warning";
                          entryTime := clock (net s);
                          iconClass := "fa-exclamation-triangle";
                          entryBody := EscapedText (escapeHtml "请输入查询内容");
                          outputContainer := None |}]) s)) tt).
Proof.
  split.
  - unfold startStrongSearch. intros [H|[H|H]]; rewrite H;
      repeat case_match; reflexivity.
  - intros codebase value children Hidle Hcodebase Hvalue Hblank Hc.
    unfold startStrongSearch.
    rewrite Hcodebase, Hvalue, Hidle, (trim_blank value Hblank).
    cbn [String.eqb]. unfold log.
    rewrite (addStrongSearchLog_message _ _ _ children);
      [reflexivity|exact Hc|discriminate|reflexivity|reflexivity].
Qed.

Lemma connect_run_refused
    (s : State) (client_id host : string) (batch : BatchAnswer) :
  openSocket s = None ->
  apiHost (net s) = Some host ->
  run (answering (ClientIdBody client_id) SocketFailed batch)
      (connectStrongSearchWebSocket s)
  = (refused client_id host s, Rejected "WebSocket连接失败").
Proof.
  intros Hclosed Hhost. unfold connectStrongSearchWebSocket.
  rewrite Hclosed.
  cbn [bind getStrongSearchClientId returnClientId run answering openWebSocket].
  through. rewrite Hhost. reflexivity.
Qed.

Lemma dialled_facts (client_id host : string) (s : State) :
  let sock := length (sockets (net s)) in
  strongSearchSocket (vars (dialled client_id host s)) = Some sock
  /\ sockets (net (dialled client_id host s))
     = (sockets (net s) ++ [CONNECTING])%list
  /\ trace (net (dialled client_id host s))
     = (trace (net s)
        ++ [GetClientId; GotClientId client_id;
            NewWebSocket (webSocketUrl (pageSecure (net s)) host client_id)
                         sock])%list.
Proof.
  intros sock. unfold dialled. through. fold sock.
  rewrite <- !app_assoc. by repeat split.
Qed.

Lemma onerror_facts (sock : nat) (s : State) :
  let s' := onerror (setReadyState sock CLOSED s) in
  strongSearchSocket (vars s') = None
  /\ isStrongSearching (vars s') = false
  /\ sockets (net s') = <[sock := CLOSED]> (sockets (net s))
  /\ trace (net s') = trace (net s)
  /\ openSocket s' = None.
Proof. unfold onerror, openSocket. through. by repeat split. Qed.

Lemma refused_facts (client_id host : string) (s : State) :
  let sock := length (sockets (net s)) in
  openSocket (refused client_id host s) = None
  /\ strongSearchSocket (vars (refused client_id host s)) = None
  /\ sockets (net (refused client_id host s))
     = (sockets (net s) ++ [CLOSED])%list
  /\ trace (net (refused client_id host s))
     = (trace (net s)
        ++ [GetClientId; GotClientId client_id;
            NewWebSocket (webSocketUrl (pageSecure (net s)) host client_id)
                         sock])%list
  /\ isStrongSearching (vars (refused client_id host s)) = false.
Proof.
  intros sock. unfold refused. fold sock.
  destruct (dialled_facts client_id host s) as (_ & Hsockets & Htrace).
  fold sock in Htrace.
  destruct (onerror_facts sock (dialled client_id host s))
    as (Hvar & Hflag & Hs & Ht & Hopen).
  revert Hvar Hflag Hs Ht Hopen.
  generalize (onerror (setReadyState sock CLOSED (dialled client_id host s))).
  intros after Hvar Hflag Hs Ht Hopen.
  rewrite Hs, Ht, Hsockets, Htrace. unfold sock.
  rewrite insert_app_r_alt by lia. rewrite Nat.sub_diag. by repeat split.
Qed.

Lemma startFailed_facts (message : string) (s : State) :
  isStrongSearching (vars (startFailed message s)) = false
  /\ net (startFailed message s) = net s
  /\ strongSearchSocket (vars (startFailed message s))
     = strongSearchSocket (vars s)
  /\ openSocket (startFailed message s) = openSocket s.
Proof. unfold startFailed, openSocket, readyState. through. by repeat split. Qed.

(** The state in which [startStrongSearch] calls for the connection. *)
Lemma started_facts (s : State) (query : string) :
  let started :=
    set_isStrongSearching true
      (log ("准备开始强效搜索: " ++ dquote ++ query ++ dquote) "info"
         (updateStrongSearchProgressBar 0 "准备搜索..."
            (log "--------- 新的搜索开始 ---------" "info" s))) in
  net started = net s
  /\ strongSearchSocket (vars started) = strongSearchSocket (vars s)
  /\ currentStrongSearchCodebase (vars started)
     = currentStrongSearchCodebase (vars s)
  /\ openSocket started = openSocket s.
Proof.
  intros started. unfold started, openSocket, readyState. through.
  by repeat split.
Qed.

Lemma failed_after_refusal
    (started : State) (query client_id host : string) (batch : BatchAnswer) :
  openSocket started = None ->
  apiHost (net started) = Some host ->
  let s' := fst (run (answering (ClientIdBody client_id) SocketFailed batch)
                     (bind (connectStrongSearchWebSocket started)
                           (sendSearchRequest query))) in
  isStrongSearching (vars s') = false
  /\ openSocket s' = None
  /\ trace (net s')
     = (trace (net started)
        ++ [GetClientId; GotClientId client_id;
            NewWebSocket
              (webSocketUrl (pageSecure (net started)) host client_id)
              (length (sockets (net started)))])%list
  /\ sockets (net s') = (sockets (net started) ++ [CLOSED])%list
  /\ strongSearchSocket (vars s') = None.
Proof.
  intros Hstarted Hhost. cbv zeta.
  destruct (refused_facts client_id host started)
    as (Hopen & Hvar & Hsockets & Htrace & Hflag).
  rewrite run_bind, (connect_run_refused started client_id host batch)
    by assumption.
  cbn [fst snd]. revert Hopen Hvar Hsockets Htrace Hflag.
  generalize (refused client_id host started).
  intros after Hopen Hvar Hsockets Htrace Hflag.
  unfold sendSearchRequest. cbn [run fst].
  destruct (startFailed_facts "WebSocket连接失败" after)
    as (Hflag' & Hnet' & Hvar' & Hopen').
  revert Hflag' Hnet' Hvar' Hopen'.
  generalize (startFailed "WebSocket连接失败" after).
  intros final Hflag' Hnet' Hvar' Hopen'.
  by rewrite Hflag', Hnet', Hvar', Hopen', Htrace, Hsockets, Hvar, Hopen.
Qed.

Lemma failed_without_address
    (started : State) (query client_id : string) (batch : BatchAnswer) :
  openSocket started = None ->
  apiHost (net started) = None ->
  let s' := fst (run (answering (ClientIdBody client_id) SocketFailed batch)
                     (bind (connectStrongSearchWebSocket started)
                           (sendSearchRequest query))) in
  isStrongSearching (vars s') = false
  /\ openSocket s' = None
  /\ trace (net s')
     = (trace (net started) ++ [GetClientId; GotClientId client_id])%list
  /\ sockets (net s') = sockets (net started)
  /\ strongSearchSocket (vars s') = strongSearchSocket (vars started).
Proof.
  intros Hstarted Hhost. cbv zeta.
  unfold connectStrongSearchWebSocket. rewrite Hstarted.
  cbn [bind getStrongSearchClientId returnClientId run answering
       openWebSocket].
  through. rewrite Hhost.
  cbn [bind run sendSearchRequest fst].
  set (halted := updateStrongSearchConnectionStatus "disconnected" _).
  assert (Hnet2 : net halted
                  = net (emit (GotClientId client_id)
                           (emit GetClientId started)))
    by reflexivity.
  assert (Hvar2 : strongSearchSocket (vars halted)
                  = strongSearchSocket (vars started)) by reflexivity.
  assert (Hopen2 : openSocket halted = None).
  { rewrite <- Hstarted. by apply openSocket_same. }
  clearbody halted.
  destruct (startFailed_facts "WebSocket连接失败" halted)
    as (Hflag' & Hnet' & Hvar' & Hopen').
  revert Hflag' Hnet' Hvar' Hopen'.
  generalize (startFailed "WebSocket连接失败" halted).
  intros final Hflag' Hnet' Hvar' Hopen'.
  rewrite Hflag', Hnet', Hvar', Hopen', Hnet2, Hvar2, Hopen2.
  through. by rewrite <- app_assoc.
Qed.

(** X5.  When the client id arrives but the socket fails to open, a search
    that was started ends at once: the flag is cleared, the failed socket
    is forgotten, and nothing was sent; the module asked for the id and
    created the one socket, nothing else.  When
    the configured address is unusable, no socket is created at all and
    the search ends the same way. *)
Theorem X5_start_when_the_socket_fails
    (s : State) (codebase value client_id : string) (batch : BatchAnswer) :
  present (currentStrongSearchCodebase (vars s)) = Some codebase ->
  strongSearchModalQueryInput (page s) = Some value ->
  trim value <> "" ->
  isStrongSearching (vars s) = false ->
  openSocket s = None ->
  let sock := length (sockets (net s)) in
  let s' := fst (run (answering (ClientIdBody client_id) SocketFailed batch)
                     (startStrongSearch s)) in
  isStrongSearching (vars s') = false
  /\ openSocket s' = None
  /\ match apiHost (net s) with
     | Some host =>
         trace (net s')
         = (trace (net s)
            ++ [GetClientId; GotClientId client_id;
                NewWebSocket
                  (webSocketUrl (pageSecure (net s)) host client_id) sock])%list
         /\ sockets (net s') = (sockets (net s) ++ [CLOSED])%list
         /\ strongSearchSocket (vars s') = None
     | None =>
         trace (net s')
         = (trace (net s) ++ [GetClientId; GotClientId client_id])%list
         /\ sockets (net s') = sockets (net s)
         /\ strongSearchSocket (vars s') = strongSearchSocket (vars s)
     end.
Proof.
  intros Hcodebase Hvalue Hquery Hidle Hclosed sock.
  unfold startStrongSearch. rewrite Hcodebase, Hvalue, Hidle.
  apply String.eqb_neq in Hquery. rewrite Hquery.
  destruct (started_facts s (trim value)) as (Hnet & Hsock & _ & Hopen).
  rewrite Hclosed in Hopen. revert Hnet Hsock Hopen.
  generalize
    (set_isStrongSearching true
       (log ("准备开始强效搜索: " ++ dquote ++ trim value ++ dquote) "info"
          (updateStrongSearchProgressBar 0 "准备搜索..."
             (log "--------- 新的搜索开始 ---------" "info" s)))).
  intros started Hnet Hsock Hstarted. cbv zeta.
  destruct (apiHost (net s)) as [host|] eqn:Hhost.
  - destruct (failed_after_refusal started (trim value) client_id host batch)
      as (Hflag & Hopen & Htrace & Hsockets & Hvar);
      [exact Hstarted|by rewrite Hnet|].
    rewrite Hnet in Htrace, Hsockets. by repeat split.
  - destruct (failed_without_address started (trim value) client_id batch)
      as (Hflag & Hopen & Htrace & Hsockets & Hvar);
      [exact Hstarted|by rewrite Hnet|].
    rewrite Hnet in Htrace, Hsockets. rewrite Hsock in Hvar. by repeat split.
Qed.

(** *** Frames *)


(** X7.  A frame that is not a result, and a text that is no frame at
    all, are handled at once and touch neither the network nor the socket,
    the client id, the codebase, the connection status or the result
    container.  Only an error frame changes the searching flag, which it
    clears: the connection stays as it is.  Only a progress frame changes
    the bar, and a progress frame changes nothing but the bar. *)
Theorem X7_frames_other_than_results (data : option Frame) (s : State) :
  (forall result, data <> Some (ResultFrame result)) ->
  exists s',
    onmessage data s = Done s' tt
    /\ net s' = net s
    /\ strongSearchSocket (vars s') = strongSearchSocket (vars s)
    /\ strongSearchClientId (vars s') = strongSearchClientId (vars s)
    /\ currentStrongSearchCodebase (vars s')
       = currentStrongSearchCodebase (vars s)
    /\ strongSearchConnectionStatus (page s')
       = strongSearchConnectionStatus (page s)
    /\ strongSearchModalResultContainer (page s')
       = strongSearchModalResultContainer (page s)
    /\ isStrongSearching (vars s')
       = match data with
         | Some (ErrorFrame _) => false
         | _ => isStrongSearching (vars s)
         end
    /\ match data with
       | Some (ProgressFrame progress status) =>
           s' = updateStrongSearchProgressBar progress status s
           /\ vars s' = vars s
           /\ strongSearchModalLogContainer (page s')
              = strongSearchModalLogContainer (page s)
           /\ elements (page s') = elements (page s)
       | _ =>
           strongSearchModalProgressBar (page s')
           = strongSearchModalProgressBar (page s)
       end.
Proof.
  intros Hother.
  destruct data as [[level message|progress status|result|error|json]|];
    [..|by destruct (Hother result)|idtac|idtac|idtac];
    cbn [onmessage handleStrongSearchWebSocketMessage];
    (eexists; split; [reflexivity|]); through;
    rewrite ?addStrongSearchLog_status; by repeat split.
Qed.

(** *** What every event keeps *)

(** A property of the state that the steps of the module keep is kept by
    every event of a session, however the events interleave with the
    functions that wait for the network.  The steps are the writes to the
    variables and to the page, the calls of [addStrongSearchLog], and the
    actions on the network: a socket is created and held at once, a
    request is sent on the open socket, and the socket that is held is
    closed. *)
Section Invariant.

Variable I : State -> Prop.

Hypothesis I_log :
  forall message level s, I s -> I (addStrongSearchLog message level s).
Hypothesis I_codebase :
  forall x s, I s -> I (set_currentStrongSearchCodebase x s).
Hypothesis I_clientId :
  forall x s, I s -> I (set_strongSearchClientId x s).
Hypothesis I_searching :
  forall x s, I s -> I (set_isStrongSearching x s).
Hypothesis I_forget :
  forall s, I s -> I (set_strongSearchSocket None s).
Hypothesis I_query :
  forall x s, I s -> I (set_queryInput x s).
Hypothesis I_status :
  forall status s, I s -> I (updateStrongSearchConnectionStatus status s).
Hypothesis I_progress :
  forall progress status s,
    I s -> I (updateStrongSearchProgressBar progress status s).
Hypothesis I_forgetCalls :
  forall s, I s -> I (set_toolCalls ∅ ∅ s).
Hypothesis I_emptyLog :
  forall s,
    I s ->
    I (set_logContainer
         (option_map (fun _ => []) (strongSearchModalLogContainer (page s))) s).
Hypothesis I_result :
  forall x s, I s -> I (set_resultContainer x s).
Hypothesis I_readyState :
  forall sock r s, I s -> I (setReadyState sock r s).
Hypothesis I_clock :
  forall now s, I s -> I (set_clock now s).
Hypothesis I_quiet :
  forall a s, target a = None -> madeBy a = [] -> I s -> I (emit a s).
Hypothesis I_new :
  forall url s,
    I s ->
    I (set_strongSearchSocket (Some (length (sockets (net s))))
         (emit (NewWebSocket url (length (sockets (net s))))
            (set_sockets (sockets (net s) ++ [CONNECTING])%list s))).
Hypothesis I_send :
  forall sock codebase query s,
    openSocket s = Some sock -> I s -> I (emit (SocketSend sock codebase query) s).
Hypothesis I_close :
  forall sock s,
    strongSearchSocket (vars s) = Some sock -> I s -> I (closeSocket sock s).

Ltac keeps :=
  repeat first
    [ assumption
    | progress unfold log, appendResult
    | apply I_log
    | apply I_codebase
    | apply I_clientId
    | apply I_searching
    | apply I_forget
    | apply I_query
    | apply I_status
    | apply I_progress
    | apply I_forgetCalls
    | apply I_emptyLog
    | apply I_result
    | apply I_readyState
    | apply I_clock
    | apply I_new
    | apply I_send; [assumption|]
    | apply I_close; [assumption|]
    | apply I_quiet; [reflexivity|reflexivity|]
    | case_match ].

Lemma connect_keeps (s : State) :
  I s -> always I (connectStrongSearchWebSocket s).
Proof.
  intros H. unfold connectStrongSearchWebSocket.
  destruct (openSocket s); [exact H|].
  apply always_bind.
  - cbn. split; [keeps|]. intros answer s' Hs'. destruct answer; cbn; keeps.
  - intros [client_id|] s' Hs'; unfold openWebSocket; [|cbn; keeps].
    destruct (apiHost _); cbn [always]; [|keeps].
    split; [keeps|].
    intros [] s'' Hs''; cbn; unfold onopen, onerror; keeps.
Qed.

Lemma display_keeps (result : SearchResult) (s : State) :
  I s -> always I (displayStrongSearchResult result s).
Proof.
  intros H. unfold displayStrongSearchResult, showFiles.
  repeat case_match; cbn [always];
    try (split; [|intros answer s' Hs'; cbn [always]]); keeps.
Qed.

Lemma react_keeps (e : Event) (s : State) : I s -> always I (react e s).
Proof.
  intros H. destruct e; cbn [react].
  - unfold openModal. case_match; [|exact H].
    apply always_bind.
    + apply connect_keeps. unfold resetStrongSearchUI. keeps.
    + intros [] s' Hs'; cbn; keeps.
  - cbn. unfold closeModal, disconnectStrongSearchWebSocket. keeps.
  - cbn. keeps.
  - unfold startStrongSearch. repeat case_match; try exact H; cbn; [keeps|].
    apply always_bind.
    + apply connect_keeps. keeps.
    + intros connected s' Hs'. unfold sendSearchRequest.
      repeat case_match; cbn; unfold startFailed; keeps.
  - cbn. unfold stopStrongSearch, disconnectStrongSearchWebSocket. keeps.
  - unfold onmessage, handleStrongSearchWebSocketMessage.
    repeat case_match; cbn; try keeps.
    apply always_bind; [by apply display_keeps|].
    intros [] s' Hs'. cbn. keeps.
  - cbn. unfold onclose. keeps.
  - cbn. unfold onerror. keeps.
  - cbn. keeps.
Qed.

End Invariant.

Lemma wellStored_frame (s s' : State) :
  toolCallMap (vars s') = toolCallMap (vars s) ->
  toolCallsByName (vars s') = toolCallsByName (vars s) ->
  elements (page s') = elements (page s) ->
  wellStored s -> wellStored s'.
Proof.
  unfold wellStored, refersToBanners. intros -> -> ->. tauto.
Qed.

Lemma wellStored_reset (s : State) : wellStored (set_toolCalls ∅ ∅ s).
Proof. split; intros key record H; cbn in H; by rewrite lookup_empty in H. Qed.

(** X8.  Whatever happens in a session, and however the events interleave
    with the functions that wait for the network, the tool calls that the
    module has stored, by key and by name, refer to entries of the store
    that are tool-call banners: a stored reference never dangles and never
    points at another kind of entry. *)
Theorem X8_stored_calls_stay_valid (e : Event) (s : State) :
  wellStored s -> always wellStored (react e s).
Proof.
  apply react_keeps; intros;
    first
      [ eapply Logged_wellStored; [apply addStrongSearchLog_logged|assumption]
      | apply wellStored_reset
      | match goal with
        | H : wellStored ?s0 |- wellStored ?s1 =>
            exact (wellStored_frame s0 s1 eq_refl eq_refl eq_refl H)
        end ].
Qed.

Lemma barInRange_update (progress : Q) (status : string) (s : State) :
  barInRange (updateStrongSearchProgressBar progress status s).
Proof.
  unfold barInRange, updateStrongSearchProgressBar. through.
  destruct (strongSearchModalProgressBar (page s)); cbn; [lia|exact I].
Qed.

Lemma barInRange_frame (s s' : State) :
  strongSearchModalProgressBar (page s') = strongSearchModalProgressBar (page s) ->
  barInRange s -> barInRange s'.
Proof. unfold barInRange. by intros ->. Qed.

(** X9.  The progress bar never leaves the range of a percentage: if it
    shows a value from 0 to 100, it does so after every event of a
    session, whatever fractions the progress frames carry and however the
    events interleave. *)
Theorem X9_bar_stays_a_percentage (e : Event) (s : State) :
  barInRange s -> always barInRange (react e s).
Proof.
  apply react_keeps; intros;
    first
      [ apply barInRange_update
      | eapply barInRange_frame; [apply addStrongSearchLog_bar|assumption]
      | match goal with
        | H : barInRange ?s0 |- barInRange ?s1 =>
            exact (barInRange_frame s0 s1 eq_refl H)
        end ].
Qed.

(** *** Messages that name a tool *)

(** X10.  A message that names a tool leaves a trace only as a tool call
    or as the output of a stored call.  At every other level, be it info,
    error or agent_thinking, the message gets no markup and is passed
    over: the log frame leaves the state exactly as it was. *)
Theorem X10_named_tool_at_other_levels
    (message : jsval) (level : string) (s : State) :
  structured message ->
  level <> "tool_call" ->
  level <> "tool_output" ->
  addStrongSearchLog message level s = s
  /\ handleStrongSearchWebSocketMessage (LogFrame level message) s = Done s tt.
Proof.
  intros Hs Hcall Hout.
  assert (Hadd : addStrongSearchLog message level s = s).
  { unfold addStrongSearchLog.
    destruct (strongSearchModalLogContainer (page s)); [|reflexivity].
    apply String.eqb_neq in Hout. rewrite Hout. cbn [andb].
    unfold renderAndAppend.
    rewrite (formatMessage_other message level _ Hs);
      [reflexivity|by apply String.eqb_neq]. }
  split; [exact Hadd|].
  cbn [handleStrongSearchWebSocketMessage].
  destruct (structured_object message Hs) as [fields ->].
  by rewrite js_or_truthy, Hadd.
Qed.

(** X11.  A text that looks like a JSON object with a tool name is
    parsed, whatever its level (that of agent_thinking apart).  When it
    parses to an object that names a tool, it is appended as the banner of
    a tool call and stored under its key and its name, like a structured
    tool call, so that a structured output of that tool which arrives next
    and finds no older call under its own key is attached to it.  When it
    does not parse, or names no tool, it is shown as escaped text. *)
Theorem X11_tool_call_given_as_text
    (text level : string) (s : State) (children : list nat) :
  strongSearchModalLogContainer (page s) = Some children ->
  looksLikeToolCall text = true ->
  level <> "agent_thinking" ->
  let now := clock (net s) in
  let record := length (elements (page s)) in
  let s' := addStrongSearchLog (JStr text) level s in
  (forall parsed,
      JSON_parse text = Some parsed ->
      truthy (js_get "tool_name" parsed) = true ->
      s' = set_logContainer (Some (appendChild record children))
             (set_elements
                (elements (page s)
                 ++ [renderEntry (toolCallBanner parsed now) level now])
                (set_toolCalls
                   (<[correlationKey parsed now := record]>
                      (toolCallMap (vars s)))
                   (<[js_toString (js_get "tool_name" parsed) := record]>
                      (toolCallsByName (vars s))) s))
      /\ forall out,
           js_get "tool_name" out = js_get "tool_name" parsed ->
           toolCallMap (vars s) !! correlationKey out now = None ->
           findToolCall out s' = Some record)
  /\ (JSON_parse text = None
      \/ (exists parsed, JSON_parse text = Some parsed
                         /\ truthy (js_get "tool_name" parsed) = false) ->
      s' = set_logContainer (Some (appendChild record children))
             (set_elements
                (elements (page s)
                 ++ [{| entryLevel := level;
                        entryTime := now;
                        iconClass := iconFor false level;
                        entryBody := EscapedText (escapeHtml text);
                        outputContainer := None |}]) s)).
Proof.
  intros Hc Hlook Hlevel now record s'. subst s'.
  apply String.eqb_neq in Hlevel.
  assert (Htext : text <> "").
  { intros ->. discriminate. }
  assert (Hunfold :
            addStrongSearchLog (JStr text) level s
            = renderAndAppend (JStr text) level children s).
  { unfold addStrongSearchLog. rewrite Hc. cbn [typeof_object andb].
    by rewrite andb_false_r. }
  rewrite Hunfold. unfold renderAndAppend, formatMessage.
  rewrite Hlevel, Hlook. fold now record. split.
  - intros parsed Hparsed Hname. rewrite Hparsed, Hname.
    unfold toolCallBanner, correlationKey.
    cbn [stored formattedMessage nonempty].
    rewrite (js_or_truthy (js_get "tool_name" parsed)) by exact Hname.
    split; [reflexivity|].
    intros out Hout Hold. unfold findToolCall, correlationKey in *.
    cbn [vars with_vars with_page set_logContainer set_elements set_toolCalls
         toolCallMap toolCallsByName net clock].
    fold now. rewrite Hout.
    destruct (decide
                (generateToolCallId (js_get "tool_name" parsed)
                   (js_or (js_get "timestamp" parsed) (JNum now))
                 = generateToolCallId (js_get "tool_name" parsed)
                     (js_or (js_get "timestamp" out) (JNum now))))
      as [Hsame|Hdiff].
    + by rewrite Hsame, lookup_insert_eq.
    + rewrite lookup_insert_ne by exact Hdiff.
      rewrite Hout in Hold. by rewrite Hold, lookup_insert_eq.
  - intros Hplain.
    assert (Hnone :
              match JSON_parse text with
              | Some parsed =>
                  if truthy (js_get "tool_name" parsed)
                  then Some (toolCallBanner parsed now) else None
              | None => None
              end = None).
    { destruct Hplain as [->|(parsed & -> & ->)]; reflexivity. }
    rewrite Hnone. cbn [unstored stored formattedMessage nonempty isToolCall].
    apply (escapeHtml_nonempty text), String.eqb_neq in Htext.
    by rewrite Htext.
Qed.

(** X12.  A log frame without a message, or with an empty or otherwise
    falsy one, adds nothing to the log and changes nothing, provided that
    escaping the empty text gives the empty text.  The level agent_thinking
    is the exception: there the frame appends a thinking box with an empty
    body. *)
Theorem X12_empty_message
    (level : string) (message : jsval) (s : State) (children : list nat) :
  escapeHtml "" = "" ->
  truthy message = false ->
  strongSearchModalLogContainer (page s) = Some children ->
  (level <> "agent_thinking" ->
   handleStrongSearchWebSocketMessage (LogFrame level message) s = Done s tt)
  /\ (level = "agent_thinking" ->
      handleStrongSearchWebSocketMessage (LogFrame level message) s
      = Done
          (set_logContainer
             (Some (appendChild (length (elements (page s))) children))
             (set_elements
                (elements (page s)
                 ++ [{| entryLevel := "agent_thinking";
                        entryTime := clock (net s);
                        iconClass := "fa-brain";
                        entryBody := ThinkingBox (JStr "");
                        outputContainer := None |}]) s)) tt).
Proof.
  intros Hempty Hfalsy Hc.
  cbn [handleStrongSearchWebSocketMessage]. unfold js_or. rewrite Hfalsy.
  unfold addStrongSearchLog. rewrite Hc. cbn [typeof_object andb].
  rewrite andb_false_r. unfold renderAndAppend, formatMessage. split.
  - intros Hlevel. apply String.eqb_neq in Hlevel. rewrite Hlevel.
    change (looksLikeToolCall "") with false. cbv iota.
    cbn [unstored stored formattedMessage nonempty]. by rewrite Hempty.
  - intros ->. reflexivity.
Qed.

(** X13.  The output container of a tool call holds one output, the last
    one: when two outputs find the same stored call, one after the other,
    the state is the one that the second output alone would have left.
    In particular an output that arrives twice shows once. *)
Theorem X13_last_output_wins
    (first second : jsval) (s : State) (children : list nat) (record : nat) :
  strongSearchModalLogContainer (page s) = Some children ->
  structured first ->
  structured second ->
  findToolCall first s = Some record ->
  findToolCall second s = Some record ->
  addStrongSearchLog second "tool_output"
    (addStrongSearchLog first "tool_output" s)
  = addStrongSearchLog second "tool_output" s.
Proof.
  intros Hc Hfirst Hsecond Hf1 Hf2.
  rewrite (addStrongSearchLog_output first s children record Hc Hfirst Hf1).
  rewrite (addStrongSearchLog_output second s children record Hc Hsecond Hf2).
  rewrite (addStrongSearchLog_output second _ children record);
    [|exact Hc|exact Hsecond|exact Hf2].
  cbn [set_elements with_page page elements].
  rewrite list_alter_alter_eq.
  rewrite (list_alter_ext _
             (fillOutput
                (js_or (js_get "output_preview" second) (JStr "[无输出]")))
             _ (elements (page s)) record);
    [reflexivity|by intros entry _|reflexivity].
Qed.

(** *** Resetting the page *)

(** X14.  Opening the modal resets the page of the module: the query is
    emptied, the log store is emptied, the bar is set to 0 and keeps its
    title, the status shows disconnected, and the stored tool calls are
    forgotten, so that an output of an earlier call that arrives now finds
    nothing and is dropped.  The reset leaves alone the socket, the client
    id, the searching flag, the codebase, everything of the network, and
    what the result container shows: an earlier result stays there. *)
Theorem X14_reset_of_the_page (s : State) :
  strongSearchModal (page s) = true ->
  let s' := resetStrongSearchUI s in
  strongSearchModalLogContainer (page s')
  = (fun _ => []) <$> strongSearchModalLogContainer (page s)
  /\ strongSearchModalQueryInput (page s')
     = (fun _ => "") <$> strongSearchModalQueryInput (page s)
  /\ strongSearchModalProgressBar (page s')
     = (fun bar => {| percent := 0; title := title bar |})
         <$> strongSearchModalProgressBar (page s)
  /\ strongSearchConnectionStatus (page s')
     = (fun _ => StatusDisconnected) <$> strongSearchConnectionStatus (page s)
  /\ toolCallMap (vars s') = ∅
  /\ toolCallsByName (vars s') = ∅
  /\ (forall out, structured out ->
        addStrongSearchLog out "tool_output" s' = s')
  /\ strongSearchSocket (vars s') = strongSearchSocket (vars s)
  /\ strongSearchClientId (vars s') = strongSearchClientId (vars s)
  /\ isStrongSearching (vars s') = isStrongSearching (vars s)
  /\ currentStrongSearchCodebase (vars s')
     = currentStrongSearchCodebase (vars s)
  /\ net s' = net s
  /\ strongSearchModalResultContainer (page s')
     = strongSearchModalResultContainer (page s).
Proof.
  intros Hmodal s'. subst s'. unfold resetStrongSearchUI. rewrite Hmodal.
  through.
  split; [reflexivity|]. split; [reflexivity|]. split; [reflexivity|].
  split; [reflexivity|]. split; [reflexivity|]. split; [reflexivity|].
  split; [|by repeat split].
  intros out Hout. apply addStrongSearchLog_unmatched; [exact Hout|].
  unfold findToolCall. through. by rewrite !lookup_empty.
Qed.

(** *** Calls that left the log store *)

(** What a run of plain objects leaves: entries at the end of the store
    and of the container, and nothing else. *)
Lemma logAll_plain_state (messages : list jsval) (level : string) :
  Forall plainObject messages ->
  forall (s : State) (children : list nat),
    strongSearchModalLogContainer (page s) = Some children ->
    exists new,
      logAll messages level s
      = set_logContainer
          (Some (fold_left (fun c e => appendChild e c)
                   (seq (length (elements (page s))) (length messages))
                   children))
          (set_elements (elements (page s) ++ new) s).
Proof.
  induction 1 as [|message messages Hm _ IH]; intros s children Hc.
  - exists []. cbn [logAll fold_left length seq]. rewrite app_nil_r.
    destruct s as [v [] n]. cbn in Hc. by subst.
  - destruct (addStrongSearchLog_plain message level s children Hc Hm)
      as [entry Hadd].
    change (logAll (message :: messages) level s)
      with (logAll messages level (addStrongSearchLog message level s)).
    rewrite Hadd.
    destruct (IH (set_logContainer
                    (Some (appendChild (length (elements (page s))) children))
                    (set_elements (elements (page s) ++ [entry]) s))
                 (appendChild (length (elements (page s))) children)
                 eq_refl) as [new ->].
    exists (entry :: new). cbn [length seq fold_left].
    cbn [set_logContainer set_elements with_page page elements].
    rewrite length_app, Nat.add_1_r, <- app_assoc. reflexivity.
Qed.

Lemma drop_past_own (own : list nat) (first count k : nat) (x : nat) :
  (length own <= k)%nat ->
  x ∈ drop k (own ++ seq first count) -> (first <= x)%nat.
Proof.
  intros Hk [i Hi]%list_elem_of_lookup.
  rewrite lookup_drop, lookup_app_r in Hi by lia.
  apply lookup_seq in Hi as [-> _]. lia.
Qed.

(** X15.  The stored tool calls are not pruned when the log store evicts
    entries.  After a tool call and two hundred or more further entries
    the entry of the call is no longer in the log store, yet its key still
    leads to it: the output of the call is written into that detached
    entry, the log store stays as it is, and the output is shown
    nowhere. *)
Theorem X15_output_of_an_evicted_call
    (s : State) (children : list nat) (call out : jsval)
    (messages : list jsval) (level : string) :
  strongSearchModalLogContainer (page s) = Some children ->
  structured call ->
  structured out ->
  correlationKey out (clock (net s)) = correlationKey call (clock (net s)) ->
  Forall plainObject messages ->
  (maxLogEntries <= length messages)%nat ->
  let record := length (elements (page s)) in
  let s1 := addStrongSearchLog call "tool_call" s in
  let s2 := logAll messages level s1 in
  let s3 := addStrongSearchLog out "tool_output" s2 in
  exists shown,
    strongSearchModalLogContainer (page s2) = Some shown
    /\ length shown = maxLogEntries
    /\ (record ∉ shown)
    /\ strongSearchModalLogContainer (page s3) = Some shown
    /\ elements (page s3) !! record
       = Some (fillOutput
                 (js_or (js_get "output_preview" out) (JStr "[无输出]"))
                 (renderEntry (toolCallBanner call (clock (net s)))
                    "tool_call" (clock (net s)))).
Proof.
  intros Hc Hcall Hout Hkey Hplain Hmany record s1 s2 s3.
  pose proof (addStrongSearchLog_call call s children Hc Hcall) as Hs1.
  cbv zeta in Hs1. fold s1 record in Hs1.
  assert (Hc1 : strongSearchModalLogContainer (page s1)
                = Some (appendChild record children)) by (by rewrite Hs1).
  assert (Hels1 : elements (page s1)
                  = (elements (page s)
                     ++ [renderEntry (toolCallBanner call (clock (net s)))
                           "tool_call" (clock (net s))])%list)
    by (by rewrite Hs1).
  assert (Hmap1 : toolCallMap (vars s1) !! correlationKey call (clock (net s))
                  = Some record)
    by (rewrite Hs1; cbn; apply lookup_insert_eq).
  assert (Hclock1 : clock (net s1) = clock (net s)) by (by rewrite Hs1).
  destruct (logAll_plain_state messages level Hplain s1 _ Hc1) as [new Hs2].
  fold s2 in Hs2.
  assert (Es3 : s3 = addStrongSearchLog out "tool_output" s2) by reflexivity.
  clearbody s3 s2 s1.
  set (shown := fold_left (fun c e => appendChild e c)
                  (seq (length (elements (page s1))) (length messages))
                  (appendChild record children)) in Hs2.
  assert (Hshown : shown
                   = drop (length (appendChild record children ++
                                   seq (S record) (length messages))
                           - maxLogEntries)
                       (appendChild record children
                        ++ seq (S record) (length messages))).
  { unfold shown. rewrite Hels1, length_app, Nat.add_1_r.
    apply fold_appendChild. rewrite length_appendChild. lia. }
  assert (Hfind : findToolCall out s2 = Some record).
  { unfold findToolCall. rewrite Hs2.
    cbn [vars net with_page set_logContainer set_elements].
    rewrite Hclock1. fold (correlationKey out (clock (net s))).
    by rewrite Hkey, Hmap1. }
  exists shown. split; [by rewrite Hs2|]. split; [|split; [|split]].
  - rewrite Hshown, length_drop, length_app, length_seq, length_appendChild.
    lia.
  - intros Hin. rewrite Hshown in Hin.
    apply drop_past_own in Hin; [lia|].
    rewrite length_app, length_seq. lia.
  - rewrite Es3, (addStrongSearchLog_output out s2 shown record);
      [by rewrite Hs2|by rewrite Hs2|exact Hout|exact Hfind].
  - rewrite Es3, (addStrongSearchLog_output out s2 shown record);
      [|by rewrite Hs2|exact Hout|exact Hfind].
    rewrite Hs2. cbn [page elements set_elements set_logContainer with_page].
    rewrite list_lookup_alter_eq, Hels1, <- app_assoc.
    assert (Hrecord :
              (elements (page s)
               ++ [renderEntry (toolCallBanner call (clock (net s)))
                     "tool_call" (clock (net s))] ++ new)%list !! record
              = Some (renderEntry (toolCallBanner call (clock (net s)))
                        "tool_call" (clock (net s))))
      by (by apply list_lookup_middle).
    by rewrite Hrecord.
Qed.

(** *** The correlation key *)

Lemma dashFree_digits (x : N) (text : string) :
  dashFree text -> dashFree (pretty_N_go x text).
Proof.
  revert text. induction (N.lt_wf_0 x) as [x _ IH]; intros text Htext.
  destruct (decide (x = 0)%N) as [->|Hpos]; [by rewrite pretty_N_go_0|].
  rewrite pretty_N_go_step by lia.
  apply IH; [apply N.div_lt; lia|]. split; [|exact Htext].
  unfold pretty_N_char. repeat case_match; discriminate.
Qed.

Lemma dashFree_number (t : Z) : (0 <= t)%Z -> dashFree (pretty t).
Proof.
  destruct t as [|p|p]; [by repeat split| |lia]. intros _.
  change (pretty (Z.pos p)) with (pretty (N.pos p)).
  unfold pretty, pretty_N. case_decide; [by repeat split|].
  by apply dashFree_digits.
Qed.

(** A text is cut at its last dash in one way only. *)
Lemma cut_at_last_dash (name1 name2 digits1 digits2 : string) :
  dashFree digits1 -> dashFree digits2 ->
  name1 ++ "-" ++ digits1 = name2 ++ "-" ++ digits2 ->
  name1 = name2 /\ digits1 = digits2.
Proof.
  assert (Hdash : forall name digits,
             dashFree (name ++ "-" ++ digits) -> False).
  { induction name as [|c rest IH]; intros digits;
      cbv [String.append]; fold String.append; cbn [dashFree];
      [intros [H _]; by apply H|intros [_ H]; exact (IH digits H)]. }
  intros H1 H2. revert name2.
  induction name1 as [|c rest IH]; intros [|c' rest'];
    cbv [String.append]; fold String.append; intros Heq.
  - by injection Heq.
  - injection Heq as <- ->. by destruct (Hdash rest' digits2).
  - injection Heq as -> <-. by destruct (Hdash rest digits1).
  - injection Heq as -> Heq. destruct (IH _ Heq) as [-> ->]. by split.
Qed.

(** X16.  The correlation key tells calls apart: for tool names that are
    texts and timestamps that are whole numbers of milliseconds, from 0 up
    to the largest number that JavaScript holds exactly, two keys are equal
    only if both the names and the timestamps are.  The restriction
    matters, because name and timestamp are only joined by a dash: a name
    that ends in a dash and a negative timestamp give the key of another
    call. *)
Theorem X16_keys_tell_calls_apart :
  (forall (name1 name2 : string) (t1 t2 : Z),
      (0 <= t1 < 2 ^ 53)%Z -> (0 <= t2 < 2 ^ 53)%Z ->
      generateToolCallId (JStr name1) (JNum t1)
      = generateToolCallId (JStr name2) (JNum t2) ->
      name1 = name2 /\ t1 = t2)
  /\ generateToolCallId (JStr "grep-") (JNum 5)
     = generateToolCallId (JStr "grep") (JNum (-5)).
Proof.
  split; [|reflexivity].
  intros name1 name2 t1 t2 [Ht1 _] [Ht2 _]. unfold generateToolCallId.
  cbn [js_toString]. intros Heq.
  cbv [String.append] in Heq. fold String.append in Heq.
  injection Heq as Heq.
  destruct (cut_at_last_dash name1 name2 (pretty t1) (pretty t2)) as [-> Hd];
    [by apply dashFree_number..|exact Heq|].
  split; [reflexivity|]. by apply (inj pretty).
Qed.

(** *** The call that an output joins *)















(** *** Stopping and starting again *)

Lemma stopped_facts (s : State) :
  isStrongSearching (vars s) = true ->
  isStrongSearching (vars (stopStrongSearch s)) = false
  /\ strongSearchSocket (vars (stopStrongSearch s)) = None
  /\ openSocket (stopStrongSearch s) = None
  /\ currentStrongSearchCodebase (vars (stopStrongSearch s))
     = currentStrongSearchCodebase (vars s)
  /\ strongSearchModalQueryInput (page (stopStrongSearch s))
     = strongSearchModalQueryInput (page s).
Proof.
  intros Hflag. unfold stopStrongSearch, disconnectStrongSearchWebSocket,
    openSocket, log.
  rewrite Hflag. autorewrite with logged.
  destruct (strongSearchSocket (vars s)) as [sock|] eqn:Hsock; through;
    rewrite ?addStrongSearchLog_query, ?Hsock; by repeat split.
Qed.

(** X23.  A search that is started after a stop never reuses the
    connection of the stopped search: the socket was forgotten, so the
    module raises the flag and asks for a new client id before anything
    else goes over the network. *)
Theorem X23_start_after_stop_reconnects
    (s : State) (codebase value : string) :
  isStrongSearching (vars s) = true ->
  present (currentStrongSearchCodebase (vars s)) = Some codebase ->
  strongSearchModalQueryInput (page s) = Some value ->
  trim value <> "" ->
  exists s1 k,
    startStrongSearch (stopStrongSearch s) = Await s1 AwaitClientId k
    /\ isStrongSearching (vars s1) = true
    /\ strongSearchSocket (vars s1) = None
    /\ trace (net s1)
       = (trace (net (stopStrongSearch s)) ++ [GetClientId])%list.
Proof.
  intros Hflag Hcodebase Hvalue Hquery.
  destruct (stopped_facts s Hflag) as (Hidle & Hsock & Hclosed & Hcb & Hq).
  rewrite <- Hcb in Hcodebase. rewrite <- Hq in Hvalue. clear Hcb Hq.
  revert Hidle Hsock Hclosed Hcodebase Hvalue. generalize (stopStrongSearch s).
  intros stopped Hidle Hsock Hclosed Hcb Hq.
  unfold startStrongSearch. rewrite Hcb, Hq, Hidle.
  apply String.eqb_neq in Hquery. rewrite Hquery.
  destruct (started_facts stopped (trim value)) as (Hnet & Hvar & _ & Hopen).
  rewrite Hclosed in Hopen. rewrite Hsock in Hvar.
  assert (Hraised :
            isStrongSearching
              (vars
                 (set_isStrongSearching true
                    (log ("准备开始强效搜索: " ++ dquote ++ trim value ++ dquote)
                       "info"
                       (updateStrongSearchProgressBar 0 "准备搜索..."
                          (log "--------- 新的搜索开始 ---------" "info"
                             stopped))))) = true) by reflexivity.
  revert Hnet Hvar Hopen Hraised.
  generalize
    (set_isStrongSearching true
       (log ("准备开始强效搜索: " ++ dquote ++ trim value ++ dquote) "info"
          (updateStrongSearchProgressBar 0 "准备搜索..."
             (log "--------- 新的搜索开始 ---------" "info" stopped)))).
  intros started Hnet Hvar Hopen Hraised.
  unfold connectStrongSearchWebSocket. rewrite Hopen.
  cbn [bind getStrongSearchClientId].
  eexists _, _. split; [reflexivity|]. through.
  by rewrite Hnet, Hvar, Hraised.
Qed.

(** *** Opening the modal *)

Lemma reset_facts (codebaseName : string) (s : State) :
  strongSearchModal (page s) = true ->
  let s0 := resetStrongSearchUI
              (set_currentStrongSearchCodebase (Some codebaseName) s) in
  openSocket s0 = openSocket s
  /\ net s0 = net s
  /\ elements (page s0) = elements (page s)
  /\ strongSearchModalLogContainer (page s0)
     = (fun _ => []) <$> strongSearchModalLogContainer (page s)
  /\ currentStrongSearchCodebase (vars s0) = Some codebaseName
  /\ isStrongSearching (vars s0) = isStrongSearching (vars s)
  /\ strongSearchConnectionStatus (page s0)
     = (fun _ => StatusDisconnected) <$> strongSearchConnectionStatus (page s).
Proof.
  intros Hmodal. cbv zeta. unfold resetStrongSearchUI, openSocket, readyState.
  through. rewrite Hmodal. through. by repeat split.
Qed.

Lemma connected_log (client_id host : string) (s : State) (children : list nat) :
  strongSearchModalLogContainer (page s) = Some children ->
  strongSearchModalLogContainer (page (connected client_id host s))
  = Some (appendChild (length (elements (page s))) children)
  /\ elements (page (connected client_id host s))
     = (elements (page s)
        ++ [{| entryLevel := "success";
               entryTime := clock (net s);
               iconClass := "fa-check-circle";
               entryBody := EscapedText (escapeHtml "WebSocket连接成功");
               outputContainer := None |}])%list
  /\ strongSearchConnectionStatus (page (connected client_id host s))
     = (fun _ => StatusConnected) <$> strongSearchConnectionStatus (page s).
Proof.
  intros Hc. unfold connected, onopen, log.
  rewrite (addStrongSearchLog_message _ _ _ children);
    [|exact Hc|discriminate|reflexivity|reflexivity].
  through. by destruct (strongSearchConnectionStatus (page s)).
Qed.

Lemma refused_log (client_id host : string) (s : State) (children : list nat) :
  strongSearchModalLogContainer (page s) = Some children ->
  strongSearchModalLogContainer (page (refused client_id host s))
  = Some (appendChild (length (elements (page s))) children)
  /\ elements (page (refused client_id host s))
     = (elements (page s)
        ++ [{| entryLevel := "error";
               entryTime := clock (net s);
               iconClass := "fa-exclamation-circle";
               entryBody := EscapedText (escapeHtml "WebSocket连接错误");
               outputContainer := None |}])%list
  /\ clock (net (refused client_id host s)) = clock (net s)
  /\ strongSearchConnectionStatus (page (refused client_id host s))
     = (fun _ => StatusDisconnected) <$> strongSearchConnectionStatus (page s).
Proof.
  intros Hc. unfold refused, dialled, onerror, log.
  rewrite (addStrongSearchLog_message _ _ _ children);
    [|exact Hc|discriminate|reflexivity|reflexivity].
  through. by destruct (strongSearchConnectionStatus (page s)).
Qed.

(** X24.  Opening the modal selects the codebase, empties the log and
    connects at once.  When the client id arrives and the socket opens,
    the log holds one entry, of level success, and the status shows
    connected.  When the socket fails, the failure is logged twice, by the
    error handler of the socket and by [openModal] itself, and the status
    shows disconnected.  The searching flag is not raised by either. *)
Theorem X24_opening_the_modal
    (s : State) (codebaseName client_id host : string) (batch : BatchAnswer)
    (children : list nat) :
  strongSearchModal (page s) = true ->
  strongSearchModalLogContainer (page s) = Some children ->
  openSocket s = None ->
  apiHost (net s) = Some host ->
  isStrongSearching (vars s) = false ->
  let first := length (elements (page s)) in
  let answered socket :=
    fst (run (answering (ClientIdBody client_id) socket batch)
             (openModal codebaseName s)) in
  (currentStrongSearchCodebase (vars (answered SocketOpened))
   = Some codebaseName
   /\ strongSearchModalLogContainer (page (answered SocketOpened))
      = Some [first]
   /\ elements (page (answered SocketOpened))
      = (elements (page s)
         ++ [{| entryLevel := "success";
                entryTime := clock (net s);
                iconClass := "fa-check-circle";
                entryBody := EscapedText (escapeHtml "WebSocket连接成功");
                outputContainer := None |}])%list
   /\ strongSearchConnectionStatus (page (answered SocketOpened))
      = (fun _ => StatusConnected) <$> strongSearchConnectionStatus (page s)
   /\ openSocket (answered SocketOpened) = Some (length (sockets (net s)))
   /\ isStrongSearching (vars (answered SocketOpened)) = false)
  /\ (strongSearchModalLogContainer (page (answered SocketFailed))
      = Some [first; S first]
      /\ elements (page (answered SocketFailed))
         = (elements (page s)
            ++ [{| entryLevel := "error";
                   entryTime := clock (net s);
                   iconClass := "fa-exclamation-circle";
                   entryBody := EscapedText (escapeHtml "WebSocket连接错误");
                   outputContainer := None |};
                {| entryLevel := "error";
                   entryTime := clock (net s);
                   iconClass := "fa-exclamation-circle";
                   entryBody :=
                     EscapedText (escapeHtml "WebSocket连接失败，请重试");
                   outputContainer := None |}])%list
      /\ strongSearchConnectionStatus (page (answered SocketFailed))
         = (fun _ => StatusDisconnected)
             <$> strongSearchConnectionStatus (page s)
      /\ openSocket (answered SocketFailed) = None
      /\ isStrongSearching (vars (answered SocketFailed)) = false).
Proof.
  intros Hmodal Hc Hclosed Hhost Hidle first answered. subst answered.
  cbv beta. unfold openModal. rewrite Hmodal.
  destruct (reset_facts codebaseName s Hmodal)
    as (Hopen0 & Hnet0 & Hels0 & Hc0 & Hcb0 & Hflag0 & Hst0).
  rewrite Hclosed in Hopen0. rewrite Hc in Hc0. cbn [fmap option_fmap option_map] in Hc0.
  rewrite Hidle in Hflag0.
  revert Hopen0 Hnet0 Hels0 Hc0 Hcb0 Hflag0 Hst0.
  generalize (resetStrongSearchUI
                (set_currentStrongSearchCodebase (Some codebaseName) s)).
  intros s0 Hopen0 Hnet0 Hels0 Hc0 Hcb0 Hflag0 Hst0.
  assert (Hhost0 : apiHost (net s0) = Some host) by (by rewrite Hnet0).
  split.
  - rewrite run_bind, (connect_run_opened s0 client_id host batch)
      by assumption.
    cbn [fst snd run].
    destruct (connected_facts client_id host s0)
      as (Hopen & _ & _ & Hflag & Hcb).
    destruct (connected_log client_id host s0 [] Hc0) as (Hlog & Hels & Hst).
    rewrite Hopen, Hflag, Hcb, Hlog, Hels, Hst, Hels0, Hnet0, Hcb0, Hflag0,
      Hst0.
    by destruct (strongSearchConnectionStatus (page s)).
  - rewrite run_bind, (connect_run_refused s0 client_id host batch)
      by assumption.
    cbn [fst snd run].
    destruct (refused_facts client_id host s0) as (Hopen & _ & _ & _ & Hflag).
    destruct (refused_log client_id host s0 [] Hc0)
      as (Hlog & Hels & Hclock & Hst).
    rewrite Hels0, Hnet0 in Hels. rewrite Hels0 in Hlog. fold first in Hlog.
    revert Hopen Hflag Hlog Hels Hclock Hst.
    generalize (refused client_id host s0).
    intros failed Hopen Hflag Hlog Hels Hclock Hst.
    unfold log.
    rewrite (addStrongSearchLog_message _ _ _ (appendChild first []));
      [|exact Hlog|discriminate|reflexivity|reflexivity].
    unfold openSocket in *. through.
    rewrite Hels, Hclock, Hnet0, Hst, Hst0, Hflag, length_app, <- app_assoc.
    fold first. cbn [length]. rewrite Nat.add_1_r.
    split; [reflexivity|]. split; [reflexivity|].
    split; [by destruct (strongSearchConnectionStatus (page s))|].
    split; [exact Hopen|reflexivity].
Qed.

(** *** The sockets of the module *)

Lemma made_snoc (t : list Action) (a : Action) :
  made (t ++ [a]) = (made t ++ madeBy a)%list.
Proof. unfold made. rewrite flat_map_app. cbn. by rewrite app_nil_r. Qed.

Lemma addressed_snoc (before : list nat) (t : list Action) (a : Action) :
  addressed before t ->
  (forall sock, target a = Some sock -> sock ∈ before \/ sock ∈ made t) ->
  addressed before (t ++ [a]).
Proof.
  revert before. induction t as [|b t IH]; intros before; cbn.
  - intros _ Ha. split; [|exact I].
    destruct (target a) as [sock|]; [|exact I].
    destruct (Ha sock eq_refl) as [H|H]; [exact H|by apply elem_of_nil in H].
  - intros [Hb Ht] Ha. split; [exact Hb|]. apply IH; [exact Ht|].
    intros sock Hsock. rewrite elem_of_app.
    destruct (Ha sock Hsock) as [H|H]; [tauto|].
    apply elem_of_app in H. tauto.
Qed.

Lemma ownSockets_frame (s s' : State) :
  trace (net s') = trace (net s) ->
  strongSearchSocket (vars s') = strongSearchSocket (vars s) ->
  ownSockets s -> ownSockets s'.
Proof. unfold ownSockets. by intros -> ->. Qed.

Lemma ownSockets_log (message : jsval) (level : string) (s : State) :
  ownSockets s -> ownSockets (addStrongSearchLog message level s).
Proof.
  apply ownSockets_frame;
    [by rewrite addStrongSearchLog_net|apply addStrongSearchLog_socket].
Qed.

Lemma ownSockets_forget (s : State) :
  ownSockets s -> ownSockets (set_strongSearchSocket None s).
Proof. intros [Ht _]. split; [exact Ht|]. intros sock [=]. Qed.

Lemma ownSockets_emit (a : Action) (s : State) :
  (forall sock, target a = Some sock -> strongSearchSocket (vars s) = Some sock) ->
  ownSockets s -> ownSockets (emit a s).
Proof.
  intros Ha [Ht Hheld]. split; cbn.
  - apply addressed_snoc; [exact Ht|].
    intros sock Hsock. right. by apply Hheld, Ha.
  - intros sock Hsock. rewrite made_snoc, elem_of_app. left. by apply Hheld.
Qed.

Lemma ownSockets_new (url : string) (sock : nat) (s : State) :
  ownSockets s ->
  ownSockets (set_strongSearchSocket (Some sock) (emit (NewWebSocket url sock) s)).
Proof.
  intros [Ht Hheld]. split; cbn.
  - apply addressed_snoc; [exact Ht|]. intros ? [=].
  - intros ? [= <-]. rewrite made_snoc, elem_of_app. right. cbn.
    by apply list_elem_of_singleton.
Qed.

Lemma ownSockets_close (sock : nat) (s : State) :
  strongSearchSocket (vars s) = Some sock ->
  ownSockets s -> ownSockets (closeSocket sock s).
Proof.
  intros Hsock Hs. unfold closeSocket. apply ownSockets_emit.
  - by intros ? [= <-].
  - revert Hs. by apply ownSockets_frame.
Qed.

Lemma ownSockets_send
    (sock : nat) (codebase : option string) (query : string) (s : State) :
  openSocket s = Some sock ->
  ownSockets s -> ownSockets (emit (SocketSend sock codebase query) s).
Proof.
  intros Hopen. apply ownSockets_emit. intros ? [= <-].
  unfold openSocket in Hopen.
  destruct (strongSearchSocket (vars s)) as [held|]; [|discriminate].
  by destruct (readyState held s) as [[]|]; simplify_eq.
Qed.

(** X25.  The module only talks to sockets of its own.  In the record of
    the actions of a session, whatever the events and however they
    interleave, every request that is sent and every close is addressed to
    a socket that the module created earlier in the record, and the socket
    that the module holds is one that it created. *)
Theorem X25_only_own_sockets (e : Event) (s : State) :
  ownSockets s -> always ownSockets (react e s).
Proof.
  apply react_keeps; intros;
    first
      [ by apply ownSockets_log
      | by apply ownSockets_forget
      | by apply ownSockets_close
      | by apply ownSockets_send
      | apply ownSockets_new;
        match goal with
        | H : ownSockets ?s0 |- ownSockets ?s1 =>
            exact (ownSockets_frame s0 s1 eq_refl eq_refl H)
        end
      | apply ownSockets_emit;
        [match goal with
         | H : target _ = None |- _ => rewrite H; by intros ? [=]
         end
        |assumption]
      | match goal with
        | H : ownSockets ?s0 |- ownSockets ?s1 =>
            exact (ownSockets_frame s0 s1 eq_refl eq_refl H)
        end ].
Qed.

(** *** Closing the modal while the search connects *)

Lemma awaitingSocket_facts (client_id host : string) (s : State) :
  let sock := length (sockets (net s)) in
  strongSearchSocket (vars (awaitingSocket client_id host s)) = Some sock
  /\ sockets (net (awaitingSocket client_id host s))
     = (sockets (net s) ++ [CONNECTING])%list
  /\ trace (net (awaitingSocket client_id host s))
     = (trace (net s)
        ++ [GotClientId client_id;
            NewWebSocket (webSocketUrl (pageSecure (net s)) host client_id)
                         sock])%list
  /\ currentStrongSearchCodebase (vars (awaitingSocket client_id host s))
     = currentStrongSearchCodebase (vars s)
  /\ isStrongSearching (vars (awaitingSocket client_id host s))
     = isStrongSearching (vars s).
Proof.
  intros sock. unfold awaitingSocket. through. fold sock.
  rewrite <- !app_assoc. by repeat split.
Qed.

Lemma onopen_facts (sock : nat) (s : State) :
  let s' := onopen (setReadyState sock OPEN s) in
  strongSearchSocket (vars s') = strongSearchSocket (vars s)
  /\ sockets (net s') = <[sock := OPEN]> (sockets (net s))
  /\ trace (net s') = trace (net s)
  /\ currentStrongSearchCodebase (vars s')
     = currentStrongSearchCodebase (vars s)
  /\ isStrongSearching (vars s') = isStrongSearching (vars s).
Proof. unfold onopen. through. by repeat split. Qed.

Lemma sent_facts
    (sock : nat) (codebase : option string) (query : string) (s : State) :
  let s' := updateStrongSearchProgressBar (5 # 100) "请求已发送..."
              (log "搜索请求已发送" "info"
                 (emit (SocketSend sock codebase query) s)) in
  strongSearchSocket (vars s') = strongSearchSocket (vars s)
  /\ sockets (net s') = sockets (net s)
  /\ trace (net s') = (trace (net s) ++ [SocketSend sock codebase query])%list
  /\ currentStrongSearchCodebase (vars s')
     = currentStrongSearchCodebase (vars s)
  /\ isStrongSearching (vars s') = isStrongSearching (vars s).
Proof. cbv zeta. through. by repeat split. Qed.

Lemma closed_while_waiting (s : State) :
  strongSearchSocket (vars s) = None ->
  net (closeModal s) = net s
  /\ strongSearchSocket (vars (closeModal s)) = None
  /\ currentStrongSearchCodebase (vars (closeModal s)) = None
  /\ isStrongSearching (vars (closeModal s)) = false.
Proof.
  intros Hsock. unfold closeModal, disconnectStrongSearchWebSocket.
  rewrite Hsock. by repeat split.
Qed.

(** X26.  Closing the modal does not withdraw a search that is still
    connecting.  When the modal is closed while the search waits for its
    client id, the search goes on once the id arrives: it creates the
    socket and, when the socket opens, sends the request, now without a
    codebase.  The modal is closed, the flag is down and no codebase is
    selected, yet the module holds an open socket and has sent a
    request. *)
Theorem X26_modal_closed_while_connecting
    (s : State) (codebase value client_id host : string) :
  present (currentStrongSearchCodebase (vars s)) = Some codebase ->
  strongSearchModalQueryInput (page s) = Some value ->
  trim value <> "" ->
  isStrongSearching (vars s) = false ->
  strongSearchSocket (vars s) = None ->
  apiHost (net s) = Some host ->
  let sock := length (sockets (net s)) in
  exists s1 k,
    startStrongSearch s = Await s1 AwaitClientId k
    /\ exists s2 k',
         k (ClientIdBody client_id) (closeModal s1)
         = Await s2 (AwaitSocket sock) k'
         /\ exists s3,
              k' SocketOpened s2 = Done s3 tt
              /\ trace (net s3)
                 = (trace (net s)
                    ++ [GetClientId; GotClientId client_id;
                        NewWebSocket
                          (webSocketUrl (pageSecure (net s)) host client_id)
                          sock;
                        SocketSend sock None (trim value)])%list
              /\ sockets (net s3) = (sockets (net s) ++ [OPEN])%list
              /\ strongSearchSocket (vars s3) = Some sock
              /\ currentStrongSearchCodebase (vars s3) = None
              /\ isStrongSearching (vars s3) = false.
Proof.
  intros Hcodebase Hvalue Hquery Hidle Hsock Hhost sock.
  unfold startStrongSearch. rewrite Hcodebase, Hvalue, Hidle.
  apply String.eqb_neq in Hquery. rewrite Hquery.
  destruct (started_facts s (trim value)) as (Hnet & Hvar & _ & Hopen).
  rewrite Hsock in Hvar.
  assert (Hclosed : openSocket s = None)
    by (unfold openSocket; by rewrite Hsock).
  rewrite Hclosed in Hopen. revert Hnet Hvar Hopen.
  generalize
    (set_isStrongSearching true
       (log ("准备开始强效搜索: " ++ dquote ++ trim value ++ dquote) "info"
          (updateStrongSearchProgressBar 0 "准备搜索..."
             (log "--------- 新的搜索开始 ---------" "info" s)))).
  intros started Hnet Hvar Hopen.
  unfold connectStrongSearchWebSocket. rewrite Hopen.
  cbn [bind getStrongSearchClientId].
  eexists _, _. split; [reflexivity|].
  destruct (closed_while_waiting (emit GetClientId started) Hvar)
    as (Hnet1 & Hvar1 & Hcb1 & Hflag1).
  assert (Hnet1' : net (closeModal (emit GetClientId started))
                   = {| sockets := sockets (net s);
                        trace := (trace (net s) ++ [GetClientId])%list;
                        clock := clock (net s);
                        apiHost := apiHost (net s);
                        pageSecure := pageSecure (net s) |})
    by (rewrite Hnet1; cbn; by rewrite Hnet).
  clear Hnet1. revert Hnet1' Hvar1 Hcb1 Hflag1.
  generalize (closeModal (emit GetClientId started)).
  intros closed Hnet1 Hvar1 Hcb1 Hflag1.
  cbn [returnClientId bind openWebSocket]. through.
  rewrite Hnet1. cbn [apiHost sockets pageSecure]. rewrite Hhost. cbn [bind].
  fold sock. eexists _, _. split; [reflexivity|].
  cbn [bind]. unfold sendSearchRequest.
  destruct (awaitingSocket_facts client_id host closed)
    as (Hvar2 & Hsockets2 & Htrace2 & Hcb2 & Hflag2).
  rewrite Hnet1 in Hvar2, Hsockets2, Htrace2.
  cbn [sockets trace pageSecure] in Hvar2, Hsockets2, Htrace2.
  fold sock in Hvar2, Htrace2.
  unfold awaitingSocket in Hvar2, Hsockets2, Htrace2, Hcb2, Hflag2.
  rewrite Hnet1 in Hvar2, Hsockets2, Htrace2, Hcb2, Hflag2.
  cbn [sockets trace pageSecure] in Hvar2, Hsockets2, Htrace2, Hcb2, Hflag2.
  fold sock in Hvar2, Hsockets2, Htrace2, Hcb2, Hflag2.
  revert Hvar2 Hsockets2 Htrace2 Hcb2 Hflag2.
  match goal with
  | |- context [setReadyState sock OPEN ?w] => generalize w
  end.
  intros waiting Hvar2 Hsockets2 Htrace2 Hcb2 Hflag2.
  destruct (onopen_facts sock waiting) as (Hvar3 & Hsockets3 & Htrace3 & Hcb3 & Hflag3).
  assert (Hopen3 : openSocket (onopen (setReadyState sock OPEN waiting))
                   = Some sock).
  { unfold openSocket, readyState. rewrite Hvar3, Hvar2, Hsockets3, Hsockets2.
    rewrite list_lookup_insert_eq; [reflexivity|].
    rewrite length_app. cbn. unfold sock. lia. }
  revert Hvar3 Hsockets3 Htrace3 Hcb3 Hflag3 Hopen3.
  generalize (onopen (setReadyState sock OPEN waiting)).
  intros opened Hvar3 Hsockets3 Htrace3 Hcb3 Hflag3 Hopen3.
  rewrite Hopen3. eexists. split; [reflexivity|].
  destruct (sent_facts sock (currentStrongSearchCodebase (vars opened))
              (trim value) opened)
    as (Hvar4 & Hsockets4 & Htrace4 & Hcb4 & Hflag4).
  rewrite Hvar4, Hsockets4, Htrace4, Hcb4, Hflag4.
  rewrite Hvar3, Hsockets3, Htrace3, Hcb3, Hflag3.
  rewrite Hvar2, Hsockets2, Htrace2, Hcb2, Hflag2, Hcb1, Hflag1.
  rewrite <- !app_assoc. cbn [app].
  unfold sock. rewrite insert_app_r_alt by lia. rewrite Nat.sub_diag.
  by repeat split.
Qed.

(** *** Starting a search while the modal still connects *)

Lemma connected_sockets (client_id host : string) (s : State) :
  strongSearchSocket (vars (connected client_id host s))
  = Some (length (sockets (net s)))
  /\ sockets (net (connected client_id host s))
     = (sockets (net s) ++ [OPEN])%list.
Proof.
  unfold connected, onopen. through.
  rewrite insert_app_r_alt by lia. by rewrite Nat.sub_diag.
Qed.

Lemma liveConnections_opened (s s' : State) :
  sockets (net s') = (sockets (net s) ++ [OPEN])%list ->
  liveConnections s' = S (liveConnections s).
Proof.
  unfold liveConnections. intros ->.
  rewrite List.filter_app, length_app. cbn. lia.
Qed.

(** X27.  Starting a search while the socket that the module holds is
    still connecting opens a second connection.  The module finds no open
    socket, asks for another client id and creates another socket; when
    that one opens, the request is sent on it.  The first socket is never
    closed: it is still connecting, the module no longer holds it, and the
    session has one live connection more than before. *)
Theorem X27_start_while_connecting
    (s : State) (codebase value client_id host : string)
    (batch : BatchAnswer) (first : nat) :
  present (currentStrongSearchCodebase (vars s)) = Some codebase ->
  strongSearchModalQueryInput (page s) = Some value ->
  trim value <> "" ->
  isStrongSearching (vars s) = false ->
  strongSearchSocket (vars s) = Some first ->
  readyState first s = Some CONNECTING ->
  apiHost (net s) = Some host ->
  let second := length (sockets (net s)) in
  let s' := fst (run (answering (ClientIdBody client_id) SocketOpened batch)
                     (startStrongSearch s)) in
  strongSearchSocket (vars s') = Some second
  /\ second <> first
  /\ readyState first s' = Some CONNECTING
  /\ readyState second s' = Some OPEN
  /\ liveConnections s' = S (liveConnections s)
  /\ trace (net s')
     = (trace (net s)
        ++ [GetClientId; GotClientId client_id;
            NewWebSocket (webSocketUrl (pageSecure (net s)) host client_id)
                         second;
            SocketSend second (currentStrongSearchCodebase (vars s))
                       (trim value)])%list.
Proof.
  intros Hcodebase Hvalue Hquery Hidle Hheld Hfirst Hhost second.
  assert (Hclosed : openSocket s = None)
    by (unfold openSocket; by rewrite Hheld, Hfirst).
  assert (Hlt : (first < second)%nat)
    by (eapply lookup_lt_Some; exact Hfirst).
  unfold startStrongSearch. rewrite Hcodebase, Hvalue, Hidle.
  apply String.eqb_neq in Hquery. rewrite Hquery.
  destruct (started_facts s (trim value)) as (Hnet & _ & Hcb & Hopen).
  rewrite Hclosed in Hopen. revert Hnet Hcb Hopen.
  generalize
    (set_isStrongSearching true
       (log ("准备开始强效搜索: " ++ dquote ++ trim value ++ dquote) "info"
          (updateStrongSearchProgressBar 0 "准备搜索..."
             (log "--------- 新的搜索开始 ---------" "info" s)))).
  intros started Hnet Hcb Hopen. cbv zeta.
  rewrite run_bind, (connect_run_opened started client_id host batch)
    by (try exact Hopen; by rewrite Hnet).
  cbn [fst snd].
  destruct (connected_facts client_id host started)
    as (Hopen1 & _ & Htrace1 & _ & Hcb1).
  destruct (connected_sockets client_id host started) as (Hvar1 & Hsockets1).
  rewrite Hnet in Hopen1, Htrace1, Hvar1, Hsockets1.
  fold second in Hopen1, Htrace1, Hvar1.
  revert Hopen1 Htrace1 Hcb1 Hvar1 Hsockets1.
  generalize (connected client_id host started).
  intros opened Hopen1 Htrace1 Hcb1 Hvar1 Hsockets1.
  unfold sendSearchRequest. rewrite Hopen1, Hcb1, Hcb. cbn [run fst].
  destruct (sent_facts second (currentStrongSearchCodebase (vars s))
              (trim value) opened)
    as (Hvar2 & Hsockets2 & Htrace2 & _).
  rewrite Hsockets1 in Hsockets2.
  pose proof (liveConnections_opened s _ Hsockets2) as Hlive.
  unfold readyState.
  rewrite Hvar2, Hsockets2, Htrace2, Hvar1, Htrace1, <- !app_assoc.
  split; [reflexivity|]. split; [lia|].
  split; [rewrite lookup_app_l by exact Hlt; exact Hfirst|].
  split; [by apply list_lookup_middle|]. split; [exact Hlive|reflexivity].
Qed.

(** *** A run of progress frames *)

Lemma progressFrames_snoc
    (frames : list (Q * string)) (progress : Q) (status : string) (s : State) :
  progressFrames (frames ++ [(progress, status)]) s
  = updateStrongSearchProgressBar progress status (progressFrames frames s).
Proof. unfold progressFrames. by rewrite fold_left_app. Qed.

Lemma progressFrames_bar (frames : list (Q * string)) (s : State) (bar : ProgressBar) :
  strongSearchModalProgressBar (page s) = Some bar ->
  is_Some (strongSearchModalProgressBar (page (progressFrames frames s))).
Proof.
  intros Hbar. induction frames as [|[progress status] frames IH] using rev_ind.
  - cbn. rewrite Hbar. eauto.
  - rewrite progressFrames_snoc. destruct IH as [bar' Hbar'].
    by eapply updateStrongSearchProgressBar_keeps_bar.
Qed.

Lemma progressFrames_silent
    (frames : list (Q * string)) (s : State) (bar : ProgressBar) :
  strongSearchModalProgressBar (page s) = Some bar ->
  Forall (fun frame => frame.2 = "") frames ->
  title <$> strongSearchModalProgressBar (page (progressFrames frames s))
  = Some (title bar).
Proof.
  intros Hbar. induction frames as [|[progress status] frames IH] using rev_ind.
  - intros _. cbn. by rewrite Hbar.
  - intros [Hframes Hlast]%Forall_app.
    inversion Hlast as [|? ? Hstatus _]. cbn in Hstatus. subst.
    rewrite progressFrames_snoc. specialize (IH Hframes).
    unfold updateStrongSearchProgressBar. through.
    destruct (strongSearchModalProgressBar (page (progressFrames frames s)));
      [exact IH|discriminate].
Qed.

(** X28.  After a run of progress frames the bar shows the percentage of
    the last frame, whatever came before, and the status of the last frame
    that carried one: frames without a status leave the title of the bar
    as it was. *)
Theorem X28_bar_after_progress_frames
    (s : State) (bar : ProgressBar) (frames : list (Q * string))
    (progress : Q) (status : string) :
  strongSearchModalProgressBar (page s) = Some bar ->
  let s' := progressFrames (frames ++ [(progress, status)]) s in
  shownPercent s' = Some (display_percent progress)
  /\ (status <> "" ->
      forall later,
        Forall (fun frame => frame.2 = "") later ->
        title <$> strongSearchModalProgressBar (page (progressFrames later s'))
        = Some (Some status))
  /\ (Forall (fun frame => frame.2 = "") (frames ++ [(progress, status)]) ->
      title <$> strongSearchModalProgressBar (page s') = Some (title bar)).
Proof.
  intros Hbar s'. subst s'. rewrite progressFrames_snoc.
  destruct (progressFrames_bar frames s bar Hbar) as [bar' Hbar'].
  split; [by eapply shownPercent_update|]. split.
  - intros Hstatus later Hlater.
    assert (Hnow : strongSearchModalProgressBar
                     (page (updateStrongSearchProgressBar progress status
                              (progressFrames frames s)))
                   = Some {| percent :=
                               Z.max 0 (Z.min 100 (Math_round (progress * 100)));
                             title := Some status |}).
    { unfold updateStrongSearchProgressBar. through. rewrite Hbar'.
      cbn [option_map]. apply String.eqb_neq in Hstatus. by rewrite Hstatus. }
    by rewrite (progressFrames_silent later _ _ Hnow Hlater).
  - intros Hsilent. rewrite <- progressFrames_snoc.
    by apply progressFrames_silent.
Qed.

End StrongSearch.

(** ** The scenarios of the specification, on the page of index.html *)

Lemma escapeHtml5_nonempty (text : string) :
  text <> "" -> escapeHtml5 text <> "".
Proof.
  destruct text as [|c rest]; [done|]. intros _. cbn [escapeHtml5].
  repeat case_match; discriminate.
Qed.



(** C2 on the code.  A structured [tool_output] frame that finds no stored
    call, by key or by name, leaves the state as it was: nothing is
    appended to the log store.  The comment of line 557 announces an
    ordinary log entry, and line 688 chooses an icon for it; lines 571-602
    give the message no markup, so that line 705 passes it over. *)
Theorem C2_unmatched_output_is_dropped :
  let s := opened "repo1" "auth flow" in
  let s' := addStrongSearchLog rejectAll escapeHtml5 grepOutput "tool_output" s in
  findToolCall grepOutput s = None
  /\ s' = s
  /\ strongSearchModalLogContainer (page s') = Some []
  /\ elements (page s') = [].
Proof. repeat split. Qed.

(** C3 at 250 entries. *)
Lemma C3_entries_51_to_250 :
  fold_left (fun c e => appendChild e c) (seq 1 250) [] = seq 51 200.
Proof.
  destruct (C3_log_store_capacity rejectAll escapeHtml5)
    as (_ & _ & _ & Hentries & _).
  destruct (Hentries (seq 1 250) eq_refl) as [-> _]. reflexivity.
Defined.



(** C5 on the page: a fraction of 0.05 shows 5. *)
Lemma C5_five_percent :
  shownPercent (updateStrongSearchProgressBar (5 # 100) ""
                  (opened "repo1" "auth flow")) = Some 5%Z.
Proof.
  destruct (C5_display_percent (opened "repo1" "auth flow")
              {| percent := 0; title := None |} (5 # 100) 0 "" eq_refl)
    as [-> _].
  reflexivity.
Defined.




(** C8 on the page: connecting first asks for a client id. *)
Lemma C8_connect_asks_first :
  exists k,
    connectStrongSearchWebSocket rejectAll escapeHtml5
      (opened "repo1" "auth flow")
    = Await (emit GetClientId (opened "repo1" "auth flow")) AwaitClientId k.
Proof.
  destruct (C8_client_id_before_socket rejectAll escapeHtml5) as [Hclosed _].
  destruct (Hclosed (opened "repo1" "auth flow") eq_refl) as (k & Hk & _).
  by exists k.
Defined.

(** C9 at the scenario of the specification: the search of the scenario runs
    over socket 0 when the user stops it. *)
Lemma C9_stop_mid_search :
  let searching :=
    fst (run friendly
           (startStrongSearch rejectAll escapeHtml5
              (opened "repo1" "auth flow"))) in
  let s' := stopStrongSearch rejectAll escapeHtml5 searching in
  isStrongSearching (vars s') = false
  /\ strongSearchSocket (vars s') = None
  /\ shownPercent s' = Some 0%Z
  /\ readyState 0 s' = Some CLOSING.
Proof.
  intros searching.
  destruct (C9_stop_while_searching rejectAll escapeHtml5 searching
              {| percent := 5; title := Some "请求已发送..." |}
              eq_refl eq_refl)
    as (Hflag & Hsocket & Hbar & Hclose).
  destruct (Hclose 0%nat eq_refl) as (_ & Hready & _).
  cbv zeta. rewrite Hflag, Hsocket, Hbar, Hready. repeat split.
Defined.

(** [trim] takes the white space of Unicode away, not only that of
    ASCII. *)
Lemma trim_paddedQuery :
  trim paddedQuery = "auth flow"
  /\ trim (String "227" (String "128" (String "128" ""))) = ""
  /\ trim (String "239" (String "187" (String "191" " "))) = "".
Proof. repeat split. Qed.

(** C10 on the page: connecting again during the search changes nothing;
    and when the search is over and the socket still open, a query pasted
    with white space around it is sent trimmed on that socket. *)
Lemma C10_connect_again :
  let searching :=
    fst (run friendly
           (startStrongSearch rejectAll escapeHtml5
              (opened "repo1" "auth flow"))) in
  let waiting :=
    set_queryInput (Some paddedQuery) (set_isStrongSearching false searching) in
  connectStrongSearchWebSocket rejectAll escapeHtml5 searching
  = Done searching (Resolved true)
  /\ exists s',
       startStrongSearch rejectAll escapeHtml5 waiting = Done s' tt
       /\ trace (net s')
          = (trace (net waiting)
             ++ [SocketSend 0 (Some "repo1") "auth flow"])%list
       /\ sockets (net s') = [OPEN].
Proof.
  intros searching waiting. split.
  - by destruct (C10_connect_when_open rejectAll escapeHtml5 searching 0 eq_refl)
      as [Hconnect _].
  - destruct (C10_connect_when_open rejectAll escapeHtml5 waiting 0 eq_refl)
      as (_ & _ & _ & Hsend).
    destruct (Hsend "repo1" paddedQuery eq_refl eq_refl
                ltac:(vm_compute; discriminate) eq_refl)
      as (s' & Hs & Htrace & Hsockets & _).
    exists s'. split; [exact Hs|]. split; [exact Htrace|exact Hsockets].
Defined.

(** C10 refuted in its last part.  The modal is opened, which starts a
    connection; the user types a query and starts the search before that
    socket is open; connecting finds no open socket, asks for a second
    client id and creates a second socket.  Both sockets open: the session
    has two live connections. *)
Lemma C10_two_live_connections :
  let opening := react rejectAll escapeHtml5 (OpenModal "repo1") served in
  let first := resume friendly opening (stateOf opening) in
  let typed := stateOf (react rejectAll escapeHtml5 (TypeQuery "auth flow")
                          (stateOf first)) in
  let starting := react rejectAll escapeHtml5 StartSearch typed in
  let second := resume friendly starting (stateOf starting) in
  let first' := resume friendly first (stateOf second) in
  let second' := resume friendly second (stateOf first') in
  sockets (net (stateOf first)) = [CONNECTING]
  /\ sockets (net (stateOf second)) = [CONNECTING; CONNECTING]
  /\ sockets (net (stateOf second')) = [OPEN; OPEN]
  /\ liveConnections (stateOf second') = 2%nat.
Proof. vm_compute. repeat split. Qed.

(** ** The helpers of ui-helpers.js *)

Lemma class_added_removed (classList : gset string) (class : string) :
  class ∉ classList -> (classList ∪ {[class]}) ∖ {[class]} = classList.
Proof.
  intros Hnot. apply set_eq. intros x.
  rewrite elem_of_difference, elem_of_union, elem_of_singleton.
  destruct (decide (x = class)) as [->|]; tauto.
Qed.

Lemma class_toggled (classList : gset string) (class : string) :
  (classList ∖ {[class]}) ∖ {[class]} = classList ∖ {[class]}
  /\ (classList ∪ {[class]}) ∖ {[class]} = classList ∖ {[class]}
  /\ (classList ∖ {[class]}) ∪ {[class]} = classList ∪ {[class]}
  /\ (classList ∪ {[class]}) ∪ {[class]} = classList ∪ {[class]}.
Proof.
  repeat split; apply set_eq; intros x;
    rewrite ?elem_of_difference, ?elem_of_union, ?elem_of_difference,
      ?elem_of_singleton;
    destruct (decide (x = class)) as [->|]; tauto.
Qed.

(** X17.  [toggleLoading] only moves the class hidden, and the last call
    decides: after any two calls the element is as after the second one
    alone.  It is hidden exactly when the last call asked to hide it, its
    other classes are as they were, and a missing element stays
    missing. *)
Theorem X17_toggle_loading (element : option (gset string)) (first last : bool) :
  UI.toggleLoading (UI.toggleLoading element first) last
  = UI.toggleLoading element last
  /\ (forall classList,
        element = Some classList ->
        exists classList',
          UI.toggleLoading element last = Some classList'
          /\ ("hidden" ∈ classList' <-> last = false)
          /\ forall class, class <> "hidden" ->
               class ∈ classList' <-> class ∈ classList)
  /\ (element = None -> UI.toggleLoading element last = None).
Proof.
  split; [|split].
  - destruct element as [classList|]; [|reflexivity].
    destruct (class_toggled classList "hidden") as (H1 & H2 & H3 & H4).
    destruct first, last; cbn; f_equal; assumption.
  - intros classList ->. eexists. split; [reflexivity|].
    destruct last; (split; [|intros class Hclass]);
      rewrite ?elem_of_difference, ?elem_of_union, ?elem_of_singleton;
      intuition congruence.
  - by intros ->.
Qed.

(** X18.  Closing a modal and letting its callback run undoes opening it:
    the callback takes the class open away, gives the page its scrolling
    back and clears every style that the closing animation had set.  A
    modal that was closed and unstyled before it was opened is then
    exactly as before, and so is the whole document when the page could
    scroll before. *)
Theorem X18_close_undoes_open (d : UI.Document) (modal : UI.Modal) :
  UI.modalElement d = Some modal ->
  let after := UI.timeout (UI.closeModal (UI.openModal d)) in
  UI.modalElement after
  = Some {| UI.classList := (UI.classList modal ∪ {["open"]}) ∖ {["open"]};
            UI.style := {| UI.opacity := "";
                           UI.transform := UI.transform (UI.style modal);
                           UI.transition := "" |};
            UI.modalContent :=
              (fun _ => UI.unset) <$> UI.modalContent modal |}
  /\ UI.overflow after = ""
  /\ UI.timeouts after = UI.timeouts d
  /\ (("open" ∉ UI.classList modal) ->
      UI.opacity (UI.style modal) = "" ->
      UI.transition (UI.style modal) = "" ->
      (forall content, UI.modalContent modal = Some content ->
                       content = UI.unset) ->
      UI.modalElement after = Some modal
      /\ (UI.overflow d = "" -> after = d)).
Proof.
  intros Hmodal after. subst after.
  unfold UI.openModal, UI.closeModal, UI.timeout, UI.closed.
  rewrite Hmodal. cbn.
  split; [by destruct (UI.modalContent modal)|].
  split; [reflexivity|]. split; [reflexivity|].
  intros Hclosed Hopacity Htransition Hcontent.
  assert (Hsame :
            {| UI.classList := (UI.classList modal ∪ {["open"]}) ∖ {["open"]};
               UI.style := {| UI.opacity := "";
                              UI.transform := UI.transform (UI.style modal);
                              UI.transition := "" |};
               UI.modalContent :=
                 option_map (fun _ => UI.unset)
                   (option_map
                      (fun _ =>
                         {| UI.opacity := "0";
                            UI.transform := "scale(0.95)";
                            UI.transition :=
                              "transform 0.3s ease, opacity 0.3s ease" |})
                      (UI.modalContent modal)) |}
            = modal).
  { rewrite (class_added_removed _ _ Hclosed).
    destruct modal as [classList [opacity transform transition] content].
    cbn in *. subst. f_equal.
    destruct content as [content|]; [|reflexivity].
    cbn. f_equal. symmetry. by apply Hcontent. }
  rewrite Hsame. split; [reflexivity|].
  intros Hflow. destruct d as [m o t]. cbn in *. by subst.
Qed.

(** X19.  The callback of [closeModal] is not withdrawn when the modal is
    opened again.  A modal that is reopened before the callback has run
    carries the class open but keeps the opacity 0 of the closing
    animation, and the callback then closes it: the class open is taken
    away and the page scrolls again, although opening was the last thing
    asked for. *)
Theorem X19_reopened_modal_is_closed_again (d : UI.Document) (modal : UI.Modal) :
  UI.modalElement d = Some modal ->
  let reopened := UI.openModal (UI.closeModal d) in
  (exists shown,
      UI.modalElement reopened = Some shown
      /\ ("open" ∈ UI.classList shown)
      /\ UI.opacity (UI.style shown) = "0"
      /\ UI.overflow reopened = "hidden"
      /\ UI.timeouts reopened = S (UI.timeouts d))
  /\ (exists hidden,
        UI.modalElement (UI.timeout reopened) = Some hidden
        /\ ("open" ∉ UI.classList hidden)
        /\ UI.overflow (UI.timeout reopened) = "").
Proof.
  intros Hmodal reopened. subst reopened.
  unfold UI.openModal, UI.closeModal, UI.timeout, UI.closed.
  rewrite Hmodal. cbn. split; eexists; (split; [reflexivity|]); cbn.
  - rewrite elem_of_union, elem_of_singleton. by repeat split; [right|..].
  - rewrite elem_of_difference, elem_of_singleton. split; [tauto|reflexivity].
Qed.

Lemma attached_other (statusPara : nat) (p : UI.Para) (created : nat)
    (timers : list (nat * UI.Timer)) :
  statusPara <> UI.paraId p ->
  UI.attached statusPara
    {| UI.children := Some [p]; UI.created := created; UI.timers := timers |}
  = false.
Proof.
  intros Hne. unfold UI.attached. cbn. apply bool_decide_eq_false.
  rewrite list_elem_of_singleton. exact Hne.
Qed.

Lemma attached_own (p : UI.Para) (created : nat)
    (timers : list (nat * UI.Timer)) :
  UI.attached (UI.paraId p)
    {| UI.children := Some [p]; UI.created := created; UI.timers := timers |}
  = true.
Proof.
  unfold UI.attached. cbn. apply bool_decide_eq_true.
  by rewrite list_elem_of_singleton.
Qed.

Lemma paraId_fade (statusPara : nat) (p : UI.Para) :
  UI.paraId (UI.fade statusPara p) = UI.paraId p.
Proof. unfold UI.fade. by destruct (Nat.eqb _ _). Qed.

(** Running a callback keeps the callbacks and the children known. *)
Lemma known_fire (i : nat) (a : UI.StatusArea) :
  UI.known a -> UI.known (UI.fire i a).
Proof.
  intros [Htimers Hparas]. unfold UI.fire.
  destruct (UI.timers a !! i) as [[delay t]|] eqn:Ht; [|by split].
  assert (Hold : (UI.paraOf t < UI.created a)%nat)
    by (exact (proj1 (Forall_lookup _ _) Htimers i (delay, t) Ht)).
  assert (Hrest : Forall (fun t => (UI.paraOf t.2 < UI.created a)%nat)
                    (delete i (UI.timers a)))
    by (by apply Forall_delete).
  destruct t as [para|para]; cbn [UI.expire UI.paraOf] in *;
    destruct (UI.attached para _); split;
    cbn [UI.timers UI.children UI.created];
    try assumption.
  - apply Forall_app. split; [exact Hrest|]. by apply Forall_singleton.
  - intros paras. destruct (UI.children a) as [old|]; [|discriminate].
    intros [= <-]. apply Forall_map.
    eapply Forall_impl; [by apply Hparas|].
    intros p Hp. by rewrite paraId_fade.
  - intros ? [= <-]. constructor.
Qed.

(** X20.  [showStatus] replaces what the element showed by the new
    message, whose class follows the type, and schedules one callback.
    The callbacks of earlier messages that are still waiting find their
    own paragraph gone and do nothing: the new message stays.  Its own
    callback fades it, and the one that follows empties the element. *)
Theorem X20_status_outlives_older_callbacks
    (message type : string) (a : UI.StatusArea) (paras : list UI.Para) :
  UI.children a = Some paras ->
  UI.known a ->
  let shown := UI.showStatus message type a in
  let statusPara :=
    {| UI.paraId := UI.created a;
       UI.className := if String.eqb type "info" then "" else "status-" ++ type;
       UI.textContent := message;
       UI.fading := false |} in
  UI.children shown = Some [statusPara]
  /\ UI.timers shown
     = (UI.timers a ++ [(5000%nat, UI.FadeOut (UI.created a))])%list
  /\ (forall i,
        (i < length (UI.timers a))%nat ->
        UI.children (UI.fire i shown) = Some [statusPara]
        /\ UI.timers (UI.fire i shown) = delete i (UI.timers shown))
  /\ (let faded := UI.fire (length (UI.timers a)) shown in
      UI.children faded
      = Some [{| UI.paraId := UI.created a;
                 UI.className := UI.className statusPara;
                 UI.textContent := message;
                 UI.fading := true |}]
      /\ UI.timers faded
         = (UI.timers a ++ [(500%nat, UI.Clear (UI.created a))])%list
      /\ UI.children (UI.fire (length (UI.timers a)) faded) = Some []
      /\ UI.timers (UI.fire (length (UI.timers a)) faded) = UI.timers a)
  /\ UI.known shown
  /\ (forall i, UI.known (UI.fire i shown)).
Proof.
  intros Hchildren [Htimers Hparas] shown statusPara. subst shown.
  unfold UI.showStatus. rewrite Hchildren. fold statusPara. cbn [UI.children UI.timers].
  assert (Hknown :
            UI.known
              {| UI.children := Some [statusPara];
                 UI.created := S (UI.created a);
                 UI.timers :=
                   (UI.timers a
                    ++ [(5000%nat, UI.FadeOut (UI.created a))])%list |}).
  { split; cbn [UI.timers UI.children UI.created].
    - apply Forall_app. split.
      + eapply Forall_impl; [exact Htimers|]. intros t Ht. cbn in *. lia.
      + apply Forall_singleton. cbn. lia.
    - intros ? [= <-]. apply Forall_singleton. cbn. lia. }
  split; [reflexivity|]. split; [reflexivity|].
  split; [|split; [|split; [exact Hknown|intros i; by apply known_fire]]].
  - intros i Hi. unfold UI.fire. cbn [UI.timers UI.children UI.created].
    rewrite lookup_app_l by exact Hi.
    destruct (lookup_lt_is_Some_2 (UI.timers a) i Hi) as [[delay t] Ht].
    rewrite Ht.
    assert (Hold : (UI.paraOf t < UI.created a)%nat)
      by (exact (proj1 (Forall_lookup _ _) Htimers i (delay, t) Ht)).
    destruct t as [para|para]; cbn [UI.expire UI.paraOf] in *;
      rewrite attached_other by (cbn; lia); by split.
  - cbv zeta.
    assert (Hfade :
              UI.fire (length (UI.timers a))
                {| UI.children := Some [statusPara];
                   UI.created := S (UI.created a);
                   UI.timers :=
                     (UI.timers a ++ [(5000%nat, UI.FadeOut (UI.created a))])%list |}
              = {| UI.children := Some [UI.fade (UI.created a) statusPara];
                   UI.created := S (UI.created a);
                   UI.timers :=
                     (UI.timers a ++ [(500%nat, UI.Clear (UI.created a))])%list |}).
    { unfold UI.fire. cbn [UI.timers UI.children UI.created].
      rewrite list_lookup_middle by reflexivity.
      rewrite delete_middle, app_nil_r. cbn [UI.expire].
      by rewrite (attached_own statusPara). }
    rewrite Hfade. cbn [UI.children UI.timers].
    unfold UI.fire. cbn [UI.timers UI.children UI.created].
    rewrite list_lookup_middle by reflexivity.
    rewrite delete_middle, app_nil_r. cbn [UI.expire].
    assert (Hfaded :
              UI.fade (UI.created a) statusPara
              = {| UI.paraId := UI.created a;
                   UI.className := UI.className statusPara;
                   UI.textContent := message;
                   UI.fading := true |})
      by (unfold UI.fade; cbn; by rewrite Nat.eqb_refl).
    rewrite Hfaded.
    rewrite (attached_own
               {| UI.paraId := UI.created a;
                  UI.className := UI.className statusPara;
                  UI.textContent := message;
                  UI.fading := true |}).
    by repeat split.
Qed.

(** ** The escaping of search.js *)

Lemma escapeHtml5_cons (c : ascii) (rest : string) :
  escapeHtml5 (String c rest)
  = (if Ascii.eqb c "&" then "&amp;"
     else if Ascii.eqb c "<" then "&lt;"
     else if Ascii.eqb c ">" then "&gt;"
     else if Ascii.eqb c "034" then "&quot;"
     else if Ascii.eqb c "'" then "&#039;"
     else String c EmptyString) ++ escapeHtml5 rest.
Proof. reflexivity. Qed.

Ltac by_char c :=
  destruct (Ascii.eqb_spec c "&"); [subst|];
  [|destruct (Ascii.eqb_spec c "<"); [subst|];
    [|destruct (Ascii.eqb_spec c ">"); [subst|];
      [|destruct (Ascii.eqb_spec c "034"); [subst|];
        [|destruct (Ascii.eqb_spec c "'"); [subst|]]]]];
  cbv [String.append]; fold String.append.

(** X21.  The escaping of search.js leaves none of the characters that
    open or close a tag or an attribute value: whatever the text, the
    result holds no less-than sign, no greater-than sign, no double quote
    and no apostrophe, and a text without the five special characters is
    returned as it is. *)
Theorem X21_escaped_text_is_inert (text : string) :
  ~ occurs "<" (escapeHtml5 text)
  /\ ~ occurs ">" (escapeHtml5 text)
  /\ ~ occurs "034" (escapeHtml5 text)
  /\ ~ occurs "'" (escapeHtml5 text)
  /\ (~ occurs "&" text /\ ~ occurs "<" text /\ ~ occurs ">" text
      /\ ~ occurs "034" text /\ ~ occurs "'" text ->
      escapeHtml5 text = text).
Proof.
  induction text as [|c rest (IH1 & IH2 & IH3 & IH4 & IH5)];
    [cbn; tauto|].
  rewrite escapeHtml5_cons.
  by_char c; cbn [occurs];
    (split; [|split; [|split; [|split]]]);
    try (intros H; decompose [or] H; try discriminate; try congruence;
         tauto);
    try (intros (? & ? & ? & ? & ?); exfalso; tauto).
  intros (Ha & Hl & Hg & Hq & Hp). f_equal. apply IH5. tauto.
Qed.

(** X22.  The escaping of search.js loses nothing: two texts with the same
    escaped form are the same text, so the original can always be told from
    what is displayed. *)
Theorem X22_escaping_is_injective (text1 text2 : string) :
  escapeHtml5 text1 = escapeHtml5 text2 -> text1 = text2.
Proof.
  revert text2. induction text1 as [|c1 rest1 IH]; intros [|c2 rest2].
  - reflexivity.
  - rewrite escapeHtml5_cons. cbn [escapeHtml5].
    by_char c2; discriminate.
  - rewrite escapeHtml5_cons. cbn [escapeHtml5].
    by_char c1; discriminate.
  - rewrite !escapeHtml5_cons.
    by_char c1; by_char c2; intros Heq;
      try discriminate;
      injection Heq; clear Heq; intros; subst;
      try congruence; f_equal; by apply IH.
Qed.

(** ** The further properties, on the page of index.html *)

(** X2 on the page: the modal is opened, closed and opened again, and then
    the first socket reports its closing. *)
Lemma X2_reopened_modal_loses_its_socket :
  let opening :=
    fst (run friendly (react rejectAll escapeHtml5 (OpenModal "repo1") served)) in
  let reopened :=
    fst (run friendly
           (react rejectAll escapeHtml5 (OpenModal "repo1")
              (closeModal opening))) in
  exists s',
    react rejectAll escapeHtml5 (SocketClosed 0) reopened = Done s' tt
    /\ readyState 1 s' = Some OPEN
    /\ openSocket s' = None.
Proof.
  intros opening reopened.
  destruct (X2_stale_close_forgets_the_open_socket rejectAll escapeHtml5
              reopened 1 0 eq_refl eq_refl ltac:(discriminate))
    as (s' & Hs & _ & _ & Hready & _ & Hopen & _).
  by exists s'.
Defined.

(** X3 on the page: the socket of a running search closes. *)
Lemma X3_close_during_the_search :
  let searching :=
    fst (run friendly
           (startStrongSearch rejectAll escapeHtml5
              (opened "repo1" "auth flow"))) in
  strongSearchModalLogContainer
    (page (onclose rejectAll escapeHtml5 (setReadyState 0 CLOSED searching)))
  = Some [0; 1; 2; 3; 4]%nat.
Proof.
  intros searching.
  destruct (X3_close_reported_only_mid_search rejectAll escapeHtml5
              escapeHtml5_nonempty searching 0 [0; 1; 2; 3]%nat eq_refl)
    as [Hmid _].
  destruct (Hmid eq_refl) as [Hlog _]. exact Hlog.
Defined.

(** X4 on the page: the query field holds three blanks. *)
Lemma X4_three_blanks :
  exists s',
    startStrongSearch rejectAll escapeHtml5 (opened "repo1" "   ")
    = Done s' tt
    /\ trace (net s') = []
    /\ isStrongSearching (vars s') = false
    /\ logSize s' = 1%nat.
Proof.
  destruct (X4_blank_query_is_refused rejectAll escapeHtml5
              escapeHtml5_nonempty (opened "repo1" "   ")) as [_ Hblank].
  eexists. split;
    [exact (Hblank "repo1" "   " [] eq_refl eq_refl eq_refl eq_refl eq_refl)|].
  repeat split.
Defined.

(** X5 on the page: the socket of the search fails to open. *)
Lemma X5_socket_refused :
  let s' := fst (run (answering (ClientIdBody "abc123") SocketFailed
                        (BatchBody None))
                     (startStrongSearch rejectAll escapeHtml5
                        (opened "repo1" "auth flow"))) in
  isStrongSearching (vars s') = false
  /\ trace (net s')
     = [GetClientId; GotClientId "abc123";
        NewWebSocket "ws://localhost:30089/ws/strong_search/abc123" 0]
  /\ sockets (net s') = [CLOSED].
Proof.
  destruct (X5_start_when_the_socket_fails rejectAll escapeHtml5
              (opened "repo1" "auth flow") "repo1" "auth flow" "abc123"
              (BatchBody None) eq_refl eq_refl ltac:(discriminate)
              eq_refl eq_refl)
    as (Hflag & _ & Htrace & Hsockets & _).
  cbv zeta. by rewrite Hflag, Htrace, Hsockets.
Defined.


(** X7 on the page: an error frame during the search. *)
Lemma X7_error_frame_mid_search :
  let searching :=
    fst (run friendly
           (startStrongSearch rejectAll escapeHtml5
              (opened "repo1" "auth flow"))) in
  exists s',
    onmessage rejectAll escapeHtml5 (Some (ErrorFrame (JStr "boom"))) searching
    = Done s' tt
    /\ isStrongSearching (vars s') = false
    /\ strongSearchSocket (vars s') = Some 0%nat
    /\ sockets (net s') = [OPEN].
Proof.
  intros searching.
  destruct (X7_frames_other_than_results rejectAll escapeHtml5
              (Some (ErrorFrame (JStr "boom"))) searching
              ltac:(intros result; discriminate))
    as (s' & Hs & Hnet & Hsock & _ & _ & _ & _ & Hflag & _).
  exists s'. split; [exact Hs|]. by rewrite Hflag, Hsock, Hnet.
Defined.

Lemma wellStored_served : wellStored served.
Proof.
  split; intros key record H; cbn in H; by rewrite lookup_empty in H.
Qed.

(** X8 on the page as it is served, for the opening of the modal. *)
Lemma X8_while_the_modal_opens :
  always wellStored (react rejectAll escapeHtml5 (OpenModal "repo1") served).
Proof.
  exact (X8_stored_calls_stay_valid rejectAll escapeHtml5
           (OpenModal "repo1") served wellStored_served).
Defined.

(** X9 on the page as it is served, for a progress frame of 250 %. *)
Lemma X9_progress_beyond_the_end :
  always barInRange
    (react rejectAll escapeHtml5
       (SocketMessage (Some (ProgressFrame (25 # 10) ""))) served).
Proof.
  apply (X9_bar_stays_a_percentage rejectAll escapeHtml5). cbn. lia.
Defined.

(** X10 on the page: the [grep] call arrives at level info. *)
Lemma X10_call_at_level_info :
  addStrongSearchLog rejectAll escapeHtml5 grepCall "info"
    (opened "repo1" "auth flow")
  = opened "repo1" "auth flow".
Proof.
  apply (X10_named_tool_at_other_levels rejectAll escapeHtml5 grepCall "info"
           (opened "repo1" "auth flow")
           (conj eq_refl eq_refl)); discriminate.
Defined.

(** X11 on the page: the [grep] call arrives as a text, its output as an
    object. *)
Lemma X11_call_as_text_then_output :
  findToolCall grepOutput
    (addStrongSearchLog parseGrep escapeHtml5 (JStr grepCallText) "info"
       (opened "repo1" "auth flow"))
  = Some 0%nat.
Proof.
  destruct (X11_tool_call_given_as_text parseGrep escapeHtml5
              escapeHtml5_nonempty grepCallText "info"
              (opened "repo1" "auth flow") [] eq_refl eq_refl
              ltac:(discriminate)) as [Hcall _].
  destruct (Hcall grepCall eq_refl eq_refl) as [_ Hjoin].
  exact (Hjoin grepOutput eq_refl eq_refl).
Defined.

(** X12 on the page: a log frame without a message. *)
Lemma X12_frame_without_message :
  handleStrongSearchWebSocketMessage rejectAll escapeHtml5
    (LogFrame "info" JUndef) (opened "repo1" "auth flow")
  = Done (opened "repo1" "auth flow") tt.
Proof.
  destruct (X12_empty_message rejectAll escapeHtml5 "info" JUndef
              (opened "repo1" "auth flow") [] eq_refl eq_refl eq_refl)
    as [Hplain _].
  apply Hplain. discriminate.
Defined.

(** X13 on the page: the [grep] call gets two outputs. *)
Lemma X13_two_outputs_of_grep :
  let called := addStrongSearchLog rejectAll escapeHtml5 grepCall "tool_call"
                  (opened "repo1" "auth flow") in
  (outputContainer
     <$> elements
           (page (addStrongSearchLog rejectAll escapeHtml5 grepOutputAgain
                    "tool_output"
                    (addStrongSearchLog rejectAll escapeHtml5 grepOutput
                       "tool_output" called))))
  = [Some {| displayed := true; outputPreview := Some (JStr "3 matches") |}].
Proof.
  intros called.
  rewrite (X13_last_output_wins rejectAll escapeHtml5 grepOutput
             grepOutputAgain called [0%nat] 0 eq_refl
             (conj eq_refl eq_refl) (conj eq_refl eq_refl) eq_refl eq_refl).
  reflexivity.
Defined.

(** X14 on the page as it is served: the placeholder of the log goes. *)
Lemma X14_reset_of_the_served_page :
  strongSearchModalLogContainer (page (resetStrongSearchUI served)) = Some []
  /\ strongSearchModalResultContainer (page (resetStrongSearchUI served))
     = Some [].
Proof.
  destruct (X14_reset_of_the_page rejectAll escapeHtml5 served eq_refl)
    as (Hlog & _ & _ & _ & _ & _ & _ & _ & _ & _ & _ & _ & Hresult).
  by rewrite Hlog, Hresult.
Defined.

(** X15 on the page: two hundred empty objects follow the [grep] call. *)
Lemma X15_grep_after_two_hundred_entries :
  let s2 := logAll rejectAll escapeHtml5 (replicate 200 (JObj [])) "info"
              (addStrongSearchLog rejectAll escapeHtml5 grepCall "tool_call"
                 (opened "repo1" "auth flow")) in
  let s3 := addStrongSearchLog rejectAll escapeHtml5 grepOutput "tool_output"
              s2 in
  exists shown,
    strongSearchModalLogContainer (page s3) = Some shown
    /\ (0%nat ∉ shown)
    /\ (outputContainer <$> elements (page s3) !! 0%nat)
       = Some (Some {| displayed := true;
                       outputPreview := Some (JStr "no matches") |}).
Proof.
  destruct (X15_output_of_an_evicted_call rejectAll escapeHtml5
              (opened "repo1" "auth flow") [] grepCall grepOutput
              (replicate 200 (JObj [])) "info" eq_refl
              (conj eq_refl eq_refl) (conj eq_refl eq_refl) eq_refl
              (Forall_replicate _ 200 (JObj []) eq_refl)
              ltac:(rewrite length_replicate; unfold maxLogEntries; lia))
    as (shown & _ & _ & Hgone & Hlog & Hentry).
  exists shown. split; [exact Hlog|]. split; [exact Hgone|].
  exact (f_equal (fmap outputContainer) Hentry).
Defined.

(** X16 for two calls of [grep], one millisecond apart. *)
Lemma X16_grep_a_millisecond_later :
  ("grep" = "grep" /\ 1000%Z = 1000%Z)
  /\ generateToolCallId (JStr "grep") (JNum 1000)
     <> generateToolCallId (JStr "grep") (JNum 1001).
Proof.
  destruct X16_keys_tell_calls_apart as [Hapart _]. split.
  - apply (Hapart "grep" "grep" 1000%Z 1000%Z);
      [split; [lia|reflexivity]..|reflexivity].
  - intros Hsame.
    destruct (Hapart "grep" "grep" 1000%Z 1001%Z) as [_ Htime];
      [split; [lia|reflexivity]..|exact Hsame|].
    discriminate.
Defined.

(** X23 on the page: the search of the scenario is stopped and started
    again. *)
Lemma X23_second_search :
  let searching :=
    fst (run friendly
           (startStrongSearch rejectAll escapeHtml5
              (opened "repo1" "auth flow"))) in
  exists s1 k,
    startStrongSearch rejectAll escapeHtml5
      (stopStrongSearch rejectAll escapeHtml5 searching)
    = Await s1 AwaitClientId k
    /\ strongSearchSocket (vars s1) = None.
Proof.
  intros searching.
  destruct (X23_start_after_stop_reconnects rejectAll escapeHtml5 searching
              "repo1" "auth flow" eq_refl eq_refl eq_refl ltac:(discriminate))
    as (s1 & k & Hstart & _ & Hsock & _).
  by exists s1, k.
Defined.

(** X24 on the page as it is served: the placeholder is replaced by the
    entry of the connection. *)
Lemma X24_opening_on_the_served_page :
  strongSearchModalLogContainer
    (page (fst (run friendly
                  (openModal rejectAll escapeHtml5 "repo1" served))))
  = Some [1%nat].
Proof.
  destruct (X24_opening_the_modal rejectAll escapeHtml5 escapeHtml5_nonempty
              served "repo1" "abc123" "localhost:30089" (BatchBody None)
              [0%nat] eq_refl eq_refl eq_refl eq_refl eq_refl)
    as [(_ & Hlog & _) _].
  exact Hlog.
Defined.

(** X25 on the page, for the start of a search. *)
Lemma X25_while_a_search_starts :
  always ownSockets
    (react rejectAll escapeHtml5 StartSearch (opened "repo1" "auth flow")).
Proof.
  apply (X25_only_own_sockets rejectAll escapeHtml5).
  split; [exact I|]. intros sock. discriminate.
Defined.

(** X17 for a spinner that is hidden. *)
Lemma X17_spinner_shown :
  exists classList',
    UI.toggleLoading (Some {["spinner"; "hidden"]}) true = Some classList'
    /\ ("hidden" ∉ classList').
Proof.
  destruct (X17_toggle_loading (Some {["spinner"; "hidden"]}) false true)
    as (_ & Hlast & _).
  destruct (Hlast _ eq_refl) as (classList' & Hto & Hhidden & _).
  exists classList'. split; [exact Hto|].
  intros Hin. by apply Hhidden in Hin.
Defined.

(** X18 for the closed modal of the page. *)
Lemma X18_open_and_close :
  UI.timeout (UI.closeModal (UI.openModal closedModal)) = closedModal.
Proof.
  destruct (X18_close_undoes_open closedModal _ eq_refl)
    as (_ & _ & _ & Hback).
  apply Hback; try reflexivity.
  - change ("open" ∉ ({["modal"]} : gset string)).
    rewrite elem_of_singleton. discriminate.
  - by intros content [= <-].
Defined.

(** X19 for the closed modal of the page, once it is open. *)
Lemma X19_close_and_open :
  exists hidden,
    UI.modalElement
      (UI.timeout (UI.openModal (UI.closeModal (UI.openModal closedModal))))
    = Some hidden
    /\ ("open" ∉ UI.classList hidden).
Proof.
  destruct (X19_reopened_modal_is_closed_again (UI.openModal closedModal)
              _ eq_refl)
    as (_ & hidden & Hhidden & Hclosed & _).
  by exists hidden.
Defined.

Lemma known_emptyStatus : UI.known emptyStatus.
Proof. split; [constructor|]. intros ? [= <-]. constructor. Qed.

(** X20 for an upload: the notice of the upload is replaced by the one of
    its success before the callback of the first has run. *)
Lemma X20_success_after_uploading :
  let uploading := UI.showStatus "正在上传，请稍候..." "info" emptyStatus in
  let succeeded := UI.showStatus "上传成功" "success" uploading in
  (UI.textContent <$> default [] (UI.children (UI.fire 0 succeeded)))
  = ["上传成功"]
  /\ (UI.className <$> default [] (UI.children (UI.fire 0 succeeded)))
     = ["status-success"].
Proof.
  intros uploading succeeded.
  destruct (X20_status_outlives_older_callbacks "正在上传，请稍候..." "info"
              emptyStatus [] eq_refl known_emptyStatus)
    as (_ & _ & _ & _ & Hknown & _).
  destruct (X20_status_outlives_older_callbacks "上传成功" "success"
              uploading _ eq_refl Hknown)
    as (_ & _ & Holder & _).
  destruct (Holder 0%nat ltac:(cbn; lia)) as [Hshown _].
  fold succeeded in Hshown. by rewrite Hshown.
Defined.

(** X21 for a path: nothing to escape. *)
Lemma X21_path_is_kept : escapeHtml5 "src/main.py" = "src/main.py".
Proof.
  destruct (X21_escaped_text_is_inert "src/main.py") as (_ & _ & _ & _ & Hsame).
  apply Hsame. cbn. intuition discriminate.
Defined.

(** X22 for a tag and the text of its escaped form: both are shown, and
    they are shown differently. *)
Lemma X22_tag_and_entity :
  ("<b>" = "<b>")
  /\ escapeHtml5 "<b>" <> escapeHtml5 "&lt;b&gt;".
Proof.
  split.
  - exact (X22_escaping_is_injective "<b>" "<b>" eq_refl).
  - intros Hsame. by apply X22_escaping_is_injective in Hsame.
Defined.

(** X26 on the page: the modal is closed while the search of the scenario
    waits for its client id. *)
Lemma X26_closed_before_the_id_arrives :
  exists s1 k,
    startStrongSearch rejectAll escapeHtml5 (opened "repo1" "auth flow")
    = Await s1 AwaitClientId k
    /\ exists s2 k',
         k (ClientIdBody "abc123") (closeModal s1)
         = Await s2 (AwaitSocket 0) k'
         /\ exists s3,
              k' SocketOpened s2 = Done s3 tt
              /\ trace (net s3)
                 = [GetClientId; GotClientId "abc123";
                    NewWebSocket
                      "ws://localhost:30089/ws/strong_search/abc123" 0;
                    SocketSend 0 None "auth flow"].
Proof.
  destruct (X26_modal_closed_while_connecting rejectAll escapeHtml5
              (opened "repo1" "auth flow") "repo1" "auth flow" "abc123"
              "localhost:30089" eq_refl eq_refl ltac:(discriminate)
              eq_refl eq_refl eq_refl)
    as (s1 & k & Hstart & s2 & k' & Hid & s3 & Hopen & Htrace & _).
  exists s1, k. split; [exact Hstart|].
  exists s2, k'. split; [exact Hid|].
  exists s3. split; [exact Hopen|exact Htrace].
Defined.

(** X27 on the page as it is served: the modal is opened, and the search
    is started before the socket of the modal is open. *)
Lemma X27_search_started_too_early :
  let opening := react rejectAll escapeHtml5 (OpenModal "repo1") served in
  let waiting := resume friendly opening (stateOf opening) in
  let typed := stateOf (react rejectAll escapeHtml5 (TypeQuery "auth flow")
                          (stateOf waiting)) in
  let s' := fst (run friendly (startStrongSearch rejectAll escapeHtml5 typed)) in
  readyState 0 s' = Some CONNECTING
  /\ readyState 1 s' = Some OPEN
  /\ strongSearchSocket (vars s') = Some 1%nat
  /\ liveConnections s' = 2%nat.
Proof.
  intros opening waiting typed.
  destruct (X27_start_while_connecting rejectAll escapeHtml5 typed
              "repo1" "auth flow" "abc123" "localhost:30089" (BatchBody None)
              0 eq_refl eq_refl ltac:(discriminate) eq_refl eq_refl eq_refl
              eq_refl)
    as (Hheld & _ & Hfirst & Hsecond & Hlive & _).
  cbv zeta. repeat split; assumption.
Defined.

(** X28 on the page: a frame without a status, one with a status, and one
    without again. *)
Lemma X28_three_progress_frames :
  let s' := progressFrames [(1 # 10, ""); (3 # 10, "reading")]
              (opened "repo1" "auth flow") in
  shownPercent s' = Some 30%Z
  /\ (title <$> strongSearchModalProgressBar
                  (page (progressFrames [(5 # 10, "")] s')))
     = Some (Some "reading").
Proof.
  destruct (X28_bar_after_progress_frames (opened "repo1" "auth flow")
              {| percent := 0; title := None |} [(1 # 10, "")] (3 # 10)
              "reading" eq_refl)
    as (Hpercent & Htitle & _).
  split; [exact Hpercent|].
  apply Htitle; [discriminate|]. by repeat constructor.
Defined.
